(** * gwc-exporter: the extraction pipeline of [Collect]

    A shallow embedding of [src/gwc-exporter.go].  The Go packages the
    exporter calls ([strings], [regexp], [strconv], [time], [fmt]) are
    modelled in modules of the same name, so that the exporter's own
    functions read like their source.  Strings are byte strings
    ([String.string]); every pattern of the exporter starts with an ASCII
    literal and follows each negated class or [.] by an ASCII literal or
    the end of the pattern, so matching bytes and matching UTF-8 runes
    select the same substrings. *)

From Stdlib Require Import ZArith List Bool Ascii String Lia.
From Stdlib Require Import Floats.SpecFloat.
Import ListNotations.

Open Scope string_scope.
Open Scope Z_scope.

(** ** Package [strings] *)

Module strings.

(** [p] is a prefix of [s]. *)
Fixpoint prefix (p s : string) : bool :=
  match p, s with
  | EmptyString, _ => true
  | String a p', String b s' => Ascii.eqb a b && prefix p' s'
  | String _ _, EmptyString => false
  end.

(** [strings.HasPrefix(s, prefix)] *)
Definition HasPrefix (s p : string) : bool := prefix p s.

(** [strings.Contains(s, substr)] *)
Fixpoint Contains (s sub : string) : bool :=
  prefix sub s ||
  match s with
  | EmptyString => false
  | String _ s' => Contains s' sub
  end.

(** The scan of [strings.ReplaceAll] for a non-empty [old]: [skip] counts
    the bytes of a replaced occurrence that are still to be passed over. *)
Fixpoint replace_from (old new s : string) (skip : nat) : string :=
  match s with
  | EmptyString => EmptyString
  | String c s' =>
      match skip with
      | S n => replace_from old new s' n
      | O => if prefix old s
             then new ++ replace_from old new s' (Nat.pred (String.length old))
             else String c (replace_from old new s' O)
      end
  end.

(** [strings.ReplaceAll(s, old, new)]: the non-overlapping occurrences of
    [old], leftmost first.  Both call sites pass a non-empty constant
    [old]; for an empty [old] Go inserts [new] around every rune, which
    is outside this model (the string is returned unchanged). *)
Definition ReplaceAll (s old new : string) : string :=
  match old with
  | EmptyString => s
  | _ => replace_from old new s O
  end.

Definition lower (c : ascii) : ascii :=
  let n := nat_of_ascii c in
  if (Nat.leb 65 n && Nat.leb n 90)%bool then ascii_of_nat (n + 32) else c.

(** [strings.ToLower] on ASCII letters (the exporter applies it to a unit
    word captured by its own pattern). *)
Fixpoint ToLower (s : string) : string :=
  match s with
  | EmptyString => EmptyString
  | String c s' => String (lower c) (ToLower s')
  end.

(** The UTF-8 encodings of the code points with the Unicode White_Space
    property, which is what [unicode.IsSpace] tests. *)
Definition spaces : list string :=
  map string_of_list_ascii
    (map (map ascii_of_nat)
       [ [9%nat]; [10%nat]; [11%nat]; [12%nat]; [13%nat]; [32%nat];
         [194; 133]%nat; [194; 160]%nat; [225; 154; 128]%nat;
         [226; 128; 128]%nat; [226; 128; 129]%nat; [226; 128; 130]%nat;
         [226; 128; 131]%nat; [226; 128; 132]%nat; [226; 128; 133]%nat;
         [226; 128; 134]%nat; [226; 128; 135]%nat; [226; 128; 136]%nat;
         [226; 128; 137]%nat; [226; 128; 138]%nat; [226; 128; 168]%nat;
         [226; 128; 169]%nat; [226; 128; 175]%nat; [226; 129; 159]%nat;
         [227; 128; 128]%nat ]).

Fixpoint drop (n : nat) (s : string) : string :=
  match n, s with
  | S n', String _ s' => drop n' s'
  | _, _ => s
  end.

Fixpoint take (n : nat) (s : string) : string :=
  match n, s with
  | S n', String c s' => String c (take n' s')
  | _, _ => EmptyString
  end.

Fixpoint rev_onto (s acc : string) : string :=
  match s with
  | EmptyString => acc
  | String c s' => rev_onto s' (String c acc)
  end.

Definition rev (s : string) : string := rev_onto s EmptyString.

(** The space, if any, that [s] starts with. *)
Definition leading_space (s : string) : option string :=
  find (fun w => prefix w s) spaces.

Fixpoint trim_left (fuel : nat) (s : string) : string :=
  match fuel with
  | O => s
  | S f =>
      match leading_space s with
      | Some w => trim_left f (drop (String.length w) s)
      | None => s
      end
  end.

Definition TrimLeftSpace (s : string) : string :=
  trim_left (String.length s) s.

(** Trailing spaces are found on the reversed string, against the
    reversed encodings. *)
Definition trailing_space (r : string) : option string :=
  find (fun w => prefix (rev w) r) spaces.

Fixpoint trim_right (fuel : nat) (r : string) : string :=
  match fuel with
  | O => r
  | S f =>
      match trailing_space r with
      | Some w => trim_right f (drop (String.length w) r)
      | None => r
      end
  end.

Definition TrimRightSpace (s : string) : string :=
  rev (trim_right (String.length s) (rev s)).

(** [strings.TrimSpace] *)
Definition TrimSpace (s : string) : string :=
  TrimRightSpace (TrimLeftSpace s).

End strings.

(** ** Package [regexp]

    The fragment of RE2 syntax that the exporter's patterns use: literals,
    [\s], escaped punctuation, [.], bracket classes of characters and
    ranges, the greedy quantifiers [*], [+], [?], [{n}], [{n,m}] on a
    single-character atom, capturing groups and alternation.  Matching is
    Go's leftmost-first semantics: at the leftmost position where a match
    exists, the match a backtracking search finds first. *)

Module regexp.

(** Single-character atoms. *)
Inductive cset : Type :=
| CLit (c : ascii)
| CAny
| CSpace
| CClass (neg : bool) (items : list (ascii * ascii)).

Definition in_range (lo hi c : ascii) : bool :=
  (N.leb (N_of_ascii lo) (N_of_ascii c) && N.leb (N_of_ascii c) (N_of_ascii hi))%bool.

(** [\s] is [[\t\n\f\r ]] in RE2. *)
Definition is_space (c : ascii) : bool :=
  match N_of_ascii c with
  | 9%N | 10%N | 12%N | 13%N | 32%N => true
  | _ => false
  end.

Definition mem (cs : cset) (c : ascii) : bool :=
  match cs with
  | CLit d => Ascii.eqb d c
  | CAny => negb (Ascii.eqb c (ascii_of_nat 10))
  | CSpace => is_space c
  | CClass neg items =>
      xorb neg (existsb (fun i => in_range (fst i) (snd i) c) items)
  end.

Inductive re : Type :=
| REmpty
| RSet (cs : cset)
| RRep (cs : cset) (lo : nat) (hi : option nat)
| RSeq (r1 r2 : re)
| RAlt (r1 r2 : re)
| RGroup (i : nat) (r : re).

(** Captured substrings, most recent first. *)
Definition captures : Type := list (nat * string).

Definition more (hi : option nat) : bool :=
  match hi with Some O => false | _ => true end.

Definition less (hi : option nat) : option nat :=
  match hi with Some n => Some (Nat.pred n) | None => None end.

(** Greedy repetition of a single-character atom, between [lo] and [hi]
    times: the longest run is tried first, then shorter ones. *)
Fixpoint rep {A : Type} (cs : cset) (lo : nat) (hi : option nat)
         (s : string) (k : string -> option A) : option A :=
  let stop := match lo with O => k s | S _ => None end in
  match s with
  | EmptyString => stop
  | String c s' =>
      if (more hi && mem cs c)%bool
      then match rep cs (Nat.pred lo) (less hi) s' k with
           | Some r => Some r
           | None => stop
           end
      else stop
  end.

(** The backtracking matcher, in continuation-passing style: [k] is
    what remains to be matched after [r]. *)
Fixpoint exec {A : Type} (r : re) (s : string) (caps : captures)
         (k : string -> captures -> option A) : option A :=
  match r with
  | REmpty => k s caps
  | RSet cs =>
      match s with
      | String c s' => if mem cs c then k s' caps else None
      | EmptyString => None
      end
  | RRep cs lo hi => rep cs lo hi s (fun s' => k s' caps)
  | RSeq r1 r2 => exec r1 s caps (fun s' caps' => exec r2 s' caps' k)
  | RAlt r1 r2 =>
      match exec r1 s caps k with
      | Some x => Some x
      | None => exec r2 s caps k
      end
  | RGroup i r1 =>
      exec r1 s caps
        (fun s' caps' =>
           k s' ((i, strings.take (String.length s - String.length s') s) :: caps'))
  end.

(** A match anchored at the start of [s]: the rest of the input after
    the match, and the captures. *)
Definition match_at (r : re) (s : string) : option (string * captures) :=
  exec r s [] (fun s' caps => Some (s', caps)).

(** The leftmost match: the matched text and the captures. *)
Fixpoint search (r : re) (s : string) : option (string * captures) :=
  match match_at r s with
  | Some (s', caps) =>
      Some (strings.take (String.length s - String.length s') s, caps)
  | None =>
      match s with
      | EmptyString => None
      | String _ s' => search r s'
      end
  end.

Fixpoint groups (r : re) : nat :=
  match r with
  | RSeq r1 r2 | RAlt r1 r2 => Nat.max (groups r1) (groups r2)
  | RGroup i r1 => Nat.max i (groups r1)
  | _ => O
  end.

Fixpoint lookup (i : nat) (caps : captures) : string :=
  match caps with
  | [] => EmptyString
  | (j, v) :: caps' => if Nat.eqb i j then v else lookup i caps'
  end.

(** [re.FindStringSubmatch(s)]: [nil] when nothing matches, otherwise
    the matched text followed by one entry per capturing group. *)
Definition FindStringSubmatch (r : re) (s : string) : list string :=
  match search r s with
  | None => []
  | Some (whole, caps) =>
      whole :: map (fun i => lookup i caps) (seq 1 (groups r))
  end.

(** [re.ReplaceAllString(src, repl)] for a pattern that matches no empty
    string and a replacement without [$]: every non-overlapping match,
    leftmost first, becomes [repl].  [skip] counts the bytes of the
    current match still to be passed over. *)
Fixpoint replace_from (r : re) (repl s : string) (skip : nat) : string :=
  match s with
  | EmptyString => EmptyString
  | String c s' =>
      match skip with
      | S n => replace_from r repl s' n
      | O =>
          match match_at r s with
          | Some (rest, _) =>
              match (String.length s - String.length rest)%nat with
              | S n => repl ++ replace_from r repl s' n
              | O => String c (replace_from r repl s' O)
              end
          | None => String c (replace_from r repl s' O)
          end
      end
  end.

Definition ReplaceAllString (r : re) (src repl : string) : string :=
  replace_from r repl src O.

(** *** Compiling a pattern *)

Definition is_digit (c : ascii) : bool := in_range "0" "9" c.

Definition digit_val (c : ascii) : nat :=
  (nat_of_ascii c - 48)%nat.

Definition is_word (c : ascii) : bool :=
  (in_range "0" "9" c || in_range "a" "z" c || in_range "A" "Z" c
   || Ascii.eqb c "_")%bool.

(** A run of decimal digits. *)
Fixpoint number (p : string) (acc : option nat) : option nat * string :=
  match p with
  | String c p' =>
      if is_digit c
      then number p' (Some (match acc with Some n => n * 10 | None => O end
                            + digit_val c)%nat)
      else (acc, p)
  | EmptyString => (acc, p)
  end.

Definition eqc (c d : ascii) : bool := Ascii.eqb c d.

(** The items of a bracket class, up to the closing bracket: single
    characters and ranges [lo-hi]; escapes inside a class are outside
    the fragment. *)
Fixpoint class_items (p : string) (acc : list (ascii * ascii))
  : option (list (ascii * ascii) * string) :=
  match p with
  | EmptyString => None
  | String c p' =>
      if eqc c "]" then Some (List.rev acc, p')
      else if eqc c "\" then None
      else
        match p' with
        | String d (String hi p'') =>
            if (eqc d "-" && negb (eqc hi "]"))%bool
            then if eqc hi "\" then None
                 else class_items p'' ((c, hi) :: acc)
            else class_items p' ((c, c) :: acc)
        | _ => class_items p' ((c, c) :: acc)
        end
  end.

Definition class (p : string) : option (cset * string) :=
  let items (neg : bool) (q : string) :=
    match class_items q [] with
    | Some (l, rest) => Some (CClass neg l, rest)
    | None => None
    end in
  match p with
  | String c p' => if eqc c "^" then items true p' else items false p
  | EmptyString => None
  end.

Definition starts (c : ascii) (p : string) : bool :=
  match p with
  | String d _ => eqc c d
  | EmptyString => false
  end.

(** The quantifier, if any, that follows a single-character atom; the
    non-greedy forms are outside the fragment. *)
Definition quantified (cs : cset) (p : string) : option (re * string) :=
  let greedy (q : re) (rest : string) :=
    if starts "?" rest then None else Some (q, rest) in
  match p with
  | String c p' =>
      if eqc c "*" then greedy (RRep cs 0 None) p'
      else if eqc c "+" then greedy (RRep cs 1 None) p'
      else if eqc c "?" then greedy (RRep cs 0 (Some 1%nat)) p'
      else if eqc c "{" then
        match number p' None with
        | (Some lo, String d rest) =>
            if eqc d "}" then greedy (RRep cs lo (Some lo)) rest
            else if eqc d "," then
              match number rest None with
              | (hi, String e rest') =>
                  if eqc e "}" then
                    match hi with
                    | Some h => if Nat.leb lo h
                                then greedy (RRep cs lo (Some h)) rest'
                                else None
                    | None => greedy (RRep cs lo None) rest'
                    end
                  else None
              | _ => None
              end
            else None
        | _ => None
        end
      else Some (RSet cs, p)
  | EmptyString => Some (RSet cs, p)
  end.

Definition quantifier_next (p : string) : bool :=
  (starts "*" p || starts "+" p || starts "?" p || starts "{" p)%bool.

(** Recursive descent over the pattern; [g] is the number of groups
    opened so far.  A pattern outside the fragment is refused. *)
Fixpoint alternation (fuel : nat) (p : string) (g : nat)
  : option (re * string * nat) :=
  match fuel with
  | O => None
  | S f =>
      match sequence f p g with
      | Some (r1, rest, g1) =>
          if starts "|" rest then
            match alternation f (strings.drop 1 rest) g1 with
            | Some (r2, rest', g2) => Some (RAlt r1 r2, rest', g2)
            | None => None
            end
          else Some (r1, rest, g1)
      | None => None
      end
  end
with sequence (fuel : nat) (p : string) (g : nat)
  : option (re * string * nat) :=
  match fuel with
  | O => None
  | S f =>
      if (starts "|" p || starts ")" p)%bool then Some (REmpty, p, g)
      else
        match p with
        | EmptyString => Some (REmpty, p, g)
        | _ =>
            match atom f p g with
            | Some (r1, p', g1) =>
                match sequence f p' g1 with
                | Some (REmpty, rest, g2) => Some (r1, rest, g2)
                | Some (r2, rest, g2) => Some (RSeq r1 r2, rest, g2)
                | None => None
                end
            | None => None
            end
        end
  end
with atom (fuel : nat) (p : string) (g : nat)
  : option (re * string * nat) :=
  match fuel with
  | O => None
  | S f =>
      let single (cs : cset) (rest : string) :=
        match quantified cs rest with
        | Some (r, rest') => Some (r, rest', g)
        | None => None
        end in
      match p with
      | EmptyString => None
      | String c p' =>
          if eqc c "(" then
            if starts "?" p' then None
            else
              match alternation f p' (S g) with
              | Some (r, rest, g') =>
                  if (starts ")" rest
                      && negb (quantifier_next (strings.drop 1 rest)))%bool
                  then Some (RGroup (S g) r, strings.drop 1 rest, g')
                  else None
              | None => None
              end
          else if eqc c "[" then
            match class p' with
            | Some (cs, rest) => single cs rest
            | None => None
            end
          else if eqc c "." then single CAny p'
          else if eqc c "\" then
            match p' with
            | String e p'' =>
                if eqc e "s" then single CSpace p''
                else if is_word e then None
                else single (CLit e) p''
            | EmptyString => None
            end
          else if (eqc c "*" || eqc c "+" || eqc c "?" || eqc c "^"
                   || eqc c "$")%bool then None
          else single (CLit c) p'
      end
  end.

(** [regexp.Compile]: [None] stands for the error. *)
Definition Compile (p : string) : option re :=
  match alternation (4 * String.length p + 4) p O with
  | Some (r, EmptyString, _) => Some r
  | _ => None
  end.

(** [regexp.MustCompile] panics when [Compile] fails; the exporter only
    compiles constant patterns, all of which compile (lemma
    [patterns_compile] below), so the panic is modelled by a pattern
    that matches nothing. *)
Definition MustCompile (p : string) : re :=
  match Compile p with
  | Some r => r
  | None => RSet (CClass false [])
  end.

Definition is_meta (c : ascii) : bool :=
  existsb (Ascii.eqb c)
    (list_ascii_of_string "\.+*?()|[]{}^$").

(** [regexp.QuoteMeta] *)
Fixpoint QuoteMeta (s : string) : string :=
  match s with
  | EmptyString => EmptyString
  | String c s' =>
      if is_meta c then String "\" (String c (QuoteMeta s'))
      else String c (QuoteMeta s')
  end.

End regexp.

(** ** Package [fmt] *)

Module fmt.

(** [fmt.Sprintf(format, a)] for a format whose only verb is one [%s]
    and a string argument. *)
Fixpoint Sprintf (format a : string) : string :=
  match format with
  | String "%" (String "s" rest) => a ++ rest
  | String c rest => String c (Sprintf rest a)
  | EmptyString => EmptyString
  end.

End fmt.

(** ** Numbers

    [int64] values are integers in [[-2^63, 2^63)]; [float64] values are
    IEEE 754 binary64 numbers, as specified by [SpecFloat] with a 53-bit
    mantissa and round-to-nearest-even. *)

Definition float64 : Type := spec_float.

Module f64.

Definition prec : Z := 53.
Definition emax : Z := 1024.

(** [float64(i)] for an integer [i]. *)
Definition of_int (i : Z) : float64 := binary_normalize prec emax i 0 false.

Definition mul (x y : float64) : float64 := SFmul prec emax x y.

(** [x >= y] *)
Definition geb (x y : float64) : bool := SFleb y x.

(** The integer part of a finite value, rounded toward zero. *)
Definition trunc (x : float64) : option Z :=
  match x with
  | S754_zero _ => Some 0
  | S754_finite s m e =>
      let a := if 0 <=? e then Z.pos m * 2 ^ e else Z.pos m / 2 ^ (- e) in
      Some (if s then - a else a)
  | _ => None
  end.

(** The decimal number [m * 10^e], correctly rounded. *)
Definition of_decimal (neg : bool) (m : Z) (e : Z) : float64 :=
  match m with
  | Z.pos p =>
      if 0 <=? e
      then binary_normalize prec emax
             (if neg then - (m * 10 ^ e) else m * 10 ^ e) 0 false
      else SFdiv prec emax (S754_finite neg p 0)
             (S754_finite false (Z.to_pos (10 ^ (- e))) 0)
  | _ => S754_zero neg
  end.

Definition div (x y : float64) : float64 := SFdiv prec emax x y.

End f64.

(** ** The process environment

    Two results that Go leaves to the platform and the process, and that
    the exporter's output can depend on. *)

Record Env : Type := {
  (** the value of [int64(f)] when [f] is NaN, infinite or outside the
      range of [int64], which the language leaves to the implementation *)
  int64_out_of_range : float64 -> Z;
  (** how [time.Parse] finishes a value whose text after the seconds
      field is not the zone [GMT] after spaces (a fractional second,
      another zone abbreviation, GMT with an hour offset): [None] when it
      rejects the text, otherwise the offset in seconds that it
      subtracts, which it takes from the process's local zone table; the
      arguments are that text and the date and time read so far, as
      seconds since the epoch *)
  zone_tail : string -> Z -> option Z
}.

(** [int64(f)] *)
Definition int64_of_float (env : Env) (f : float64) : Z :=
  match f64.trunc f with
  | Some i =>
      if (- 2 ^ 63 <=? i) && (i <? 2 ^ 63) then i
      else int64_out_of_range env f
  | None => int64_out_of_range env f
  end.

(** ** Package [strconv] *)

Module strconv.

Definition digit (c : ascii) : option Z :=
  if regexp.is_digit c then Some (Z.of_nat (regexp.digit_val c)) else None.

(** The value of a string of decimal digits; [None] on any other
    character. *)
Fixpoint digits (s : string) (acc : Z) : option Z :=
  match s with
  | EmptyString => Some acc
  | String c s' =>
      match digit c with
      | Some d => digits s' (acc * 10 + d)
      | None => None
      end
  end.

Definition signed (s : string) : bool * string :=
  match s with
  | String c s' =>
      if regexp.eqc c "+" then (false, s')
      else if regexp.eqc c "-" then (true, s')
      else (false, s)
  | EmptyString => (false, s)
  end.

(** [strconv.ParseInt(s, 10, 64)]: [None] stands for a non-nil error
    (empty input, a character that is not a digit, or a value outside
    [int64]). *)
Definition ParseInt (s : string) : option Z :=
  let (neg, body) := signed s in
  match body with
  | EmptyString => None
  | _ =>
      match digits body 0 with
      | Some un =>
          if neg
          then if un <=? 2 ^ 63 then Some (- un) else None
          else if un <? 2 ^ 63 then Some un else None
      | None => None
      end
  end.

(** The mantissa of a decimal literal: the digits read as an integer,
    the number of digits after the point, whether a digit was seen,
    and the rest of the input.  [point] records that the point has
    been passed. *)
Fixpoint mantissa (s : string) (point : bool) (m : Z) (frac : Z)
         (seen : bool) : Z * Z * bool * string :=
  match s with
  | EmptyString => (m, frac, seen, s)
  | String c s' =>
      match digit c with
      | Some d =>
          mantissa s' point (m * 10 + d) (if point then frac + 1 else frac) true
      | None =>
          if (regexp.eqc c "." && negb point)%bool
          then mantissa s' true m frac seen
          else (m, frac, seen, s)
      end
  end.

(** The digits of an exponent; like Go, the value stops growing once
    it has reached 10000. *)
Fixpoint exponent (s : string) (acc : Z) : option Z :=
  match s with
  | EmptyString => Some acc
  | String c s' =>
      match digit c with
      | Some d => exponent s' (if acc <? 10000 then acc * 10 + d else acc)
      | None => None
      end
  end.

Definition special (s : string) : option float64 :=
  let (neg, body) := signed s in
  let word := strings.ToLower body in
  if (String.eqb word "inf" || String.eqb word "infinity")%bool
  then Some (S754_infinity neg)
  else if String.eqb (strings.ToLower s) "nan" then Some S754_nan
  else None.

(** [strconv.ParseFloat(s, 64)] on decimal input: an optional sign,
    digits with at most one point, an optional exponent, or one of the
    words for an infinity or NaN.  [None] stands for a non-nil error:
    a syntax error, or a value that rounds to an infinity.
    Hexadecimal literals and digit-separating underscores are outside
    the model; the exporter only converts text captured by [[0-9.]+]. *)
Definition ParseFloat (s : string) : option float64 :=
  match special s with
  | Some f => Some f
  | None =>
      let (neg, body) := signed s in
      match mantissa body false 0 0 false with
      | (m, frac, true, rest) =>
          let finish (e : Z) :=
            match f64.of_decimal neg m (e - frac) with
            | S754_infinity _ => None
            | f => Some f
            end in
          match rest with
          | EmptyString => finish 0
          | String c rest' =>
              if (regexp.eqc c "e" || regexp.eqc c "E")%bool then
                let (eneg, edigits) := signed rest' in
                match edigits with
                | EmptyString => None
                | _ =>
                    match exponent edigits 0 with
                    | Some e => finish (if eneg then - e else e)
                    | None => None
                    end
                end
              else None
          end
      | _ => None
      end
  end.

End strconv.

(** ** Package [time] *)

Module time.

(** A [time.Time], as seconds since the Unix epoch. *)
Definition Time : Type := Z.

(** [t.Unix()] *)
Definition Unix (t : Time) : Z := t.

Definition shortDayNames : list string :=
  ["Sun"; "Mon"; "Tue"; "Wed"; "Thu"; "Fri"; "Sat"].

Definition shortMonthNames : list string :=
  ["Jan"; "Feb"; "Mar"; "Apr"; "May"; "Jun";
   "Jul"; "Aug"; "Sep"; "Oct"; "Nov"; "Dec"].

Definition is_letter (c : ascii) : bool :=
  (regexp.in_range "a" "z" c || regexp.in_range "A" "Z" c)%bool.

(** [match]: equality of two strings of the same length, ignoring the
    case of ASCII letters. *)
Fixpoint same_fold (s1 s2 : string) : bool :=
  match s1, s2 with
  | String c1 r1, String c2 r2 =>
      (Ascii.eqb c1 c2
       || (is_letter c1 && Ascii.eqb (strings.lower c1) (strings.lower c2)))
      && same_fold r1 r2
  | EmptyString, EmptyString => true
  | _, _ => false
  end.

(** [lookup]: the index of the first name of [tab] that [val] starts
    with, and the rest of [val]. *)
Fixpoint lookup (tab : list string) (val : string) (i : Z)
  : option (Z * string) :=
  match tab with
  | [] => None
  | v :: tab' =>
      if (Nat.leb (String.length v) (String.length val)
          && same_fold (strings.take (String.length v) val) v)%bool
      then Some (i, strings.drop (String.length v) val)
      else lookup tab' val (i + 1)
  end.

(** [getnum]: one or two digits; exactly two when [fixed]. *)
Definition getnum (s : string) (fixed : bool) : option (Z * string) :=
  match s with
  | String c1 s1 =>
      match strconv.digit c1 with
      | Some d1 =>
          match s1 with
          | String c2 s2 =>
              match strconv.digit c2 with
              | Some d2 => Some (d1 * 10 + d2, s2)
              | None => if fixed then None else Some (d1, s1)
              end
          | EmptyString => if fixed then None else Some (d1, s1)
          end
      | None => None
      end
  | EmptyString => None
  end.

(** [cutspace]: [s] without its leading spaces. *)
Fixpoint cutspace (s : string) : string :=
  match s with
  | String c s' => if Ascii.eqb c " " then cutspace s' else s
  | EmptyString => s
  end.

Fixpoint skip_from (fuel : nat) (value prefix : string) : option string :=
  match fuel with
  | O => None
  | S f =>
      match prefix with
      | EmptyString => Some value
      | String p prefix' =>
          if Ascii.eqb p " " then
            match value with
            | String v _ =>
                if Ascii.eqb v " "
                then skip_from f (cutspace value) (cutspace prefix)
                else None
            | EmptyString => skip_from f value (cutspace prefix)
            end
          else
            match value with
            | String v value' =>
                if Ascii.eqb v p then skip_from f value' prefix' else None
            | EmptyString => None
            end
      end
  end.

(** [skip]: the literal text of the layout between two fields is
    removed from [value]; a space of the layout stands for a run of
    spaces of [value], or for its end. *)
Definition skip (value prefix : string) : option string :=
  skip_from (S (String.length prefix)) value prefix.

(** The four digits of a year. *)
Definition year4 (s : string) : option (Z * string) :=
  if Nat.leb 4 (String.length s)
  then match strconv.digits (strings.take 4 s) 0 with
       | Some y => Some (y, strings.drop 4 s)
       | None => None
       end
  else None.

Definition isLeap (year : Z) : bool :=
  (year mod 4 =? 0) && (negb (year mod 100 =? 0) || (year mod 400 =? 0)).

Definition daysIn (month year : Z) : Z :=
  if month =? 2 then (if isLeap year then 29 else 28)
  else if (month =? 4) || (month =? 6) || (month =? 9) || (month =? 11)
  then 30 else 31.

(** Days from 1970-01-01 to the given date of the proleptic Gregorian
    calendar. *)
Definition days_from_civil (y m d : Z) : Z :=
  let y' := if m <=? 2 then y - 1 else y in
  let era := y' / 400 in
  let yoe := y' - era * 400 in
  let doy := (153 * (if 2 <? m then m - 3 else m + 9) + 2) / 5 + d - 1 in
  let doe := yoe * 365 + yoe / 4 - yoe / 100 + doy in
  era * 146097 + doe - 719468.

(** [time.Date(year, month, day, hour, min, sec, 0, time.UTC)] *)
Definition Date (year month day hour min sec : Z) : Time :=
  days_from_civil year month day * 86400 + hour * 3600 + min * 60 + sec.

Definition bind {A B : Type} (x : option A) (f : A -> option B) : option B :=
  match x with
  | Some a => f a
  | None => None
  end.

Notation "'do' x <- e ; k" := (bind e (fun x => k))
  (at level 10, x pattern, e at level 100, k at level 200).

(** [time.Parse(time.RFC1123, value)], the layout being
    ["Mon, 02 Jan 2006 15:04:05 MST"]; [None] stands for the error. *)
Definition ParseRFC1123 (env : Env) (value : string) : option Time :=
  do (_, value) <- lookup shortDayNames value 0;
  do value <- skip value ", ";
  do (day, value) <- getnum value true;
  do value <- skip value " ";
  do (month0, value) <- lookup shortMonthNames value 0;
  do value <- skip value " ";
  do (year, value) <- year4 value;
  do value <- skip value " ";
  do (hour, value) <- getnum value false;
  if 24 <=? hour then None else
  do value <- skip value ":";
  do (min, value) <- getnum value true;
  if 60 <=? min then None else
  do value <- skip value ":";
  do (sec, value) <- getnum value true;
  if 60 <=? sec then None else
  let month := month0 + 1 in
  let t := Date year month day hour min sec in
  do offset <- (match skip value " " with
              | Some zone =>
                  if String.eqb zone "GMT" then Some 0 else zone_tail env value t
              | None => zone_tail env value t
              end);
  if (day <? 1) || (daysIn month year <? day) then None
  else Some (t - offset).

(** A [time.Duration]: an [int64] count of nanoseconds. *)
Definition Duration : Type := Z.

Definition Nanosecond : Duration := 1.
Definition Microsecond : Duration := 1000 * Nanosecond.
Definition Millisecond : Duration := 1000 * Microsecond.
Definition Second : Duration := 1000 * Millisecond.
Definition Minute : Duration := 60 * Second.
Definition Hour : Duration := 60 * Minute.

(** [unitMap]; the two spellings of the microsecond have the micro sign
    U+00B5 and the Greek letter mu U+03BC, in UTF-8. *)
Definition unitMap : list (string * Z) :=
  [("ns", Nanosecond);
   ("us", Microsecond);
   (String (ascii_of_nat 194) (String (ascii_of_nat 181) "s"), Microsecond);
   (String (ascii_of_nat 206) (String (ascii_of_nat 188) "s"), Microsecond);
   ("ms", Millisecond);
   ("s", Second);
   ("m", Minute);
   ("h", Hour)].

Fixpoint unit_of (tab : list (string * Z)) (u : string) : option Z :=
  match tab with
  | [] => None
  | (name, v) :: tab' => if String.eqb u name then Some v else unit_of tab' u
  end.

(** [leadingInt]: the number that the leading digits of [s] stand for,
    counted on from [x], and the rest of [s]; [None] stands for the
    error, an overflow beyond [1<<63]. *)
Fixpoint leadingInt (s : string) (x : Z) : option (Z * string) :=
  match s with
  | String c s' =>
      match strconv.digit c with
      | Some d =>
          if 2 ^ 63 / 10 <? x then None
          else
            let x := x * 10 + d in
            if 2 ^ 63 <? x then None else leadingInt s' x
      | None => Some (x, s)
      end
  | EmptyString => Some (x, s)
  end.

(** [leadingFraction]: the leading digits of [s] as a number and the
    power of ten to divide it by; digits that would overflow are passed
    over. *)
Fixpoint leadingFraction (s : string) (x : Z) (scale : float64)
         (overflow : bool) : Z * float64 * string :=
  match s with
  | String c s' =>
      match strconv.digit c with
      | Some d =>
          if overflow then leadingFraction s' x scale true
          else if (2 ^ 63 - 1) / 10 <? x then leadingFraction s' x scale true
          else
            let y := x * 10 + d in
            if 2 ^ 63 <? y then leadingFraction s' x scale true
            else leadingFraction s' y (f64.mul scale (f64.of_int 10)) false
      | None => (x, scale, s)
      end
  | EmptyString => (x, scale, s)
  end.

Definition number_char (c : ascii) : bool :=
  Ascii.eqb c "." || regexp.is_digit c.

(** The unit that [s] starts with, up to the next digit or point, and
    the rest of [s]. *)
Fixpoint unit_and_rest (s : string) : string * string :=
  match s with
  | String c s' =>
      if number_char c then (EmptyString, s)
      else let (u, rest) := unit_and_rest s' in (String c u, rest)
  | EmptyString => (EmptyString, s)
  end.

(** [uint64(f)]; [out_of_range] is the value for a NaN, an infinity or
    a number outside the range of [uint64], which the language leaves
    to the implementation. *)
Definition uint64_of_float (out_of_range : float64 -> Z) (f : float64) : Z :=
  match f64.trunc f with
  | Some i => if (0 <=? i) && (i <? 2 ^ 64) then i else out_of_range f
  | None => out_of_range f
  end.

(** The loop of [ParseDuration] over the terms of a duration, [d] being
    the [uint64] sum so far. *)
Fixpoint terms (out_of_range : float64 -> Z) (fuel : nat) (s : string) (d : Z)
  : option Z :=
  match fuel with
  | O => None
  | S fuel' =>
      match s with
      | EmptyString => Some d
      | String c _ =>
          (* The next character must be a digit or the point. *)
          if negb (number_char c) then None
          else
            (* Consume the digits before the point. *)
            match leadingInt s 0 with
            | None => None
            | Some (v, s1) =>
                let pre := negb (Nat.eqb (String.length s) (String.length s1)) in
                (* Consume the point and the digits after it. *)
                let '(f, scale, s2, post) :=
                  match s1 with
                  | String p s1' =>
                      if Ascii.eqb p "."
                      then
                        let '(f, scale, s2) :=
                          leadingFraction s1' 0 (f64.of_int 1) false in
                        (f, scale, s2,
                         negb (Nat.eqb (String.length s1') (String.length s2)))
                      else (0, f64.of_int 1, s1, false)
                  | EmptyString => (0, f64.of_int 1, s1, false)
                  end in
                if negb pre && negb post then None
                else
                  (* Consume unit. *)
                  let (u, s3) := unit_and_rest s2 in
                  match u with
                  | EmptyString => None
                  | _ =>
                      match unit_of unitMap u with
                      | None => None
                      | Some unit =>
                          if 2 ^ 63 / unit <? v then None
                          else
                            let v := v * unit in
                            let v :=
                              if 0 <? f
                              then v + uint64_of_float out_of_range
                                         (f64.mul (f64.of_int f)
                                            (f64.div (f64.of_int unit) scale))
                              else v in
                            if (0 <? f) && (2 ^ 63 <? v) then None
                            else
                              let d := (d + v) mod 2 ^ 64 in
                              if 2 ^ 63 <? d then None
                              else terms out_of_range fuel' s3 d
                      end
                  end
            end
      end
  end.

(** [time.ParseDuration]; [None] stands for the error.  Every turn of
    the loop takes at least one character, so the length of the text is
    fuel enough. *)
Definition ParseDuration (out_of_range : float64 -> Z) (s : string)
  : option Duration :=
  (* Consume the sign. *)
  let (neg, s) := strconv.signed s in
  (* Special case: if all that is left is "0", this is zero. *)
  if String.eqb s "0" then Some 0
  else
    match s with
    | EmptyString => None
    | _ =>
        match terms out_of_range (S (String.length s)) s 0 with
        | None => None
        | Some d =>
            if neg then Some (- d)
            else if 2 ^ 63 - 1 <? d then None
            else Some d
        end
    end.

End time.

(** ** The exporter *)

(** The descriptors of [gwcCollector], one per metric. *)
Inductive Desc : Type :=
| up
| started_seconds
| uptime_seconds
| requests_total
| requests_rate_per_second
| untiled_wms_requests_total
| untiled_wms_requests_rate_per_second
| bytes_total
| bandwidth_mbps
| cache_hit_ratio_percent
| blank_kml_html_ratio_percent
| peak_request_rate_per_second
| peak_request_rate_timestamp_seconds
| peak_bandwidth_mbps
| peak_bandwidth_timestamp_seconds
| stats_delay_seconds
| interval_requests
| interval_rate_per_second
| interval_bytes
| interval_bandwidth_mbps
| storage_info
| memcache_present
| memcache_requests_total
| memcache_hit_count_total
| memcache_miss_count_total
| memcache_hit_ratio_percent
| memcache_miss_ratio_percent
| memcache_evicted_tiles_total
| memcache_occupation_percent
| memcache_actual_size_bytes
| memcache_total_size_bytes
| version_build_info.

Inductive ValueType : Type := CounterValue | GaugeValue.

(** What [prometheus.MustNewConstMetric(desc, valueType, value,
    labelValues...)] builds; every call of the exporter passes as many
    label values as the descriptor declares. *)
Record Metric : Type := MustNewConstMetric {
  desc : Desc;
  valueType : ValueType;
  value : float64;
  labelValues : list string
}.

(** What one call of [Collect] finds when it fetches the status page. *)
Inductive Fetch : Type :=
| RequestError                 (* [http.NewRequestWithContext] failed *)
| TransportError               (* [http.DefaultClient.Do] failed: network error or timeout *)
| Response (StatusCode : Z) (body : option string).
                               (* [body = None]: [io.ReadAll] failed *)

Definition toInt (s : string) : Z :=
  match strconv.ParseInt (strings.ReplaceAll s "," "") with
  | Some i => i
  | None => -1
  end.

Definition toFloat (s : string) : float64 :=
  match strconv.ParseFloat (strings.ReplaceAll s "," "") with
  | Some f => f
  | None => f64.of_int (-1)
  end.

(** [m[i]] *)
Definition at_ (m : list string) (i : nat) : string := nth i m EmptyString.

Definition parseFirstFloat (html pattern : string) : float64 :=
  let re := regexp.MustCompile pattern in
  let m := regexp.FindStringSubmatch re html in
  if (List.length m <? 2)%nat then f64.of_int (-1)
  else toFloat (at_ m 1).

Definition parseFirstNumber (html pattern : string) : Z :=
  let re := regexp.MustCompile pattern in
  let m := regexp.FindStringSubmatch re html in
  if (List.length m <? 2)%nat then -1
  else toInt (at_ m 1).

Definition parseFirstString (html pattern : string) : string :=
  let re := regexp.MustCompile pattern in
  let m := regexp.FindStringSubmatch re html in
  if (2 <=? List.length m)%nat then strings.TrimSpace (at_ m 1)
  else "".

Definition parseSizesMB (html : string) : float64 * float64 :=
  (* Same cell *)
  let m := regexp.FindStringSubmatch
             (regexp.MustCompile "Cache Actual Size/ Total Size :\s*([0-9.]+)\s*/\s*([0-9.]+)\s* Mb") html in
  if (List.length m =? 3)%nat then (toFloat (at_ m 1), toFloat (at_ m 2))
  else
    (* Next <td> cell *)
    let m := regexp.FindStringSubmatch
               (regexp.MustCompile "Cache Actual Size/ Total Size :\s*</td>\s*<td[^>]*>\s*([0-9.]+)\s*/\s*([0-9.]+)\s*Mb") html in
    if (List.length m =? 3)%nat then (toFloat (at_ m 1), toFloat (at_ m 2))
    else (f64.of_int (-1), f64.of_int (-1)).

Definition parseUptimeSeconds (env : Env) (html : string) : Z :=
  let re := regexp.MustCompile "Started:.*\(([0-9.]+)\s*(seconds|second|minutes|minute|hours|hour|days|day)\)" in
  let m := regexp.FindStringSubmatch re html in
  if negb (List.length m =? 3)%nat then 0
  else
    let val := toFloat (at_ m 1) in
    let unit := strings.ToLower (at_ m 2) in
    if strings.HasPrefix unit "second" then int64_of_float env val
    else if strings.HasPrefix unit "minute"
    then int64_of_float env (f64.mul val (f64.of_int 60))
    else if strings.HasPrefix unit "hour"
    then int64_of_float env (f64.mul val (f64.of_int 3600))
    else if strings.HasPrefix unit "day"
    then int64_of_float env (f64.mul val (f64.of_int 86400))
    else 0.

Definition parseRFC1123InParens (env : Env) (html pattern : string) : Z :=
  let re := regexp.MustCompile pattern in
  let m := regexp.FindStringSubmatch re html in
  if (List.length m <? 2)%nat then 0
  else
    match time.ParseRFC1123 env (strings.TrimSpace (at_ m 1)) with
    | None => 0
    | Some t => time.Unix t
    end.

(** The second variant is only reached when the first one returns
    nothing: no match, or a match that [time.Parse] rejects. *)
Definition parseStartedUnix (env : Env) (html : string) : Z :=
  (* Case 1: value in the next <td> cell after the "Started:" header *)
  let reCell := regexp.MustCompile "Started:\s*</th>\s*<td[^>]*>\s*([A-Za-z]{3}, [0-9]{1,2} [A-Za-z]{3} [0-9]{4} [0-9]{2}:[0-9]{2}:[0-9]{2} GMT)" in
  let m := regexp.FindStringSubmatch reCell html in
  match (if (List.length m =? 2)%nat then time.ParseRFC1123 env (at_ m 1) else None) with
  | Some t => time.Unix t
  | None =>
      (* Case 2: plain text after "Started:" *)
      let rePlain := regexp.MustCompile "Started:\s*([A-Za-z]{3}, [0-9]{1,2} [A-Za-z]{3} [0-9]{4} [0-9]{2}:[0-9]{2}:[0-9]{2} GMT)" in
      let m := regexp.FindStringSubmatch rePlain html in
      match (if (List.length m =? 2)%nat then time.ParseRFC1123 env (at_ m 1) else None) with
      | Some t => time.Unix t
      | None => 0
      end
  end.

Definition parseVersionBuild (html : string) : string * string :=
  let re := regexp.MustCompile "Welcome to GeoWebCache version ([^,]+), build ([^<]+)" in
  let m := regexp.FindStringSubmatch re html in
  if (List.length m =? 3)%nat
  then (strings.TrimSpace (at_ m 1), strings.TrimSpace (at_ m 2))
  else ("", "").

(** An [if cond { ch <- ... }] of [Collect]: the metrics are sent only
    when the guard holds. *)
Definition when (cond : bool) (ms : list Metric) : list Metric :=
  if cond then ms else [].

Definition nonempty (s : string) : bool := negb (String.eqb s "").

Definition intervals : list string := ["3 seconds"; "15 seconds"; "60 seconds"].

Definition interval_pattern : string :=
  "<tr>\s*<td>\s*%s\s*</td>\s*<td[^>]*>\s*([0-9,]+)\s*</td>\s*<td[^>]*>\s*([0-9.]+)\s*/s\s*</td>\s*<td[^>]*>\s*([0-9,]+)\s*</td>\s*<td[^>]*>\s*([0-9.]+)\s*mbps".

(** The pattern compiled in one iteration of the loop over [intervals]. *)
Definition interval_re (win : string) : regexp.re :=
  regexp.MustCompile (fmt.Sprintf interval_pattern (regexp.QuoteMeta win)).

(** One iteration of the loop over [intervals]. *)
Definition interval_row (html win : string) : list Metric :=
  let re := interval_re win in
  let m := regexp.FindStringSubmatch re html in
  if (List.length m =? 5)%nat then
    let reqs := toInt (at_ m 1) in
    let rate := toFloat (at_ m 2) in
    let bytes := toInt (at_ m 3) in
    let mbps := toFloat (at_ m 4) in
    when (0 <=? reqs)
      [MustNewConstMetric interval_requests GaugeValue (f64.of_int reqs) [win]]
    ++ when (f64.geb rate (f64.of_int 0))
      [MustNewConstMetric interval_rate_per_second GaugeValue rate [win]]
    ++ when (0 <=? bytes)
      [MustNewConstMetric interval_bytes GaugeValue (f64.of_int bytes) [win]]
    ++ when (f64.geb mbps (f64.of_int 0))
      [MustNewConstMetric interval_bandwidth_mbps GaugeValue mbps [win]]
  else [].

(** The normalization at the head of [Collect]. *)
Definition normalize (html : string) : string :=
  let html := strings.ReplaceAll html "&nbsp;" " " in
  regexp.ReplaceAllString (regexp.MustCompile "\s+") html " ".

(** A float gauge that is sent when the extracted value is not negative. *)
Definition gauge (d : Desc) (v : float64) : list Metric :=
  when (f64.geb v (f64.of_int 0)) [MustNewConstMetric d GaugeValue v []].

(** An integer counter that is sent when the extracted value is not
    negative. *)
Definition counter (d : Desc) (v : Z) : list Metric :=
  when (0 <=? v) [MustNewConstMetric d CounterValue (f64.of_int v) []].

(** A timestamp or duration that is sent when it is positive. *)
Definition positive_gauge (d : Desc) (ts : Z) : list Metric :=
  when (0 <? ts) [MustNewConstMetric d GaugeValue (f64.of_int ts) []].

(** The metrics sent once the page has been read, in the order of the
    sends. *)
Definition collect_page (env : Env) (body : string) : list Metric :=
  (* Normalize *)
  let html := normalize body in
  (* base liveness *)
  [MustNewConstMetric up GaugeValue (f64.of_int 1) []]
  (* Version/build *)
  ++ (let '(ver, build) := parseVersionBuild html in
      when (nonempty ver || nonempty build)
        [MustNewConstMetric version_build_info GaugeValue (f64.of_int 1) [ver; build]])
  (* Started + uptime *)
  ++ positive_gauge started_seconds (parseStartedUnix env html)
  ++ positive_gauge uptime_seconds (parseUptimeSeconds env html)
  (* Totals + rates *)
  ++ counter requests_total
       (parseFirstNumber html "Total number of requests:\s*</th>\s*<td[^>]*>\s*([0-9,]+)")
  ++ gauge requests_rate_per_second
       (parseFirstFloat html "Total number of requests:\s*</th>\s*<td[^>]*>\s*[0-9,]+\s*\(\s*([0-9.]+)\s*/s\s*\)\s*</td>")
  ++ counter untiled_wms_requests_total
       (parseFirstNumber html "Total number of untiled WMS requests:\s*</th>\s*<td[^>]*>\s*([0-9,]+)")
  ++ gauge untiled_wms_requests_rate_per_second
       (parseFirstFloat html "Total number of untiled WMS requests:\s*</th>\s*<td[^>]*>\s*[0-9,]+\s*\(\s*([0-9.]+)\s*/s\s*\)\s*</td>")
  ++ counter bytes_total
       (parseFirstNumber html "Total number of bytes:\s*</th>\s*<td[^>]*>\s*([0-9,]+)")
  ++ gauge bandwidth_mbps
       (parseFirstFloat html "Total number of bytes:\s*</th>\s*<td[^>]*>\s*[0-9,]+\s*\(\s*([0-9.]+)\s*mbps")
  ++ gauge cache_hit_ratio_percent
       (parseFirstFloat html "Cache hit ratio:\s*</th>\s*<td[^>]*>\s*([0-9.]+)% of requests")
  ++ gauge blank_kml_html_ratio_percent
       (parseFirstFloat html "Blank/KML/HTML:\s*</th>\s*<td[^>]*>\s*([0-9.]+)% of requests")
  ++ gauge peak_request_rate_per_second
       (parseFirstFloat html "Peak request rate:\s*</th>\s*<td[^>]*>\s*([0-9.]+)\s*/s")
  ++ positive_gauge peak_request_rate_timestamp_seconds
       (parseRFC1123InParens env html "Peak request rate:\s*</th>\s*<td[^>]*>\s*[0-9.]+\s*/s\s*\(([^)]+)\)")
  ++ gauge peak_bandwidth_mbps
       (parseFirstFloat html "Peak bandwidth:\s*</th>\s*<td[^>]*>\s*([0-9.]+)\s*mbps")
  ++ positive_gauge peak_bandwidth_timestamp_seconds
       (parseRFC1123InParens env html "Peak bandwidth:\s*</th>\s*<td[^>]*>\s*[0-9.]+\s*mbps\s*\(([^)]+)\)")
  ++ gauge stats_delay_seconds
       (parseFirstFloat html "All figures are ([0-9.]+)\s*second\(s\) delayed")
  (* Interval rows *)
  ++ flat_map (interval_row html) intervals
  (* Storage info *)
  ++ (let configFile := parseFirstString html "Config file:\s*</th>\s*<td[^>]*>\s*<tt>([^<]+)" in
      let localStorage := parseFirstString html "Local Storage:\s*</th>\s*<td[^>]*>\s*<tt>([^<]+)" in
      when (nonempty configFile || nonempty localStorage)
        [MustNewConstMetric storage_info GaugeValue (f64.of_int 1) [configFile; localStorage]])
  (* In-memory cache: only emit when section exists *)
  ++ (if strings.Contains html "In Memory Cache Statistics" then
        [MustNewConstMetric memcache_present GaugeValue (f64.of_int 1) []]
        (* Values are in the next <td> after the label *)
        ++ counter memcache_requests_total
             (parseFirstNumber html "Total number of requests:</td><td[^>]*>\s*([0-9,]+)")
        ++ counter memcache_hit_count_total
             (parseFirstNumber html "Internal Cache hit count:</td><td[^>]*>\s*([0-9,]+)")
        ++ counter memcache_miss_count_total
             (parseFirstNumber html "Internal Cache miss count:</td><td[^>]*>\s*([0-9,]+)")
        ++ gauge memcache_hit_ratio_percent
             (parseFirstFloat html "Internal Cache hit ratio:</td><td[^>]*>\s*([0-9.]+)\s*%")
        ++ gauge memcache_miss_ratio_percent
             (parseFirstFloat html "Internal Cache miss ratio:</td><td[^>]*>\s*([0-9.]+)\s*%")
        ++ counter memcache_evicted_tiles_total
             (parseFirstNumber html "Total number of evicted tiles:</td><td[^>]*>\s*([0-9,]+)")
        ++ gauge memcache_occupation_percent
             (parseFirstFloat html "Cache Memory occupation:</td><td[^>]*>\s*([0-9.]+)\s*%")
        ++ (let '(act, tot) := parseSizesMB html in
            when (f64.geb act (f64.of_int 0) && f64.geb tot (f64.of_int 0))
              (* MB as decimal 1e6 *)
              [MustNewConstMetric memcache_actual_size_bytes GaugeValue
                 (f64.mul act (f64.of_int 1000000)) [];
               MustNewConstMetric memcache_total_size_bytes GaugeValue
                 (f64.mul tot (f64.of_int 1000000)) []])
      else
        [MustNewConstMetric memcache_present GaugeValue (f64.of_int 0) [];
         (* Keep a stable metric set when memcache is disabled. *)
         MustNewConstMetric memcache_requests_total CounterValue (f64.of_int 0) [];
         MustNewConstMetric memcache_hit_count_total CounterValue (f64.of_int 0) [];
         MustNewConstMetric memcache_miss_count_total CounterValue (f64.of_int 0) [];
         MustNewConstMetric memcache_hit_ratio_percent GaugeValue (f64.of_int 0) [];
         MustNewConstMetric memcache_miss_ratio_percent GaugeValue (f64.of_int 0) [];
         MustNewConstMetric memcache_evicted_tiles_total CounterValue (f64.of_int 0) [];
         MustNewConstMetric memcache_occupation_percent GaugeValue (f64.of_int 0) [];
         MustNewConstMetric memcache_actual_size_bytes GaugeValue (f64.of_int 0) [];
         MustNewConstMetric memcache_total_size_bytes GaugeValue (f64.of_int 0) []]).

(** [Collect]: the metrics sent on the channel, in order, for each
    outcome of the fetch.  The log lines of the failure branches go to
    the process log, not to the channel. *)
Definition Collect (env : Env) (fetch : Fetch) : list Metric :=
  match fetch with
  | RequestError => [MustNewConstMetric up GaugeValue (f64.of_int 0) []]
  | TransportError => [MustNewConstMetric up GaugeValue (f64.of_int 0) []]
  | Response StatusCode body =>
      if negb (StatusCode =? 200)
      then [MustNewConstMetric up GaugeValue (f64.of_int 0) []]
      else
        match body with
        | None => [MustNewConstMetric up GaugeValue (f64.of_int 0) []]
        | Some body => collect_page env body
        end
  end.

(** ** The descriptors *)

(** What [prometheus.NewDesc(fqName, help, variableLabels, nil)] is
    given. *)
Record DescInfo : Type := NewDesc {
  fqName : string;
  help : string;
  variableLabels : list string
}.

Definition ns : string := "gwc".

(** [newGwcCollector]: the descriptor that each field of the collector
    is built with. *)
Definition newGwcCollector (d : Desc) : DescInfo :=
  match d with
  | up =>
      NewDesc (ns ++ "_up") "Was the last scrape of GWC status page successful." []
  | started_seconds =>
      NewDesc (ns ++ "_started_seconds") "Unix timestamp when GWC reports it started." []
  | uptime_seconds =>
      NewDesc (ns ++ "_uptime_seconds") "Reported uptime in seconds." []
  | requests_total =>
      NewDesc (ns ++ "_requests_total") "Total number of requests." []
  | requests_rate_per_second =>
      NewDesc (ns ++ "_requests_rate_per_second") "Reported requests per second." []
  | untiled_wms_requests_total =>
      NewDesc (ns ++ "_untiled_wms_requests_total") "Total number of untiled WMS requests." []
  | untiled_wms_requests_rate_per_second =>
      NewDesc (ns ++ "_untiled_wms_requests_rate_per_second") "Reported untiled WMS requests per second." []
  | bytes_total =>
      NewDesc (ns ++ "_bytes_total") "Total number of bytes served." []
  | bandwidth_mbps =>
      NewDesc (ns ++ "_bandwidth_mbps") "Reported bandwidth in Mbps." []
  | cache_hit_ratio_percent =>
      NewDesc (ns ++ "_cache_hit_ratio_percent") "Cache hit ratio (percent of requests)." []
  | blank_kml_html_ratio_percent =>
      NewDesc (ns ++ "_blank_kml_html_ratio_percent") "Blank/KML/HTML percent of requests." []
  | peak_request_rate_per_second =>
      NewDesc (ns ++ "_peak_request_rate_per_second") "Peak request rate (/s)." []
  | peak_request_rate_timestamp_seconds =>
      NewDesc (ns ++ "_peak_request_rate_timestamp_seconds") "Unix timestamp when peak request rate was observed." []
  | peak_bandwidth_mbps =>
      NewDesc (ns ++ "_peak_bandwidth_mbps") "Peak bandwidth in Mbps." []
  | peak_bandwidth_timestamp_seconds =>
      NewDesc (ns ++ "_peak_bandwidth_timestamp_seconds") "Unix timestamp when peak bandwidth was observed." []
  | stats_delay_seconds =>
      NewDesc (ns ++ "_stats_delay_seconds") "Reported delay in runtime statistics." []
  | interval_requests =>
      NewDesc (ns ++ "_interval_requests") "Requests in the reported time window." ["window"]
  | interval_rate_per_second =>
      NewDesc (ns ++ "_interval_rate_per_second") "Requests per second in the reported time window." ["window"]
  | interval_bytes =>
      NewDesc (ns ++ "_interval_bytes") "Bytes in the reported time window." ["window"]
  | interval_bandwidth_mbps =>
      NewDesc (ns ++ "_interval_bandwidth_mbps") "Bandwidth Mbps in the reported time window." ["window"]
  | storage_info =>
      NewDesc (ns ++ "_storage_info") "Storage paths as labels." ["config_file"; "local_storage"]
  | memcache_present =>
      NewDesc (ns ++ "_memcache_present") "1 if 'In Memory Cache Statistics' section is present, else 0." []
  | memcache_requests_total =>
      NewDesc (ns ++ "_memcache_requests_total") "In-memory cache total number of requests." []
  | memcache_hit_count_total =>
      NewDesc (ns ++ "_memcache_hit_count_total") "In-memory cache hit count." []
  | memcache_miss_count_total =>
      NewDesc (ns ++ "_memcache_miss_count_total") "In-memory cache miss count." []
  | memcache_hit_ratio_percent =>
      NewDesc (ns ++ "_memcache_hit_ratio_percent") "In-memory cache hit ratio percent." []
  | memcache_miss_ratio_percent =>
      NewDesc (ns ++ "_memcache_miss_ratio_percent") "In-memory cache miss ratio percent." []
  | memcache_evicted_tiles_total =>
      NewDesc (ns ++ "_memcache_evicted_tiles_total") "Total number of evicted tiles." []
  | memcache_occupation_percent =>
      NewDesc (ns ++ "_memcache_occupation_percent") "Cache memory occupation percent." []
  | memcache_actual_size_bytes =>
      NewDesc (ns ++ "_memcache_actual_size_bytes") "Cache actual size in bytes." []
  | memcache_total_size_bytes =>
      NewDesc (ns ++ "_memcache_total_size_bytes") "Cache total size in bytes." []
  | version_build_info =>
      NewDesc (ns ++ "_build_info") "Version/build info as labels; value 1." ["version"; "build"]
  end.

(** [Describe]: the descriptors sent on the channel, in order. *)
Definition Describe : list Desc :=
  [up;
   started_seconds;
   uptime_seconds;
   requests_total;
   requests_rate_per_second;
   untiled_wms_requests_total;
   untiled_wms_requests_rate_per_second;
   bytes_total;
   bandwidth_mbps;
   cache_hit_ratio_percent;
   blank_kml_html_ratio_percent;
   peak_request_rate_per_second;
   peak_request_rate_timestamp_seconds;
   peak_bandwidth_mbps;
   peak_bandwidth_timestamp_seconds;
   stats_delay_seconds;
   interval_requests;
   interval_rate_per_second;
   interval_bytes;
   interval_bandwidth_mbps;
   storage_info;
   memcache_present;
   memcache_requests_total;
   memcache_hit_count_total;
   memcache_miss_count_total;
   memcache_hit_ratio_percent;
   memcache_miss_ratio_percent;
   memcache_evicted_tiles_total;
   memcache_occupation_percent;
   memcache_actual_size_bytes;
   memcache_total_size_bytes;
   version_build_info].

(** ** Configuration *)

Module os.

(** [os.Getenv(key)] in a process whose environment is [environ]: the
    value of the variable, empty when it is not set. *)
Definition Getenv (environ : string -> option string) (key : string) : string :=
  match environ key with
  | Some v => v
  | None => EmptyString
  end.

End os.

(** What [envDurationOrDefault] writes to the process log: the
    arguments of its [log.Printf]. *)
Inductive LogLine : Type :=
| invalid_duration (key raw : string) (fallback : time.Duration).

Definition envOrDefault (environ : string -> option string)
           (key fallback : string) : string :=
  let v := strings.TrimSpace (os.Getenv environ key) in
  if negb (String.eqb v "") then v else fallback.

(** [envDurationOrDefault]: the duration and the lines logged. *)
Definition envDurationOrDefault (out_of_range : float64 -> Z)
           (environ : string -> option string)
           (key : string) (fallback : time.Duration)
  : time.Duration * list LogLine :=
  let raw := strings.TrimSpace (os.Getenv environ key) in
  if String.eqb raw "" then (fallback, [])
  else
    match time.ParseDuration out_of_range raw with
    | None => (fallback, [invalid_duration key raw fallback])
    | Some v => (v, [])
    end.

(** The values that the four flags of [main] have when the command line
    does not set them. *)
Record Flags : Type := {
  target_url : string;
  web_listen_address : string;
  web_telemetry_path : string;
  scrape_timeout : time.Duration
}.

(** The defaults that [main] gives to its flags, and the lines logged
    while computing them. *)
Definition flag_defaults (out_of_range : float64 -> Z)
           (environ : string -> option string) : Flags * list LogLine :=
  let url := envOrDefault environ "GWC_TARGET_URL" "http://127.0.0.1:8080/geowebcache" in
  let addr := envOrDefault environ "GWC_WEB_LISTEN_ADDRESS" ":9109" in
  let path := envOrDefault environ "GWC_WEB_TELEMETRY_PATH" "/metrics" in
  let (timeout, logged) :=
    envDurationOrDefault out_of_range environ "GWC_SCRAPE_TIMEOUT" (5 * time.Second) in
  ({| target_url := url;
      web_listen_address := addr;
      web_telemetry_path := path;
      scrape_timeout := timeout |}, logged).

(** ** Reading a snapshot

    The snapshot of a poll is the list of metrics that [Collect] sent.
    A field of the catalog is a descriptor, together with the window
    label for the four per-window descriptors. *)

Definition index (d : Desc) : nat :=
  match d with
  | up => 0 | version_build_info => 1 | started_seconds => 2
  | uptime_seconds => 3 | requests_total => 4
  | requests_rate_per_second => 5 | untiled_wms_requests_total => 6
  | untiled_wms_requests_rate_per_second => 7 | bytes_total => 8
  | bandwidth_mbps => 9 | cache_hit_ratio_percent => 10
  | blank_kml_html_ratio_percent => 11 | peak_request_rate_per_second => 12
  | peak_request_rate_timestamp_seconds => 13 | peak_bandwidth_mbps => 14
  | peak_bandwidth_timestamp_seconds => 15 | stats_delay_seconds => 16
  | interval_requests => 17 | interval_rate_per_second => 18
  | interval_bytes => 19 | interval_bandwidth_mbps => 20
  | storage_info => 21 | memcache_present => 22
  | memcache_requests_total => 23 | memcache_hit_count_total => 24
  | memcache_miss_count_total => 25 | memcache_hit_ratio_percent => 26
  | memcache_miss_ratio_percent => 27 | memcache_evicted_tiles_total => 28
  | memcache_occupation_percent => 29 | memcache_actual_size_bytes => 30
  | memcache_total_size_bytes => 31
  end%nat.

Definition Desc_eqb (a b : Desc) : bool := Nat.eqb (index a) (index b).

(** The snapshot has a metric of descriptor [d]. *)
Definition has (d : Desc) (ms : list Metric) : bool :=
  existsb (fun m => Desc_eqb (desc m) d) ms.

(** The metrics of descriptor [d], in the order sent. *)
Definition metrics_of (d : Desc) (ms : list Metric) : list Metric :=
  filter (fun m => Desc_eqb (desc m) d) ms.

Definition is_interval (d : Desc) : bool :=
  match d with
  | interval_requests | interval_rate_per_second
  | interval_bytes | interval_bandwidth_mbps => true
  | _ => false
  end.







(** A fetch that does not deliver the page. *)
Definition failed (fetch : Fetch) : bool :=
  match fetch with
  | RequestError | TransportError => true
  | Response StatusCode None => true
  | Response StatusCode (Some _) => negb (StatusCode =? 200)
  end.

(** The whole output of a poll whose fetch failed. *)
Definition down : list Metric := [MustNewConstMetric up GaugeValue (f64.of_int 0) []].


Definition counter_of (d : Desc) (i : Z) : Metric :=
  MustNewConstMetric d CounterValue (f64.of_int i) [].


(** An environment for the examples: the out-of-range conversion of
    amd64, and a process that resolves no zone abbreviation. *)
Definition amd64_utc : Env :=
  {| int64_out_of_range := fun _ => - 2 ^ 63;
     zone_tail := fun _ _ => None |}.

(** [\s] of the normalizer. *)
Definition is_space : ascii -> bool := regexp.is_space.

(** No two adjacent characters of [s] are both whitespace. *)
Fixpoint no_adjacent_spaces (s : string) : bool :=
  match s with
  | String c ((String d _) as s') =>
      negb (is_space c && is_space d) && no_adjacent_spaces s'
  | _ => true
  end.

(** The metrics whose descriptor satisfies [q], in the order sent. *)
Definition select (q : Desc -> bool) (ms : list Metric) : list Metric :=
  filter (fun m => q (desc m)) ms.


(** *** Texts *)

Fixpoint all_chars (P : ascii -> bool) (s : string) : bool :=
  match s with
  | EmptyString => true
  | String c s' => P c && all_chars P s'
  end.

Definition newline : ascii := ascii_of_nat 10.

Definition no_newline (s : string) : bool :=
  all_chars (fun c => negb (Ascii.eqb c newline)) s.

Definition no_open_paren (s : string) : bool :=
  all_chars (fun c => negb (Ascii.eqb "(" c)) s.

Definition all_spaces (s : string) : bool := all_chars is_space s.

Definition starts_with_letter (s : string) : bool :=
  match s with
  | String c _ => time.is_letter c
  | EmptyString => false
  end.

(** The number of whitespace characters that [s] starts with. *)
Fixpoint run (s : string) : nat :=
  match s with
  | String c s' => if is_space c then S (run s') else O
  | EmptyString => O
  end.

(** Whitespace collapsing, written directly: every run of whitespace
    becomes one space; [in_run] tells that the previous character was
    whitespace. *)
Fixpoint collapse (in_run : bool) (s : string) : string :=
  match s with
  | EmptyString => EmptyString
  | String c s' =>
      if is_space c
      then if in_run then collapse true s' else String " " (collapse true s')
      else String c (collapse false s')
  end.

(** Every whitespace character of [s] is a space, no two are adjacent,
    and the first character is not one when [after_space]. *)
Fixpoint collapsed (after_space : bool) (s : string) : bool :=
  match s with
  | EmptyString => true
  | String c s' =>
      if is_space c
      then negb after_space && Ascii.eqb c " " && collapsed true s'
      else collapsed false s'
  end.

Fixpoint no_space (p : string) : bool :=
  match p with
  | EmptyString => true
  | String c p' => negb (is_space c) && no_space p'
  end.

(** The scan of [strings.ReplaceAll] when [new] is the one character
    [sp]. *)
Definition replaced (old : string) (sp : ascii) (s : string) : string :=
  strings.replace_from old (String sp "") s O.

(** *** Patterns *)

(** The pattern that matches the literal [l] and then [r]. *)
Fixpoint lit_then (l : string) (r : regexp.re) : regexp.re :=
  match l with
  | EmptyString => r
  | String a l' => regexp.RSeq (regexp.RSet (regexp.CLit a)) (lit_then l' r)
  end.

(** [r] without its [n] leading literal characters. *)
Fixpoint after_lit (n : nat) (r : regexp.re) : regexp.re :=
  match n, r with
  | S n', regexp.RSeq (regexp.RSet (regexp.CLit _)) r' => after_lit n' r'
  | _, _ => r
  end.

Definition spaces_then (r : regexp.re) : regexp.re :=
  regexp.RSeq (regexp.RRep regexp.CSpace 0 None) r.

(** [[^>]] *)
Definition not_gt : regexp.cset := regexp.CClass true [(">"%char, ">"%char)].

(** [[A-Za-z]] *)
Definition letters : regexp.cset :=
  regexp.CClass false [("A"%char, "Z"%char); ("a"%char, "z"%char)].

(** [k] fails on [s] and on every suffix of [s]. *)
Fixpoint fails_everywhere {A : Type} (k : string -> option A) (s : string) : Prop :=
  k s = None /\
  match s with
  | EmptyString => True
  | String _ s' => fails_everywhere k s'
  end.

(** The patterns that the exporter compiles: the constant ones, and
    the pattern of each window. *)
Definition patterns : list string :=
  ["\s+";
   "Total number of requests:\s*</th>\s*<td[^>]*>\s*([0-9,]+)";
   "Total number of requests:\s*</th>\s*<td[^>]*>\s*[0-9,]+\s*\(\s*([0-9.]+)\s*/s\s*\)\s*</td>";
   "Total number of untiled WMS requests:\s*</th>\s*<td[^>]*>\s*([0-9,]+)";
   "Total number of untiled WMS requests:\s*</th>\s*<td[^>]*>\s*[0-9,]+\s*\(\s*([0-9.]+)\s*/s\s*\)\s*</td>";
   "Total number of bytes:\s*</th>\s*<td[^>]*>\s*([0-9,]+)";
   "Total number of bytes:\s*</th>\s*<td[^>]*>\s*[0-9,]+\s*\(\s*([0-9.]+)\s*mbps";
   "Cache hit ratio:\s*</th>\s*<td[^>]*>\s*([0-9.]+)% of requests";
   "Blank/KML/HTML:\s*</th>\s*<td[^>]*>\s*([0-9.]+)% of requests";
   "Peak request rate:\s*</th>\s*<td[^>]*>\s*([0-9.]+)\s*/s";
   "Peak request rate:\s*</th>\s*<td[^>]*>\s*[0-9.]+\s*/s\s*\(([^)]+)\)";
   "Peak bandwidth:\s*</th>\s*<td[^>]*>\s*([0-9.]+)\s*mbps";
   "Peak bandwidth:\s*</th>\s*<td[^>]*>\s*[0-9.]+\s*mbps\s*\(([^)]+)\)";
   "All figures are ([0-9.]+)\s*second\(s\) delayed";
   "Config file:\s*</th>\s*<td[^>]*>\s*<tt>([^<]+)";
   "Local Storage:\s*</th>\s*<td[^>]*>\s*<tt>([^<]+)";
   "Total number of requests:</td><td[^>]*>\s*([0-9,]+)";
   "Internal Cache hit count:</td><td[^>]*>\s*([0-9,]+)";
   "Internal Cache miss count:</td><td[^>]*>\s*([0-9,]+)";
   "Internal Cache hit ratio:</td><td[^>]*>\s*([0-9.]+)\s*%";
   "Internal Cache miss ratio:</td><td[^>]*>\s*([0-9.]+)\s*%";
   "Total number of evicted tiles:</td><td[^>]*>\s*([0-9,]+)";
   "Cache Memory occupation:</td><td[^>]*>\s*([0-9.]+)\s*%";
   "Welcome to GeoWebCache version ([^,]+), build ([^<]+)";
   "Started:\s*</th>\s*<td[^>]*>\s*([A-Za-z]{3}, [0-9]{1,2} [A-Za-z]{3} [0-9]{4} [0-9]{2}:[0-9]{2}:[0-9]{2} GMT)";
   "Started:\s*([A-Za-z]{3}, [0-9]{1,2} [A-Za-z]{3} [0-9]{4} [0-9]{2}:[0-9]{2}:[0-9]{2} GMT)";
   "Started:.*\(([0-9.]+)\s*(seconds|second|minutes|minute|hours|hour|days|day)\)";
   "Cache Actual Size/ Total Size :\s*([0-9.]+)\s*/\s*([0-9.]+)\s* Mb";
   "Cache Actual Size/ Total Size :\s*</td>\s*<td[^>]*>\s*([0-9.]+)\s*/\s*([0-9.]+)\s*Mb"]
  ++ map (fun win => fmt.Sprintf interval_pattern (regexp.QuoteMeta win)) intervals.

(** The pattern of [parseUptimeSeconds]. *)
Definition uptime_pattern : string :=
  "Started:.*\(([0-9.]+)\s*(seconds|second|minutes|minute|hours|hour|days|day)\)".

(** What the uptime pattern has after [Started:.*]. *)
Definition uptime_phrase : regexp.re :=
  match after_lit 8 (regexp.MustCompile uptime_pattern) with
  | regexp.RSeq _ r => r
  | r => r
  end.

Definition uptime_rest (s : string) : option (string * regexp.captures) :=
  regexp.exec uptime_phrase s [] (fun s' caps => Some (s', caps)).

(** The two patterns of [parseStartedUnix]. *)
Definition cell_pattern : string :=
  "Started:\s*</th>\s*<td[^>]*>\s*([A-Za-z]{3}, [0-9]{1,2} [A-Za-z]{3} [0-9]{4} [0-9]{2}:[0-9]{2}:[0-9]{2} GMT)".

Definition plain_pattern : string :=
  "Started:\s*([A-Za-z]{3}, [0-9]{1,2} [A-Za-z]{3} [0-9]{4} [0-9]{2}:[0-9]{2}:[0-9]{2} GMT)".

(** The capturing group of the timestamp, which the two patterns share. *)
Definition timestamp_group : regexp.re :=
  match after_lit 8 (regexp.MustCompile plain_pattern) with
  | regexp.RSeq _ g => g
  | r => r
  end.

(** The timestamp matched at the head of [s]. *)
Definition timestamp_at (s : string) : option (string * regexp.captures) :=
  regexp.exec timestamp_group s [] (fun s' caps => Some (s', caps)).

(** The table-cell layout of the Started field: the label closes a
    header cell and [text], the timestamp and what follows it, opens
    the next cell. *)
Definition tight_layout (ws1 ws2 attrs ws3 text : string) : string :=
  "Started:" ++ ws1 ++ "</th>" ++ ws2 ++ "<td" ++ attrs ++ ">" ++ ws3 ++ text.

(** The plain-text layout: [text] comes after the label. *)
Definition loose_layout (ws0 text : string) : string := "Started:" ++ ws0 ++ text.

(** The four metrics of a window whose row has the given cells. *)
Definition window_metrics (win reqs rate bytes mbps : string) : list Metric :=
  [MustNewConstMetric interval_requests GaugeValue (f64.of_int (toInt reqs)) [win];
   MustNewConstMetric interval_rate_per_second GaugeValue (toFloat rate) [win];
   MustNewConstMetric interval_bytes GaugeValue (f64.of_int (toInt bytes)) [win];
   MustNewConstMetric interval_bandwidth_mbps GaugeValue (toFloat mbps) [win]].

(** A page with the row of one window. *)
Definition sample_row : string :=
  "<tr><td>15 seconds</td><td>1,234</td><td>82.3 /s</td><td>5,678,901</td><td>3.0 mbps</td></tr>".

(** *** Cells, rows and phrases *)

(** The character classes [[0-9,]] and [[0-9.]] of the patterns. *)
Definition digits_comma : regexp.cset :=
  regexp.CClass false [("0"%char, "9"%char); (","%char, ","%char)].

Definition digits_point : regexp.cset :=
  regexp.CClass false [("0"%char, "9"%char); ("."%char, "."%char)].

(** A non-empty text of characters of [cs]. *)
Definition cell_of (cs : regexp.cset) (s : string) : bool :=
  negb (String.eqb s "") && all_chars (regexp.mem cs) s.

(** A row of the interval table, as the status page writes it. *)
Definition row (win reqs rate bytes mbps : string) : string :=
  "<tr><td>" ++ win ++ "</td><td>" ++ reqs ++ "</td><td>" ++ rate
  ++ " /s</td><td>" ++ bytes ++ "</td><td>" ++ mbps ++ " mbps</td></tr>".

(** The unit words of the uptime pattern. *)
Definition uptime_units : list string :=
  ["seconds"; "second"; "minutes"; "minute"; "hours"; "hour"; "days"; "day"].

(** The pattern of a non-empty word. *)
Fixpoint word (a : ascii) (l : string) : regexp.re :=
  match l with
  | EmptyString => regexp.RSet (regexp.CLit a)
  | String b l' => regexp.RSeq (regexp.RSet (regexp.CLit a)) (word b l')
  end.

(** What the uptime pattern has after the magnitude and the spaces. *)
Definition unit_then_paren : regexp.re :=
  regexp.RSeq
    (regexp.RGroup 2
       (fold_right
          (fun u r =>
             match u with
             | String a l => regexp.RAlt (word a l) r
             | EmptyString => r
             end)
          (word "d" "ay")
          ["seconds"; "second"; "minutes"; "minute"; "hours"; "hour"; "days"]))
    (regexp.RSet (regexp.CLit ")")).

(** The seconds in one unit, by the unit word: the multipliers of the
    specification. *)
Definition unit_seconds (unit : string) : option Z :=
  if existsb (String.eqb unit) ["seconds"; "second"] then Some 1
  else if existsb (String.eqb unit) ["minutes"; "minute"] then Some 60
  else if existsb (String.eqb unit) ["hours"; "hour"] then Some 3600
  else if existsb (String.eqb unit) ["days"; "day"] then Some 86400
  else None.

(** The uptime that a magnitude and a unit word stand for: seconds are
    taken as they are, the other units are multiplied; 0 stands for no
    uptime. *)
Definition uptime_of (env : Env) (mag unit : string) : Z :=
  match unit_seconds unit with
  | Some 1 => int64_of_float env (toFloat mag)
  | Some n => int64_of_float env (f64.mul (toFloat mag) (f64.of_int n))
  | None => 0
  end.

(** The page of the uptime: the label, some text, and the phrase in
    parentheses. *)
Definition uptime_page (pre mag unit : string) : string :=
  "Started:" ++ pre ++ "(" ++ mag ++ " " ++ unit ++ ")".

(** *** Metrics *)

(** [s] ends with [suffix]. *)
Definition ends_with (s suffix : string) : bool :=
  strings.prefix (strings.rev suffix) (strings.rev s).

(** The metric has as many label values as its descriptor has label
    names; [prometheus.MustNewConstMetric] panics otherwise. *)
Definition labelled (m : Metric) : bool :=
  Nat.eqb (List.length (labelValues m))
          (List.length (variableLabels (newGwcCollector (desc m)))).

Definition is_counter (m : Metric) : bool :=
  match valueType m with
  | CounterValue => true
  | GaugeValue => false
  end.

(** The value is zero or more; in particular it is a number. *)
Definition not_negative (m : Metric) : Prop :=
  f64.geb (value m) (f64.of_int 0) = true.

(** The metric is a counter exactly when the name of its descriptor ends
    in [_total]. *)
Definition counter_named_total (m : Metric) : bool :=
  Bool.eqb (is_counter m) (ends_with (fqName (newGwcCollector (desc m))) "_total").

(** A per-window metric has one label value, the name of a window. *)
Definition labelled_by_window (m : Metric) : bool :=
  negb (is_interval (desc m))
  || existsb (fun win => match labelValues m with
                         | [l] => String.eqb l win
                         | _ => false
                         end) intervals.

(** The float has the sign [s] and is not NaN. *)
Definition signed_as (s : bool) (f : float64) : bool :=
  match f with
  | S754_zero s' | S754_infinity s' | S754_finite s' _ _ => Bool.eqb s s'
  | S754_nan => false
  end.

(** *** Numerals *)

(** [s] without its commas. *)
Fixpoint without_commas (s : string) : string :=
  match s with
  | EmptyString => EmptyString
  | String c s' =>
      if Ascii.eqb "," c then without_commas s' else String c (without_commas s')
  end.

Definition digit_char (d : Z) : ascii := ascii_of_nat (48 + Z.to_nat d).

Fixpoint decimal_from (fuel : nat) (n : Z) : string :=
  match fuel with
  | O => EmptyString
  | S f =>
      (if n <? 10 then EmptyString else decimal_from f (n / 10))
      ++ String (digit_char (n mod 10)) EmptyString
  end.

(** The decimal numeral of a natural number [n], without leading
    zeros. *)
Definition decimal (n : Z) : string :=
  decimal_from (S (Z.to_nat (Z.log2 n))) n.

(** A float that is neither an infinity nor a NaN. *)
Definition is_finite (f : float64) : bool :=
  match f with
  | S754_zero _ | S754_finite _ _ _ => true
  | _ => false
  end.

(** The conversion succeeded. *)
Definition converted {A : Type} (r : option A) : bool :=
  match r with
  | Some _ => true
  | None => false
  end.

(** *** Labels *)

(** [s] neither starts nor ends with a space that [strings.TrimSpace]
    removes. *)
Definition trimmed (s : string) : bool :=
  match strings.leading_space s, strings.trailing_space (strings.rev s) with
  | None, None => true
  | _, _ => false
  end.

(** A text that a repetition of a class matches is a run of characters
    of the class. *)
Definition run_of (r : regexp.re) (t : string) : bool :=
  match r with
  | regexp.RRep cs _ _ => all_chars (regexp.mem cs) t
  | _ => true
  end.

(** [v] can be what group [j] of [r] captures, as far as the class of
    a group that is one repetition tells. *)
Fixpoint captured (r : regexp.re) (j : nat) (v : string) : bool :=
  match r with
  | regexp.RSeq r1 r2 | regexp.RAlt r1 r2 => captured r1 j v || captured r2 j v
  | regexp.RGroup i r1 => (Nat.eqb i j && run_of r1 v) || captured r1 j v
  | _ => false
  end.

(** *** The labels of the page *)

(** The texts of the status page that the patterns of a field start
    with; the liveness and the cache block do not depend on one. *)
Definition page_labels (d : Desc) : option (list string) :=
  match d with
  | started_seconds | uptime_seconds => Some ["Started:"]
  | requests_total | requests_rate_per_second =>
      Some ["Total number of requests:"]
  | untiled_wms_requests_total | untiled_wms_requests_rate_per_second =>
      Some ["Total number of untiled WMS requests:"]
  | bytes_total | bandwidth_mbps => Some ["Total number of bytes:"]
  | cache_hit_ratio_percent => Some ["Cache hit ratio:"]
  | blank_kml_html_ratio_percent => Some ["Blank/KML/HTML:"]
  | peak_request_rate_per_second | peak_request_rate_timestamp_seconds =>
      Some ["Peak request rate:"]
  | peak_bandwidth_mbps | peak_bandwidth_timestamp_seconds =>
      Some ["Peak bandwidth:"]
  | stats_delay_seconds => Some ["All figures are "]
  | interval_requests | interval_rate_per_second
  | interval_bytes | interval_bandwidth_mbps => Some ["<tr>"]
  | storage_info => Some ["Config file:"; "Local Storage:"]
  | version_build_info => Some ["Welcome to GeoWebCache version "]
  | _ => None
  end.

(** [pattern] starts with the literal text [l]. *)
Definition starts_with_literal (pattern l : string) : Prop :=
  l <> "" /\
  lit_then l (after_lit (String.length l) (regexp.MustCompile pattern))
  = regexp.MustCompile pattern.

(** A character that is not whitespace, or is the space. *)
Definition space_or_not_whitespace (c : ascii) : bool :=
  negb (is_space c) || Ascii.eqb c " ".

(** *** The sizes of the cache *)

(** The sizes in one cell with their label, and in the cell after the
    label. *)
Definition sizes_in_cell (act tot : string) : string :=
  "Cache Actual Size/ Total Size : " ++ act ++ " / " ++ tot ++ " Mb".

Definition sizes_in_next_cell (act tot : string) : string :=
  "Cache Actual Size/ Total Size :</td><td>" ++ act ++ " / " ++ tot ++ " Mb".

Definition sizes_pattern : string :=
  "Cache Actual Size/ Total Size :\s*([0-9.]+)\s*/\s*([0-9.]+)\s* Mb".

Definition sizes_next_pattern : string :=
  "Cache Actual Size/ Total Size :\s*</td>\s*<td[^>]*>\s*([0-9.]+)\s*/\s*([0-9.]+)\s*Mb".

(** *** Days of one digit *)

(** The start of a timestamp whose day of the month has one digit: the
    three letters of the day of the week, a comma, a space, the digit
    and a space, before [rest]. *)
Definition one_digit_day (a1 a2 a3 d : ascii) (rest : string) : string :=
  String a1 (String a2 (String a3 (String "," (String " "
    (String d (String " " rest)))))).

(** *** Timestamps *)

(** The two digits of [n], for [n] from 0 to 99. *)
Definition two_digits (n : Z) : string :=
  String (digit_char (n / 10)) (String (digit_char (n mod 10)) EmptyString).

(** The four digits of [n], for [n] from 0 to 9999. *)
Definition four_digits (n : Z) : string :=
  two_digits (n / 100) ++ two_digits (n mod 100).

(** A time in the format RFC1123 with the zone GMT, as
    ["Mon, 02 Jan 2006 15:04:05 GMT"]: [weekday] and [month_name] are
    the three letters of a day of the week and of a month. *)
Definition rfc1123 (weekday : string) (day : Z) (month_name : string)
           (year hour min sec : Z) : string :=
  weekday ++ ", " ++ two_digits day ++ " " ++ month_name ++ " "
  ++ four_digits year ++ " " ++ two_digits hour ++ ":" ++ two_digits min
  ++ ":" ++ two_digits sec ++ " GMT".

(** The name of the month [month], from 1 to 12. *)
Definition month_name (month : Z) : string :=
  nth (Z.to_nat (month - 1)) time.shortMonthNames EmptyString.

(** *** The two totals of requests *)

(** The total of requests of the server, in the cell after a header
    cell, and the total of requests of the in-memory cache, in the cell
    after a data cell; the label is the same. *)
Definition requests_row (n : string) : string :=
  "Total number of requests:</th><td>" ++ n ++ "</td>".

Definition memcache_requests_row (n : string) : string :=
  "Total number of requests:</td><td>" ++ n ++ "</td>".

Definition requests_pattern : string :=
  "Total number of requests:\s*</th>\s*<td[^>]*>\s*([0-9,]+)".

Definition memcache_requests_pattern : string :=
  "Total number of requests:</td><td[^>]*>\s*([0-9,]+)".

(** No text of [l] occurs twice. *)
Fixpoint distinct (l : list string) : bool :=
  match l with
  | [] => true
  | x :: l' => negb (existsb (String.eqb x) l') && distinct l'
  end.

(** The environment variables that [main] reads. *)
Definition variables : list string :=
  ["GWC_TARGET_URL"; "GWC_WEB_LISTEN_ADDRESS"; "GWC_WEB_TELEMETRY_PATH";
   "GWC_SCRAPE_TIMEOUT"].

(** A sign of a duration: none, plus or minus. *)
Inductive Sign : Type := unsigned | plus | minus.

Definition sign_text (s : Sign) : string :=
  match s with
  | unsigned => ""
  | plus => "+"
  | minus => "-"
  end.

Definition signed_value (s : Sign) (n : Z) : Z :=
  match s with
  | minus => - n
  | _ => n
  end.

(** * Properties *)

(** ** Patterns *)

(** Every pattern of the exporter compiles, so [regexp.MustCompile]
    never panics. *)
Lemma patterns_compile :
  forallb (fun p => match regexp.Compile p with Some _ => true | None => false end)
    patterns = true.
Proof. vm_compute. reflexivity. Qed.

(** ** Fetch failures *)

(** C3: whatever the fetch-level failure (request construction,
    transport error or timeout, a status other than 200, a body that
    cannot be read), the poll sends the single metric [up = 0] and
    nothing else; the failures are indistinguishable in the output and
    no part of the page is looked at. *)
Theorem liveness_short_circuit (env : Env) (fetch : Fetch) :
  failed fetch = true -> Collect env fetch = down.
Proof.
  destruct fetch as [| |status [body|]]; cbn [failed Collect]; intros H.
  - reflexivity.
  - reflexivity.
  - rewrite H. reflexivity.
  - destruct (negb (status =? 200)); reflexivity.
Qed.

Lemma liveness_short_circuit_timeout :
  failed TransportError = true /\ Collect amd64_utc TransportError = down.
Proof.
  split; [reflexivity|].
  apply (liveness_short_circuit amd64_utc TransportError). reflexivity.
Defined.

(** ** Determinism *)

(** C8: the snapshot is a function of the normalized text: two polls
    whose pages normalize to the same text, and so in particular two
    polls of the same page, send the same metrics with the same values
    and labels in the same order. *)
Theorem snapshot_deterministic (env : Env) (body1 body2 : string) :
  normalize body1 = normalize body2 ->
  Collect env (Response 200 (Some body1)) = Collect env (Response 200 (Some body2)).
Proof.
  intros H. cbn [Collect Z.eqb Pos.eqb negb]. unfold collect_page.
  rewrite H. reflexivity.
Qed.

Lemma snapshot_deterministic_example :
  normalize "up  3&nbsp;days" = normalize "up 3 days"
  /\ Collect amd64_utc (Response 200 (Some "up  3&nbsp;days"))
     = Collect amd64_utc (Response 200 (Some "up 3 days")).
Proof.
  split; [vm_compute; reflexivity|].
  apply (snapshot_deterministic amd64_utc "up  3&nbsp;days" "up 3 days").
  vm_compute; reflexivity.
Defined.

(** ** Tools for reading [collect_page] *)

Lemma Collect_page (env : Env) (body : string) :
  Collect env (Response 200 (Some body)) = collect_page env body.
Proof. reflexivity. Qed.

(** Names the results of the extractors, leaving a goal about the sends
    alone. *)
Ltac name_extracted :=
  repeat match goal with
    | |- context [parseFirstNumber ?h ?p] => generalize (parseFirstNumber h p); intro
    | |- context [parseFirstFloat ?h ?p] => generalize (parseFirstFloat h p); intro
    | |- context [parseFirstString ?h ?p] => generalize (parseFirstString h p); intro
    | |- context [parseRFC1123InParens ?e ?h ?p] =>
        generalize (parseRFC1123InParens e h p); intro
    | |- context [parseStartedUnix ?e ?h] => generalize (parseStartedUnix e h); intro
    | |- context [parseUptimeSeconds ?e ?h] => generalize (parseUptimeSeconds e h); intro
    | |- context [parseVersionBuild ?h] => destruct (parseVersionBuild h) as [? ?]
    | |- context [parseSizesMB ?h] => destruct (parseSizesMB h) as [? ?]
    end.

Lemma when_nil (c : bool) : when c [] = [].
Proof. destruct c; reflexivity. Qed.

(** *** Which descriptors a snapshot has *)

Lemma has_app (d : Desc) (a b : list Metric) :
  has d (a ++ b) = has d a || has d b.
Proof. apply existsb_app. Qed.

Lemma has_when (d : Desc) (c : bool) (ms : list Metric) :
  has d (when c ms) = c && has d ms.
Proof. destruct c; reflexivity. Qed.

Lemma has_interval_row (d : Desc) (html win : string) :
  is_interval d = false -> has d (interval_row html win) = false.
Proof.
  intros Hd. unfold interval_row.
  destruct (List.length _ =? 5)%nat; [|reflexivity].
  rewrite !has_app, !has_when. cbn [has existsb desc].
  destruct d; try discriminate Hd; cbn [Desc_eqb index Nat.eqb orb];
    rewrite ?andb_false_r; reflexivity.
Qed.

Lemma has_intervals (d : Desc) (html : string) :
  is_interval d = false -> has d (flat_map (interval_row html) intervals) = false.
Proof.
  intros Hd. cbn [flat_map intervals]. rewrite !has_app, !has_interval_row by exact Hd.
  reflexivity.
Qed.

(** Rewrites [has d (collect_page env body)] into the guards of the sends
    of descriptor [d], for a [d] that is not a per-window descriptor. *)
Ltac has_page :=
  unfold collect_page; name_extracted;
  unfold counter, gauge, positive_gauge;
  repeat match goal with
    | |- context [if strings.Contains ?h ?m then _ else _] =>
        destruct (strings.Contains h m)
    end;
  rewrite ?has_app, ?has_when;
  rewrite ?has_intervals by reflexivity;
  cbn [has existsb desc Desc_eqb index Nat.eqb];
  rewrite ?andb_false_r, ?andb_true_r, ?orb_false_r, ?orb_false_l, ?orb_true_r.

Lemma has_up (env : Env) (body : string) :
  has up (collect_page env body) = true.
Proof. has_page; reflexivity. Qed.





(** *** Selecting metrics by descriptor *)

Section Select.

Variable q : Desc -> bool.

Lemma select_app (a b : list Metric) :
  select q (a ++ b) = (select q a ++ select q b)%list.
Proof. apply filter_app. Qed.

Lemma select_when (c : bool) (ms : list Metric) :
  select q (when c ms) = when c (select q ms).
Proof. destruct c; reflexivity. Qed.

Lemma select_counter (d : Desc) (v : Z) :
  select q (counter d v) = if q d then counter d v else [].
Proof.
  unfold counter. rewrite select_when. cbn [select filter desc].
  destruct (q d); [reflexivity|apply when_nil].
Qed.

Lemma select_gauge (d : Desc) (v : float64) :
  select q (gauge d v) = if q d then gauge d v else [].
Proof.
  unfold gauge. rewrite select_when. cbn [select filter desc].
  destruct (q d); [reflexivity|apply when_nil].
Qed.

Lemma select_positive_gauge (d : Desc) (v : Z) :
  select q (positive_gauge d v) = if q d then positive_gauge d v else [].
Proof.
  unfold positive_gauge. rewrite select_when. cbn [select filter desc].
  destruct (q d); [reflexivity|apply when_nil].
Qed.



End Select.






(** *** Sublists *)










(** ** The shape of a snapshot *)



(** ** The cache block *)



(** ** Numeric grouping *)

(** C4, as the code has it: the pattern of the requests-total field
    wants the label in a [</th>] header cell and the number in the
    [<td>] cell after it.  On such a page the grouped number
    [12,345] is extracted as the integer 12345 ([toInt] removes the
    commas before the conversion) and sent as the counter
    [requests_total]. *)
Theorem numeric_grouping_in_table_cell (env : Env) :
  toInt "12,345" = 12345
  /\ parseFirstNumber (normalize "Total number of requests:</th><td>12,345")
       "Total number of requests:\s*</th>\s*<td[^>]*>\s*([0-9,]+)" = 12345
  /\ metrics_of requests_total
       (Collect env (Response 200 (Some "Total number of requests:</th><td>12,345")))
     = [counter_of requests_total 12345].
Proof. repeat split; vm_compute; reflexivity. Qed.

(** C4, as the claim states it, fails: on the text
    ["Total number of requests: 12,345"] the pattern finds no header
    cell, the extractor returns the sentinel -1 and no
    [requests_total] is sent. *)
Lemma numeric_grouping_plain_text_absent :
  parseFirstNumber (normalize "Total number of requests: 12,345")
    "Total number of requests:\s*</th>\s*<td[^>]*>\s*([0-9,]+)" = -1
  /\ has requests_total
       (Collect amd64_utc (Response 200 (Some "Total number of requests: 12,345")))
     = false.
Proof. split; vm_compute; reflexivity. Qed.

(** ** Zero and negative values *)


(** ** The normalizer *)

Lemma run_le (s : string) : (run s <= String.length s)%nat.
Proof.
  induction s as [|c s IH]; cbn [run String.length]; [lia|].
  destruct (is_space c); lia.
Qed.

Lemma length_drop (n : nat) (s : string) :
  (n <= String.length s)%nat ->
  String.length (strings.drop n s) = (String.length s - n)%nat.
Proof.
  revert s. induction n as [|n IH]; intros [|c s] H; cbn in *; try lia.
  apply IH. lia.
Qed.

Lemma rep_spaces (s : string) :
  regexp.rep regexp.CSpace 0 None s
    (fun s' => Some (s', [] : regexp.captures))
  = Some (strings.drop (run s) s, []).
Proof.
  induction s as [|c s IH]; [reflexivity|].
  cbn [regexp.rep regexp.more regexp.less andb regexp.mem Nat.pred run].
  change (regexp.is_space c) with (is_space c).
  destruct (is_space c); [|reflexivity].
  rewrite IH. reflexivity.
Qed.

Lemma compile_spaces : regexp.MustCompile "\s+" = regexp.RRep regexp.CSpace 1 None.
Proof. reflexivity. Qed.

Lemma match_spaces (c : ascii) (s : string) :
  regexp.match_at (regexp.RRep regexp.CSpace 1 None) (String c s)
  = if is_space c then Some (strings.drop (run s) s, []) else None.
Proof.
  unfold regexp.match_at.
  cbn [regexp.exec regexp.rep regexp.more regexp.less andb regexp.mem Nat.pred].
  change (regexp.is_space c) with (is_space c).
  destruct (is_space c); [|reflexivity].
  cbn beta. rewrite (rep_spaces s). reflexivity.
Qed.

Lemma replace_spaces (s : string) :
  regexp.replace_from (regexp.RRep regexp.CSpace 1 None) " " s O = collapse false s
  /\ regexp.replace_from (regexp.RRep regexp.CSpace 1 None) " " s (run s)
     = collapse true s.
Proof.
  induction s as [|c s [IH0 IHrun]]; [split; reflexivity|].
  assert (H0 : regexp.replace_from (regexp.RRep regexp.CSpace 1 None) " " (String c s) O
               = collapse false (String c s)).
  { cbn [regexp.replace_from collapse]. rewrite match_spaces.
    destruct (is_space c).
    - rewrite length_drop by apply run_le.
      pose proof (run_le s).
      replace (String.length (String c s) - (String.length s - run s))%nat
        with (S (run s)) by (cbn [String.length]; lia).
      rewrite IHrun. reflexivity.
    - rewrite IH0. reflexivity. }
  split; [exact H0|].
  cbn [run]. destruct (is_space c) eqn:Hc.
  - cbn [regexp.replace_from collapse]. rewrite Hc. exact IHrun.
  - rewrite H0. cbn [collapse]. rewrite Hc. reflexivity.
Qed.

Lemma collapsed_collapse (b : bool) (s : string) :
  collapsed b (collapse b s) = true.
Proof.
  revert b. induction s as [|c s IH]; intros b; [reflexivity|].
  cbn [collapse]. destruct (is_space c) eqn:Hc.
  - destruct b; [apply IH|]. cbn [collapsed].
    change (is_space " ") with true. cbn. apply IH.
  - cbn [collapsed]. rewrite Hc. apply IH.
Qed.

Lemma collapse_collapsed (b : bool) (s : string) :
  collapsed b s = true -> collapse b s = s.
Proof.
  revert b. induction s as [|c s IH]; intros b H; [reflexivity|].
  cbn [collapse collapsed] in *. destruct (is_space c).
  - apply andb_prop in H. destruct H as [H Hs].
    apply andb_prop in H. destruct H as [Hb Hc].
    destruct b; [discriminate Hb|].
    apply Ascii.eqb_eq in Hc. subst c. rewrite (IH true Hs). reflexivity.
  - rewrite (IH false H). reflexivity.
Qed.

Lemma collapsed_weaken (b : bool) (s : string) :
  collapsed b s = true -> collapsed false s = true.
Proof.
  destruct s as [|c s]; [reflexivity|]. cbn [collapsed].
  destruct (is_space c); [|auto]. destruct b; [discriminate|auto].
Qed.

Lemma collapsed_no_adjacent (b : bool) (s : string) :
  collapsed b s = true -> no_adjacent_spaces s = true.
Proof.
  revert b. induction s as [|c s IH]; intros b H; [reflexivity|].
  cbn [no_adjacent_spaces]. destruct s as [|d s]; [reflexivity|].
  cbn [collapsed] in H. destruct (is_space c) eqn:Hc.
  - apply andb_prop in H. destruct H as [_ H].
    rewrite (IH true H). cbn [collapsed] in H.
    destruct (is_space d); [discriminate H|reflexivity].
  - rewrite (IH false H). reflexivity.
Qed.

(** *** Replacing the entity *)

Lemma prefix_nil_r (p : string) : strings.prefix p "" = true -> p = "".
Proof. destruct p; [reflexivity|discriminate]. Qed.

Lemma replace_skip (old new s : string) (n : nat) :
  strings.replace_from old new s n
  = strings.replace_from old new (strings.drop n s) O.
Proof.
  revert n. induction s as [|c s IH]; intros [|n]; try reflexivity.
  cbn [strings.replace_from strings.drop]. apply IH.
Qed.

Lemma prefix_of_sp (p : string) (sp : ascii) (x : string) :
  p <> "" -> strings.Contains p (String sp "") = false ->
  strings.prefix p (String sp x) = false.
Proof.
  intros Hne Hp. destruct p as [|a p]; [congruence|].
  cbn [strings.Contains strings.prefix] in *.
  apply orb_false_elim in Hp. destruct Hp as [H1 _]. rewrite andb_true_r in H1.
  rewrite Ascii.eqb_sym, H1. reflexivity.
Qed.

Lemma prefix_of_nil (p : string) : p <> "" -> strings.prefix p "" = false.
Proof. destruct p; [congruence|reflexivity]. Qed.

Lemma length_drop_le (n : nat) (s : string) :
  (String.length (strings.drop n s) <= String.length s)%nat.
Proof.
  revert n. induction s as [|c s IH]; intros [|k]; cbn; try lia.
  specialize (IH k). lia.
Qed.

Section Entity.

(** A non-empty [old] without the character [sp], replaced by [sp]. *)
Variable old : string.
Variable sp : ascii.
Hypothesis old_not_empty : old <> "".
Hypothesis old_without_sp : strings.Contains old (String sp "") = false.

Lemma replaced_here (c : ascii) (s : string) :
  strings.prefix old (String c s) = true ->
  replaced old sp (String c s)
  = String sp (replaced old sp (strings.drop (Nat.pred (String.length old)) s)).
Proof.
  intros H. unfold replaced. cbn [strings.replace_from]. rewrite H.
  rewrite replace_skip. reflexivity.
Qed.

Lemma replaced_next (c : ascii) (s : string) :
  strings.prefix old (String c s) = false ->
  replaced old sp (String c s) = String c (replaced old sp s).
Proof.
  intros H. unfold replaced. cbn [strings.replace_from]. rewrite H. reflexivity.
Qed.

(** A prefix of the output that has no [sp] is a prefix of the input. *)
Lemma prefix_replaced (p s : string) :
  strings.Contains p (String sp "") = false ->
  strings.prefix p (replaced old sp s) = true -> strings.prefix p s = true.
Proof.
  revert s. induction p as [|d p IH]; intros s Hp H; [reflexivity|].
  assert (Hd : Ascii.eqb sp d = false /\ strings.Contains p (String sp "") = false).
  { cbn [strings.Contains strings.prefix] in Hp.
    apply orb_false_elim in Hp. destruct Hp as [H1 H2].
    rewrite andb_true_r in H1. split; assumption. }
  destruct Hd as [Hd Hp'].
  destruct s as [|c s]; [discriminate H|].
  destruct (strings.prefix old (String c s)) eqn:Ho.
  - rewrite (replaced_here _ _ Ho) in H. cbn [strings.prefix] in H.
    rewrite Ascii.eqb_sym, Hd in H. discriminate H.
  - rewrite (replaced_next _ _ Ho) in H. cbn [strings.prefix] in *.
    apply andb_prop in H. destruct H as [Hc H]. rewrite Hc.
    apply (IH s Hp' H).
Qed.

Lemma prefix_replaced_cons (p : string) (c : ascii) (s : string) :
  strings.Contains p (String sp "") = false ->
  strings.prefix p (String c (replaced old sp s)) = true ->
  strings.prefix p (String c s) = true.
Proof.
  intros Hp H. destruct p as [|d p]; [reflexivity|].
  cbn [strings.prefix] in *. apply andb_prop in H. destruct H as [H1 H2].
  rewrite H1. apply (prefix_replaced p s); [|exact H2].
  cbn [strings.Contains] in Hp. apply orb_false_elim in Hp. tauto.
Qed.

Lemma replaced_removes_all (n : nat) (s : string) :
  (String.length s <= n)%nat ->
  strings.Contains (replaced old sp s) old = false.
Proof.
  revert s. induction n as [|n IH]; intros s Hn.
  - destruct s; [|cbn in Hn; lia]. cbn [replaced strings.replace_from strings.Contains].
    rewrite prefix_of_nil by assumption. reflexivity.
  - destruct s as [|c s].
    { cbn [replaced strings.replace_from strings.Contains].
      rewrite prefix_of_nil by assumption. reflexivity. }
    cbn [String.length] in Hn.
    destruct (strings.prefix old (String c s)) eqn:Ho.
    + rewrite (replaced_here _ _ Ho). cbn [strings.Contains].
      rewrite IH.
      * rewrite prefix_of_sp by assumption. reflexivity.
      * pose proof (length_drop_le (Nat.pred (String.length old)) s). lia.
    + rewrite (replaced_next _ _ Ho). cbn [strings.Contains].
      rewrite (IH s) by lia. rewrite orb_false_r.
      destruct (strings.prefix old (String c (replaced old sp s))) eqn:Hr;
        [|reflexivity].
      rewrite (prefix_replaced_cons old c s old_without_sp Hr) in Ho.
      discriminate Ho.
Qed.

Lemma replaced_nothing (s : string) :
  strings.Contains s old = false -> replaced old sp s = s.
Proof.
  induction s as [|c s IH]; intros H; [reflexivity|].
  cbn [strings.Contains] in H. apply orb_false_elim in H. destruct H as [H1 H2].
  rewrite (replaced_next _ _ H1). rewrite (IH H2). reflexivity.
Qed.

End Entity.

Lemma ReplaceAll_removes_entity (s : string) :
  strings.Contains (strings.ReplaceAll s "&nbsp;" " ") "&nbsp;" = false.
Proof.
  apply (replaced_removes_all "&nbsp;" " " ltac:(discriminate) eq_refl (String.length s)).
  lia.
Qed.

Lemma ReplaceAll_without_entity (s : string) :
  strings.Contains s "&nbsp;" = false -> strings.ReplaceAll s "&nbsp;" " " = s.
Proof. apply (replaced_nothing "&nbsp;" " "). Qed.

(** *** Collapsing keeps text without whitespace apart *)

Lemma prefix_collapse (p s : string) :
  no_space p = true ->
  strings.prefix p (collapse false s) = true -> strings.prefix p s = true.
Proof.
  revert s. induction p as [|d p IH]; intros s Hp H; [reflexivity|].
  cbn [no_space] in Hp. apply andb_prop in Hp. destruct Hp as [Hd Hp].
  destruct s as [|c s]; [discriminate H|].
  cbn [collapse] in H. destruct (is_space c) eqn:Hc.
  - cbn [strings.prefix] in H. apply andb_prop in H. destruct H as [H _].
    apply Ascii.eqb_eq in H. subst d. discriminate Hd.
  - cbn [strings.prefix] in *. apply andb_prop in H. destruct H as [H1 H2].
    rewrite H1. apply (IH s Hp H2).
Qed.

Lemma Contains_collapse (p s : string) (b : bool) :
  no_space p = true -> p <> "" ->
  strings.Contains (collapse b s) p = true -> strings.Contains s p = true.
Proof.
  intros Hp Hne. revert b. induction s as [|c s IH]; intros b H.
  - exact H.
  - cbn [strings.Contains]. cbn [collapse] in H.
    destruct p as [|d p]; [congruence|].
    cbn [no_space] in Hp. apply andb_prop in Hp. destruct Hp as [Hd Hp].
    destruct (is_space c) eqn:Hc.
    + destruct b.
      * rewrite (IH true H). apply orb_true_r.
      * cbn [strings.Contains] in H. apply orb_prop in H. destruct H as [H|H].
        -- cbn [strings.prefix] in H. apply andb_prop in H. destruct H as [H _].
           apply Ascii.eqb_eq in H. subst d. discriminate Hd.
        -- rewrite (IH true H). apply orb_true_r.
    + cbn [strings.Contains] in H. apply orb_prop in H. destruct H as [H|H].
      * cbn [strings.prefix] in H |- *. apply andb_prop in H. destruct H as [H1 H2].
        rewrite H1. rewrite (prefix_collapse p s Hp H2). reflexivity.
      * rewrite (IH false H). apply orb_true_r.
Qed.

Lemma normalize_collapse (text : string) :
  normalize text = collapse false (strings.ReplaceAll text "&nbsp;" " ").
Proof.
  unfold normalize, regexp.ReplaceAllString. rewrite compile_spaces.
  apply replace_spaces.
Qed.

(** C10: normalizing twice is normalizing once, and a normalized text
    contains neither the entity [&nbsp;] nor two adjacent whitespace
    characters, whitespace being what the normalizer's [\s] matches:
    tab, line feed, form feed, carriage return and space. *)
Theorem normalize_idempotent (text : string) :
  normalize (normalize text) = normalize text
  /\ strings.Contains (normalize text) "&nbsp;" = false
  /\ no_adjacent_spaces (normalize text) = true.
Proof.
  assert (He : strings.Contains (normalize text) "&nbsp;" = false).
  { rewrite normalize_collapse.
    destruct (strings.Contains (collapse false _) "&nbsp;") eqn:H; [|reflexivity].
    apply Contains_collapse in H; [|reflexivity|discriminate].
    rewrite ReplaceAll_removes_entity in H. discriminate H. }
  split; [|split; [exact He|]].
  - rewrite (normalize_collapse (normalize text)).
    rewrite (ReplaceAll_without_entity _ He).
    rewrite normalize_collapse. apply collapse_collapsed, collapsed_collapse.
  - rewrite normalize_collapse.
    apply (collapsed_no_adjacent false), collapsed_collapse.
Qed.

(** ** Matching

    Facts about the matcher that the properties of the extractors rest
    on. *)

Lemma exec_seq {A : Type} (r1 r2 : regexp.re) (s : string) (c : regexp.captures)
      (k : string -> regexp.captures -> option A) :
  regexp.exec (regexp.RSeq r1 r2) s c k
  = regexp.exec r1 s c (fun s' c' => regexp.exec r2 s' c' k).
Proof. reflexivity. Qed.

Lemma exec_set {A : Type} (cs : regexp.cset) (a : ascii) (s : string)
      (c : regexp.captures) (k : string -> regexp.captures -> option A) :
  regexp.exec (regexp.RSet cs) (String a s) c k
  = if regexp.mem cs a then k s c else None.
Proof. reflexivity. Qed.

Lemma exec_rep {A : Type} (cs : regexp.cset) (lo : nat) (hi : option nat)
      (s : string) (c : regexp.captures)
      (k : string -> regexp.captures -> option A) :
  regexp.exec (regexp.RRep cs lo hi) s c k
  = regexp.rep cs lo hi s (fun s' => k s' c).
Proof. reflexivity. Qed.

Lemma exec_group {A : Type} (i : nat) (r : regexp.re) (s : string)
      (c : regexp.captures) (k : string -> regexp.captures -> option A) :
  regexp.exec (regexp.RGroup i r) s c k
  = regexp.exec r s c
      (fun s' c' =>
         k s' ((i, strings.take (String.length s - String.length s') s) :: c')).
Proof. reflexivity. Qed.

Lemma exec_alt {A : Type} (r1 r2 : regexp.re) (s : string)
      (c : regexp.captures) (k : string -> regexp.captures -> option A) :
  regexp.exec (regexp.RAlt r1 r2) s c k
  = match regexp.exec r1 s c k with
    | Some x => Some x
    | None => regexp.exec r2 s c k
    end.
Proof. reflexivity. Qed.

Lemma exec_lit_then {A : Type} (l : string) (r : regexp.re) (t : string)
      (c : regexp.captures) (k : string -> regexp.captures -> option A) :
  regexp.exec (lit_then l r) t c k
  = if strings.prefix l t
    then regexp.exec r (strings.drop (String.length l) t) c k
    else None.
Proof.
  revert t. induction l as [|a l IH]; intros t.
  - destruct t; reflexivity.
  - destruct t as [|b t]; [reflexivity|].
    cbn [lit_then regexp.exec regexp.mem strings.prefix String.length strings.drop].
    destruct (Ascii.eqb a b); [apply IH|reflexivity].
Qed.

(** The pattern of a word matches that word and nothing else. *)
Lemma exec_word {A : Type} (a : ascii) (l : string) (s : string)
      (c : regexp.captures) (k : string -> regexp.captures -> option A) :
  regexp.exec (word a l) s c k
  = if strings.prefix (String a l) s
    then k (strings.drop (String.length (String a l)) s) c
    else None.
Proof.
  revert a s. induction l as [|b l IH]; intros a s.
  - destruct s as [|x s]; [reflexivity|].
    cbn [word regexp.exec regexp.mem strings.prefix String.length strings.drop].
    rewrite andb_true_r. destruct s; reflexivity.
  - destruct s as [|x s]; [reflexivity|].
    cbn [word]. rewrite exec_seq, exec_set. cbn [regexp.mem].
    change (strings.prefix (String a (String b l)) (String x s))
      with (Ascii.eqb a x && strings.prefix (String b l) s)%bool.
    destruct (Ascii.eqb a x); [|reflexivity].
    cbn [andb]. rewrite IH. reflexivity.
Qed.

Lemma search_here (r : regexp.re) (s s' : string) (caps : regexp.captures) :
  regexp.match_at r s = Some (s', caps) ->
  regexp.search r s
  = Some (strings.take (String.length s - String.length s') s, caps).
Proof. intros H. destruct s; cbn [regexp.search]; rewrite H; reflexivity. Qed.

Lemma search_next (r : regexp.re) (c : ascii) (s : string) :
  regexp.match_at r (String c s) = None ->
  regexp.search r (String c s) = regexp.search r s.
Proof. intros H. cbn [regexp.search]. rewrite H. reflexivity. Qed.

(** A pattern that starts with the literal [l] matches nowhere in a text
    that does not contain [l]. *)
Lemma search_without_literal (l : string) (r : regexp.re) (s : string) :
  l <> "" -> strings.Contains s l = false ->
  regexp.search (lit_then l r) s = None.
Proof.
  intros Hl. induction s as [|c s IH]; intros H.
  - cbn [regexp.search]. unfold regexp.match_at. rewrite exec_lit_then.
    destruct l; [congruence|reflexivity].
  - cbn [strings.Contains] in H. apply orb_false_elim in H. destruct H as [H1 H2].
    rewrite search_next; [apply IH; exact H2|].
    unfold regexp.match_at. rewrite exec_lit_then, H1. reflexivity.
Qed.

(** What [FindStringSubmatch] returns for a one-group pattern that
    starts with the literal [l], on a text that has [l] nowhere after
    its first character. *)
Lemma find_at_head (l : string) (r : regexp.re) (c : ascii) (s : string) :
  l <> "" -> regexp.groups (lit_then l r) = 1%nat ->
  strings.Contains s l = false ->
  regexp.FindStringSubmatch (lit_then l r) (String c s)
  = match regexp.match_at (lit_then l r) (String c s) with
    | Some (rest, caps) =>
        [strings.take (String.length (String c s) - String.length rest) (String c s);
         regexp.lookup 1 caps]
    | None => []
    end.
Proof.
  intros Hl Hg Hs. unfold regexp.FindStringSubmatch. rewrite Hg.
  destruct (regexp.match_at (lit_then l r) (String c s)) as [[rest caps]|] eqn:Hm.
  - rewrite (search_here _ _ _ _ Hm). reflexivity.
  - rewrite (search_next _ _ _ Hm), (search_without_literal l r s Hl Hs). reflexivity.
Qed.

Lemma rep_stop {A : Type} (cs : regexp.cset) (hi : option nat) (c : ascii)
      (s : string) (k : string -> option A) :
  regexp.mem cs c = false ->
  regexp.rep cs 0 hi (String c s) k = k (String c s).
Proof.
  intros H. cbn [regexp.rep]. rewrite H, andb_false_r. reflexivity.
Qed.

Lemma rep_step {A : Type} (cs : regexp.cset) (c : ascii)
      (s : string) (k : string -> option A) :
  regexp.mem cs c = true ->
  regexp.rep cs 0 None (String c s) k
  = match regexp.rep cs 0 None s k with
    | Some r => Some r
    | None => k (String c s)
    end.
Proof. intros H. cbn [regexp.rep regexp.more regexp.less Nat.pred andb]. rewrite H. reflexivity. Qed.

(** A run of characters of [cs] in front of [rest] is passed over, when
    what follows the repetition cannot start with a character of [cs]. *)
Lemma rep_run {A : Type} (cs : regexp.cset) (run rest : string)
      (k : string -> option A) :
  all_chars (regexp.mem cs) run = true ->
  (forall c t, regexp.mem cs c = true -> k (String c t) = None) ->
  regexp.rep cs 0 None (run ++ rest) k = regexp.rep cs 0 None rest k.
Proof.
  intros Hrun Hk. induction run as [|c run IH]; [reflexivity|].
  cbn [all_chars] in Hrun. apply andb_prop in Hrun. destruct Hrun as [Hc Hrun].
  cbn [append]. rewrite (rep_step cs c _ k Hc), (IH Hrun), (Hk c _ Hc).
  destruct (regexp.rep cs 0 None rest k); reflexivity.
Qed.

(** A greedy repetition takes a whole run of characters of [cs] when
    the rest of the pattern matches after the run. *)
Lemma rep_all {A : Type} (cs : regexp.cset) (lo : nat) (run rest : string)
      (k : string -> option A) (x : A) :
  all_chars (regexp.mem cs) run = true ->
  (lo <= String.length run)%nat ->
  regexp.rep cs 0 None rest k = Some x ->
  regexp.rep cs lo None (run ++ rest) k = Some x.
Proof.
  intros Hrun. revert lo. induction run as [|c run IH]; intros lo Hlo Hrest.
  - cbn in Hlo. replace lo with O by lia. exact Hrest.
  - cbn [all_chars] in Hrun. apply andb_prop in Hrun. destruct Hrun as [Hc Hrun].
    cbn [append regexp.rep regexp.more regexp.less andb]. rewrite Hc.
    rewrite (IH Hrun (Nat.pred lo)); [reflexivity| |exact Hrest].
    cbn [String.length] in Hlo. lia.
Qed.

(** The greedy [.*] runs to the last place from which the rest of the
    pattern matches. *)
Lemma rep_any_through {A : Type} (pre rest : string) (k : string -> option A) (x : A) :
  no_newline pre = true ->
  regexp.rep regexp.CAny 0 None rest k = Some x ->
  regexp.rep regexp.CAny 0 None (pre ++ rest) k = Some x.
Proof.
  intros Hpre Hrest. induction pre as [|c pre IH]; [exact Hrest|].
  cbn [no_newline all_chars] in Hpre. apply andb_prop in Hpre.
  destruct Hpre as [Hc Hpre].
  cbn [append regexp.rep regexp.more regexp.less regexp.mem andb Nat.pred].
  fold newline. rewrite Hc. rewrite (IH Hpre). reflexivity.
Qed.

Lemma rep_fails {A : Type} (cs : regexp.cset) (lo : nat) (hi : option nat)
      (s : string) (k : string -> option A) :
  fails_everywhere k s -> regexp.rep cs lo hi s k = None.
Proof.
  revert lo hi. induction s as [|c s IH]; intros lo hi [H Hs].
  - cbn [regexp.rep]. destruct lo; [exact H|reflexivity].
  - cbn [regexp.rep]. rewrite (IH _ _ Hs).
    destruct (regexp.more hi && regexp.mem cs c)%bool, lo; auto.
Qed.

(** Asking for more repetitions does not make a failing repetition
    succeed. *)
Lemma rep_more_fails {A : Type} (cs : regexp.cset) (lo : nat) (hi : option nat)
      (s : string) (k : string -> option A) :
  regexp.rep cs 0 hi s k = None -> regexp.rep cs lo hi s k = None.
Proof.
  revert lo hi. induction s as [|x s IH]; intros lo hi H.
  - destruct lo; [exact H|reflexivity].
  - cbn [regexp.rep] in H |- *.
    destruct (regexp.more hi && regexp.mem cs x)%bool.
    + destruct (regexp.rep cs (Nat.pred 0) (regexp.less hi) s k) eqn:E;
        [discriminate H|].
      rewrite (IH _ _ E). destruct lo; [exact H|reflexivity].
    + destruct lo; [exact H|reflexivity].
Qed.

Lemma rep_fails_run {A : Type} (cs : regexp.cset) (lo : nat) (run rest : string)
      (k : string -> option A) :
  all_chars (regexp.mem cs) run = true ->
  (forall c t, regexp.mem cs c = true -> k (String c t) = None) ->
  regexp.rep cs 0 None rest k = None ->
  regexp.rep cs lo None (run ++ rest) k = None.
Proof.
  intros Hrun Hk Hrest. revert lo. induction run as [|c run IH]; intros lo.
  - apply rep_more_fails, Hrest.
  - cbn [all_chars] in Hrun. apply andb_prop in Hrun. destruct Hrun as [Hc Hrun].
    cbn [append regexp.rep regexp.more regexp.less andb]. rewrite Hc.
    rewrite (IH Hrun). destruct lo; [apply Hk, Hc|reflexivity].
Qed.

Lemma some_first {A : Type} (e : option A) (y : option A) (x : A) :
  e = Some x -> match e with Some r => Some r | None => y end = Some x.
Proof. intros ->. reflexivity. Qed.

Lemma all_chars_app (P : ascii -> bool) (a b : string) :
  all_chars P (a ++ b) = all_chars P a && all_chars P b.
Proof.
  induction a as [|c a IH]; [reflexivity|].
  cbn [append all_chars]. rewrite IH. apply andb_assoc.
Qed.

Lemma all_chars_impl (P Q : ascii -> bool) (s : string) :
  (forall c, P c = true -> Q c = true) ->
  all_chars P s = true -> all_chars Q s = true.
Proof.
  intros H. induction s as [|c s IH]; [reflexivity|].
  cbn [all_chars]. intros Hs. apply andb_prop in Hs. destruct Hs as [Hc Hs].
  rewrite (H c Hc), (IH Hs). reflexivity.
Qed.

Lemma fails_everywhere_drop {A : Type} (k : string -> option A) (n : nat) (s : string) :
  fails_everywhere k s -> fails_everywhere k (strings.drop n s).
Proof.
  revert s. induction n as [|n IH]; intros s H.
  - destruct s; exact H.
  - destruct s as [|c s]; [exact H|]. cbn [strings.drop]. apply IH. apply H.
Qed.

Lemma fails_everywhere_app {A : Type} (k : string -> option A) (P : ascii -> bool)
      (pre rest : string) :
  (forall c t, P c = true -> k (String c t) = None) ->
  all_chars P pre = true ->
  fails_everywhere k rest -> fails_everywhere k (pre ++ rest).
Proof.
  intros Hk Hpre Hrest. induction pre as [|c pre IH]; [exact Hrest|].
  cbn [all_chars] in Hpre. apply andb_prop in Hpre. destruct Hpre as [Hc Hpre].
  cbn [append]. split; [apply Hk; exact Hc|apply IH; exact Hpre].
Qed.

Lemma fails_everywhere_chars {A : Type} (k : string -> option A) (P : ascii -> bool)
      (s : string) :
  (forall c t, P c = true -> k (String c t) = None) ->
  k "" = None ->
  all_chars P s = true -> fails_everywhere k s.
Proof.
  intros Hk Hnil. induction s as [|c s IH]; intros Hs; [split; [exact Hnil|exact I]|].
  cbn [all_chars] in Hs. apply andb_prop in Hs. destruct Hs as [Hc Hs].
  split; [apply Hk, Hc|apply IH, Hs].
Qed.

Lemma length_append (a b : string) :
  String.length (a ++ b) = (String.length a + String.length b)%nat.
Proof. induction a as [|c a IH]; cbn [append String.length]; [reflexivity|lia]. Qed.

Lemma take_length_app (a b : string) :
  strings.take (String.length a) (a ++ b) = a.
Proof.
  induction a as [|c a IH]; cbn [append String.length strings.take].
  - destruct b; reflexivity.
  - rewrite IH. reflexivity.
Qed.

Lemma take_app_length (a b : string) :
  strings.take (String.length (a ++ b) - String.length b) (a ++ b) = a.
Proof.
  rewrite length_append.
  replace (String.length a + String.length b - String.length b)%nat
    with (String.length a) by lia.
  apply take_length_app.
Qed.

Lemma Contains_app_r (a b l : string) :
  strings.Contains (a ++ b) l = false -> strings.Contains b l = false.
Proof.
  induction a as [|c a IH]; intros H; [exact H|].
  cbn [append strings.Contains] in H. apply orb_false_elim in H. apply IH, H.
Qed.

(** *** Characters *)

Lemma letter_not_space (c : ascii) :
  time.is_letter c = true -> regexp.mem regexp.CSpace c = false.
Proof.
  destruct c as [[] [] [] [] [] [] [] []]; intros H;
    first [reflexivity | discriminate H].
Qed.

Lemma letter_not_lt (c : ascii) :
  time.is_letter c = true -> Ascii.eqb "<" c = false.
Proof.
  destruct c as [[] [] [] [] [] [] [] []]; intros H;
    first [reflexivity | discriminate H].
Qed.

Lemma letter_not_paren (c : ascii) :
  time.is_letter c = true -> negb (Ascii.eqb "(" c) = true.
Proof.
  destruct c as [[] [] [] [] [] [] [] []]; intros H;
    first [reflexivity | discriminate H].
Qed.

Lemma letter_is_letter (c : ascii) :
  time.is_letter c = true ->
  regexp.mem letters c = true.
Proof.
  destruct c as [[] [] [] [] [] [] [] []]; intros H;
    first [reflexivity | discriminate H].
Qed.

Lemma letter_neq (a x : ascii) :
  time.is_letter a = true -> time.is_letter x = false -> Ascii.eqb a x = false.
Proof.
  intros Ha Hx. destruct (Ascii.eqb a x) eqn:E; [|reflexivity].
  apply Ascii.eqb_eq in E. subst x. congruence.
Qed.

Lemma space_not_lt (c : ascii) :
  regexp.mem regexp.CSpace c = true -> Ascii.eqb "<" c = false.
Proof.
  destruct c as [[] [] [] [] [] [] [] []]; intros H;
    first [reflexivity | discriminate H].
Qed.

Lemma space_not_S (c : ascii) :
  regexp.mem regexp.CSpace c = true -> Ascii.eqb "S" c = false.
Proof.
  destruct c as [[] [] [] [] [] [] [] []]; intros H;
    first [reflexivity | discriminate H].
Qed.

Lemma space_not_letter (c : ascii) :
  regexp.mem regexp.CSpace c = true ->
  regexp.mem letters c = false.
Proof.
  destruct c as [[] [] [] [] [] [] [] []]; intros H;
    first [reflexivity | discriminate H].
Qed.

Lemma not_gt_not_gt (c : ascii) :
  regexp.mem not_gt c = true -> Ascii.eqb ">" c = false.
Proof.
  destruct c as [[] [] [] [] [] [] [] []]; intros H;
    first [reflexivity | discriminate H].
Qed.

Lemma digit_comma_not_space (c : ascii) :
  regexp.mem digits_comma c = true -> regexp.mem regexp.CSpace c = false.
Proof.
  destruct c as [[] [] [] [] [] [] [] []]; intros H;
    first [reflexivity | discriminate H].
Qed.

Lemma digit_point_not_space (c : ascii) :
  regexp.mem digits_point c = true -> regexp.mem regexp.CSpace c = false.
Proof.
  destruct c as [[] [] [] [] [] [] [] []]; intros H;
    first [reflexivity | discriminate H].
Qed.

Lemma digit_comma_not_lt (c : ascii) :
  regexp.mem digits_comma c = true -> Ascii.eqb "<" c = false.
Proof.
  destruct c as [[] [] [] [] [] [] [] []]; intros H;
    first [reflexivity | discriminate H].
Qed.

Lemma digit_point_not_lt (c : ascii) :
  regexp.mem digits_point c = true -> Ascii.eqb "<" c = false.
Proof.
  destruct c as [[] [] [] [] [] [] [] []]; intros H;
    first [reflexivity | discriminate H].
Qed.

Lemma digit_point_not_paren (c : ascii) :
  regexp.mem digits_point c = true -> negb (Ascii.eqb "(" c) = true.
Proof.
  destruct c as [[] [] [] [] [] [] [] []]; intros H;
    first [reflexivity | discriminate H].
Qed.

Lemma cell_of_chars (cs : regexp.cset) (cell : string) :
  cell_of cs cell = true -> all_chars (regexp.mem cs) cell = true.
Proof. unfold cell_of. intros H. apply andb_prop in H. apply H. Qed.

Lemma cell_of_length (cs : regexp.cset) (cell : string) :
  cell_of cs cell = true -> (1 <= String.length cell)%nat.
Proof.
  unfold cell_of. destruct cell; [discriminate|]. intros _. cbn. lia.
Qed.

(** No whitespace is taken in front of a cell of digits. *)
Lemma spaces_before_cell {A : Type} (cs : regexp.cset) (cell rest : string)
      (k : string -> option A) :
  (forall c, regexp.mem cs c = true -> regexp.mem regexp.CSpace c = false) ->
  cell_of cs cell = true ->
  regexp.rep regexp.CSpace 0 None (cell ++ rest) k = k (cell ++ rest).
Proof.
  intros Hcs H. unfold cell_of in H. destruct cell as [|c cell]; [discriminate H|].
  cbn [negb String.eqb andb all_chars] in H.
  apply andb_prop in H. destruct H as [H _].
  cbn [append]. apply rep_stop, Hcs.
  destruct (String.eqb (String c cell) "") eqn:E; [discriminate E|exact H].
Qed.

(** ** Uptime *)

Lemma uptime_pattern_shape :
  regexp.MustCompile uptime_pattern
  = lit_then "Started:" (regexp.RSeq (regexp.RRep regexp.CAny 0 None) uptime_phrase).
Proof. reflexivity. Qed.

Lemma uptime_phrase_shape :
  uptime_phrase
  = lit_then "("
      (regexp.RSeq (regexp.RGroup 1 (regexp.RRep digits_point 1 None))
         (spaces_then unit_then_paren)).
Proof. reflexivity. Qed.

(** The uptime pattern matches at the label when the phrase is found in
    the rest of the line. *)
Lemma uptime_found (pre phrase val unit : string) :
  no_newline pre = true ->
  regexp.rep regexp.CAny 0 None phrase
    (fun s' => regexp.exec uptime_phrase s' []
                 (fun s'' caps => Some (s'', caps)))
  = Some ("", [(2%nat, unit); (1%nat, val)]) ->
  exists whole,
    regexp.FindStringSubmatch (regexp.MustCompile uptime_pattern)
      ("Started:" ++ pre ++ phrase)
    = [whole; val; unit].
Proof.
  intros Hpre Hphrase. unfold regexp.FindStringSubmatch.
  erewrite search_here.
  2:{ unfold regexp.match_at. rewrite uptime_pattern_shape, exec_lit_then.
      change (strings.prefix "Started:" ("Started:" ++ pre ++ phrase)) with true.
      cbv iota.
      change (strings.drop (String.length "Started:") ("Started:" ++ pre ++ phrase))
        with (pre ++ phrase).
      rewrite exec_seq, exec_rep.
      apply rep_any_through; [exact Hpre|exact Hphrase]. }
  eexists. reflexivity.
Qed.

Lemma uptime_rest_needs_paren (c : ascii) (t : string) :
  negb (Ascii.eqb "(" c) = true -> uptime_rest (String c t) = None.
Proof.
  intros H. unfold uptime_rest.
  change uptime_phrase with (lit_then "(" (after_lit 1 uptime_phrase)).
  rewrite exec_lit_then. cbn [strings.prefix].
  destruct (Ascii.eqb "(" c); [discriminate H|reflexivity].
Qed.

(** The uptime pattern finds nothing in a text where the phrase matches
    nowhere. *)
Lemma uptime_not_found (s : string) :
  fails_everywhere uptime_rest s ->
  regexp.FindStringSubmatch (regexp.MustCompile uptime_pattern) s = [].
Proof.
  intros H. unfold regexp.FindStringSubmatch.
  assert (Hs : regexp.search (regexp.MustCompile uptime_pattern) s = None);
    [|rewrite Hs; reflexivity].
  assert (Hat : forall t, fails_everywhere uptime_rest t ->
                          regexp.match_at (regexp.MustCompile uptime_pattern) t = None).
  { intros t Ht. unfold regexp.match_at.
    rewrite uptime_pattern_shape, exec_lit_then.
    destruct (strings.prefix "Started:" t); [|reflexivity].
    rewrite exec_seq, exec_rep. apply rep_fails.
    apply (fails_everywhere_drop uptime_rest). exact Ht. }
  induction s as [|c s IH].
  - cbn [regexp.search]. rewrite (Hat _ H). reflexivity.
  - rewrite search_next by (apply Hat; exact H). apply IH. apply H.
Qed.

(** A word of letters followed by a closing parenthesis starts with the
    word [u] and continues with a closing parenthesis only when it is
    [u]. *)
Lemma word_before_paren (u unit : string) :
  all_chars time.is_letter u = true ->
  all_chars time.is_letter unit = true ->
  strings.prefix u (unit ++ ")") = true ->
  strings.prefix ")" (strings.drop (String.length u) (unit ++ ")")) = true ->
  unit = u.
Proof.
  revert unit. induction u as [|a u IH]; intros unit Hu Hunit Hp Hd.
  - destruct unit as [|c unit]; [reflexivity|].
    cbn [all_chars] in Hunit. apply andb_prop in Hunit. destruct Hunit as [Hc _].
    cbn [strings.prefix strings.drop String.length append] in Hd.
    rewrite andb_true_r in Hd.
    apply Ascii.eqb_eq in Hd. subst c. discriminate Hc.
  - cbn [all_chars] in Hu. apply andb_prop in Hu. destruct Hu as [Ha Hu].
    destruct unit as [|c unit].
    + cbn [strings.prefix append] in Hp. apply andb_prop in Hp. destruct Hp as [Hp _].
      apply Ascii.eqb_eq in Hp. subst a. discriminate Ha.
    + cbn [all_chars] in Hunit. apply andb_prop in Hunit. destruct Hunit as [_ Hunit].
      cbn [append strings.prefix String.length strings.drop] in Hp, Hd.
      apply andb_prop in Hp. destruct Hp as [Hac Hp].
      apply Ascii.eqb_eq in Hac. subst c.
      rewrite (IH unit Hu Hunit Hp Hd). reflexivity.
Qed.

(** The alternative of a unit word fails on another word of letters
    before the closing parenthesis. *)
Lemma unit_alternative_fails {A : Type} (a : ascii) (l unit : string)
      (c : regexp.captures) (g : string -> regexp.captures -> regexp.captures)
      (k : string -> regexp.captures -> option A) :
  all_chars time.is_letter (String a l) = true ->
  all_chars time.is_letter unit = true ->
  unit <> String a l ->
  regexp.exec (word a l) (unit ++ ")") c
    (fun s' c' => regexp.exec (regexp.RSet (regexp.CLit ")")) s' (g s' c') k)
  = None.
Proof.
  intros Hu Hunit Hne. rewrite exec_word.
  destruct (strings.prefix (String a l) (unit ++ ")")) eqn:Hp; [|reflexivity].
  destruct (strings.drop (String.length (String a l)) (unit ++ ")")) as [|x rest] eqn:Hd;
    [reflexivity|].
  rewrite exec_set. cbn [regexp.mem].
  destruct (Ascii.eqb ")" x) eqn:Hx; [|reflexivity].
  exfalso. apply Hne. apply (word_before_paren _ _ Hu Hunit Hp).
  rewrite Hd. cbn [strings.prefix]. rewrite Hx. reflexivity.
Qed.

Lemma word_needs_letter {A : Type} (a : ascii) (l : string) (x : ascii) (t : string)
      (c : regexp.captures) (k : string -> regexp.captures -> option A) :
  time.is_letter a = true -> time.is_letter x = false ->
  regexp.exec (word a l) (String x t) c k = None.
Proof.
  intros Ha Hx. rewrite exec_word. cbn [strings.prefix].
  rewrite (letter_neq a x Ha Hx). reflexivity.
Qed.

Section Units.

Context {A : Type}.
Variable k : string -> regexp.captures -> option A.
Variable c : regexp.captures.

(** No unit word starts with a character that is not a letter. *)
Lemma unit_needs_letter (x : ascii) (t : string) :
  time.is_letter x = false ->
  regexp.exec unit_then_paren (String x t) c k = None.
Proof.
  intros Hx. unfold unit_then_paren. cbn [fold_right].
  rewrite exec_seq, exec_group.
  repeat (rewrite exec_alt, word_needs_letter by first [reflexivity|exact Hx]).
  apply word_needs_letter; [reflexivity|exact Hx].
Qed.

(** No unit word matches a word of letters that is none of them. *)
Lemma unit_unrecognized (unit : string) :
  all_chars time.is_letter unit = true ->
  existsb (String.eqb unit) uptime_units = false ->
  regexp.exec unit_then_paren (unit ++ ")") c k = None.
Proof.
  intros Hunit Hno. unfold unit_then_paren. cbn [fold_right].
  rewrite exec_seq, exec_group.
  assert (Hne : forall u, In u uptime_units -> unit <> u).
  { intros u Hu ->. rewrite <- not_true_iff_false in Hno. apply Hno.
    apply existsb_exists. exists u. split; [exact Hu|apply String.eqb_refl]. }
  repeat (rewrite exec_alt, unit_alternative_fails
           by first [reflexivity | exact Hunit | apply Hne; cbn; tauto]).
  apply unit_alternative_fails;
    first [reflexivity | exact Hunit | apply Hne; cbn; tauto].
Qed.

Lemma spaces_then_unit_needs_letter (x : ascii) (t : string) :
  regexp.mem digits_point x = true ->
  regexp.exec (spaces_then unit_then_paren) (String x t) c k = None.
Proof.
  intros Hx. unfold spaces_then. rewrite exec_seq, exec_rep.
  rewrite rep_stop by (apply digit_point_not_space, Hx).
  apply unit_needs_letter.
  destruct x as [[] [] [] [] [] [] [] []]; first [reflexivity|discriminate Hx].
Qed.

Lemma spaces_then_unit_unrecognized (unit : string) :
  all_chars time.is_letter unit = true ->
  existsb (String.eqb unit) uptime_units = false ->
  regexp.exec (spaces_then unit_then_paren) (" " ++ unit ++ ")") c k = None.
Proof.
  intros Hunit Hno. unfold spaces_then. rewrite exec_seq, exec_rep.
  cbn [append]. rewrite rep_step by reflexivity.
  rewrite (unit_needs_letter " " _ eq_refl).
  assert (H : regexp.rep regexp.CSpace 0 None (unit ++ ")")
                (fun s' => regexp.exec unit_then_paren s' c k) = None);
    [|rewrite H; reflexivity].
  destruct unit as [|x unit].
  - cbn [append]. rewrite rep_stop by reflexivity.
    apply (unit_needs_letter ")" "" eq_refl).
  - cbn [all_chars] in Hunit. pose proof Hunit as Hx.
    apply andb_prop in Hx. destruct Hx as [Hx _].
    cbn [append]. rewrite rep_stop by (apply letter_not_space, Hx).
    apply (unit_unrecognized (String x unit) Hunit Hno).
Qed.

End Units.

(** The uptime pattern finds nothing in a page whose only parenthesized
    phrase has a unit word that is not one of the eight. *)
Lemma uptime_unrecognized_unit (pre mag unit : string) :
  no_open_paren pre = true ->
  cell_of digits_point mag = true ->
  all_chars time.is_letter unit = true ->
  existsb (String.eqb unit) uptime_units = false ->
  regexp.FindStringSubmatch (regexp.MustCompile uptime_pattern)
    ("Started:" ++ pre ++ "(" ++ mag ++ " " ++ unit ++ ")") = [].
Proof.
  intros Hpre Hmag Hunit Hno. apply uptime_not_found.
  apply (fails_everywhere_app uptime_rest _ "Started:" _
           uptime_rest_needs_paren eq_refl).
  apply (fails_everywhere_app uptime_rest _ pre _ uptime_rest_needs_paren Hpre).
  cbn [append fails_everywhere]. split.
  - unfold uptime_rest. rewrite uptime_phrase_shape, exec_lit_then.
    cbn [strings.prefix strings.drop String.length Ascii.eqb Bool.eqb andb].
    rewrite exec_seq, exec_group, exec_rep.
    apply rep_fails_run.
    + apply cell_of_chars, Hmag.
    + intros x t Hx. apply spaces_then_unit_needs_letter, Hx.
    + rewrite rep_stop by reflexivity.
      apply (spaces_then_unit_unrecognized _ _ unit Hunit Hno).
  - apply (fails_everywhere_chars uptime_rest (fun c => negb (Ascii.eqb "(" c))
             _ uptime_rest_needs_paren eq_refl).
    change (String " " (unit ++ ")")) with (" " ++ unit ++ ")").
    rewrite !all_chars_app.
    rewrite (all_chars_impl _ _ mag digit_point_not_paren (cell_of_chars _ _ Hmag)).
    rewrite (all_chars_impl _ _ unit letter_not_paren Hunit). reflexivity.
Qed.

(** The uptime pattern finds the phrase of a unit word and captures the
    magnitude and the word. *)
Lemma uptime_recognized_unit (pre mag unit : string) :
  no_newline pre = true ->
  cell_of digits_point mag = true ->
  In unit uptime_units ->
  exists whole,
    regexp.FindStringSubmatch (regexp.MustCompile uptime_pattern)
      (uptime_page pre mag unit)
    = [whole; mag; unit].
Proof.
  intros Hpre Hmag Hunit.
  assert (Hphrase :
            regexp.rep regexp.CAny 0 None ("(" ++ mag ++ " " ++ unit ++ ")")
              (fun s' => regexp.exec uptime_phrase s' []
                           (fun s'' caps => Some (s'', caps)))
            = Some ("", [(2%nat, unit); (1%nat, mag)])).
  { cbn [append]. rewrite rep_step by reflexivity.
    assert (Hrest : regexp.exec uptime_phrase (String "(" (mag ++ " " ++ unit ++ ")")) []
                      (fun s'' caps => Some (s'', caps))
                    = Some ("", [(2%nat, unit); (1%nat, mag)])).
    { rewrite uptime_phrase_shape, exec_lit_then.
      cbn [strings.prefix strings.drop String.length Ascii.eqb Bool.eqb andb].
      rewrite exec_seq, exec_group, exec_rep.
      apply rep_all; [apply cell_of_chars, Hmag|eapply cell_of_length, Hmag|].
      cbn [append]. rewrite rep_stop by reflexivity.
      change (String " " (unit ++ ")")) with (" " ++ unit ++ ")").
      rewrite take_app_length.
      destruct Hunit as [<-|[<-|[<-|[<-|[<-|[<-|[<-|[<-|[]]]]]]]]];
        vm_compute; reflexivity. }
    (* the greedy [.*] first runs to the end of the phrase, where nothing
       matches, and comes back to the parenthesis *)
    assert (Hend : regexp.rep regexp.CAny 0 None (mag ++ " " ++ unit ++ ")")
                     (fun s' => regexp.exec uptime_phrase s' []
                                  (fun s'' caps => Some (s'', caps))) = None).
    { apply rep_fails.
      apply (fails_everywhere_chars uptime_rest (fun c => negb (Ascii.eqb "(" c))
               _ uptime_rest_needs_paren eq_refl).
      rewrite !all_chars_app.
      rewrite (all_chars_impl _ _ mag digit_point_not_paren (cell_of_chars _ _ Hmag)).
      destruct Hunit as [<-|[<-|[<-|[<-|[<-|[<-|[<-|[<-|[]]]]]]]]]; reflexivity. }
    cbn [append] in Hend, Hrest. rewrite Hend. exact Hrest. }
  apply (uptime_found pre _ mag unit Hpre Hphrase).
Qed.

(** A word that is none of the unit words has no multiplier. *)
Lemma unit_seconds_unrecognized (unit : string) :
  existsb (String.eqb unit) uptime_units = false -> unit_seconds unit = None.
Proof.
  unfold unit_seconds, uptime_units. cbn [existsb].
  repeat (destruct (String.eqb unit _); [discriminate|]). reflexivity.
Qed.

(** The extractor on the page of a phrase: the magnitude times the
    seconds of the unit word, 0 for a word that is not a unit. *)
Lemma uptime_of_page (env : Env) (pre mag unit : string) :
  no_newline pre = true -> no_open_paren pre = true ->
  cell_of digits_point mag = true ->
  all_chars time.is_letter unit = true ->
  parseUptimeSeconds env (uptime_page pre mag unit) = uptime_of env mag unit.
Proof.
  intros Hline Hparen Hmag Hunit.
  destruct (existsb (String.eqb unit) uptime_units) eqn:E.
  - apply existsb_exists in E. destruct E as [u [Hu E]].
    apply String.eqb_eq in E. subst u.
    destruct (uptime_recognized_unit pre mag unit Hline Hmag Hu) as [whole Hm].
    unfold parseUptimeSeconds. fold uptime_pattern. rewrite Hm.
    cbn [List.length Nat.eqb negb at_ nth].
    destruct Hu as [<-|[<-|[<-|[<-|[<-|[<-|[<-|[<-|[]]]]]]]]]; reflexivity.
  - unfold parseUptimeSeconds. fold uptime_pattern.
    unfold uptime_page.
    rewrite (uptime_unrecognized_unit pre mag unit Hparen Hmag Hunit E).
    unfold uptime_of. rewrite (unit_seconds_unrecognized unit E). reflexivity.
Qed.

(** C5: the uptime extractor reads a magnitude and a unit word in
    parentheses after the Started label, whatever text without a line
    feed or an opening parenthesis stands in between, and converts to
    seconds with the multipliers 60, 3600 and 86400 of [unit_seconds]:
    ["2 hours"] is 7200 seconds and ["1.5 minutes"] is 90 seconds.  A
    word of letters that is not a unit word, such as ["fortnights"],
    matches nothing: the extractor returns 0, which sends no field, and
    nothing fails. *)
Theorem uptime_unit_conversion (env : Env) (pre : string) :
  no_newline pre = true -> no_open_paren pre = true ->
  (forall mag unit,
      cell_of digits_point mag = true -> all_chars time.is_letter unit = true ->
      parseUptimeSeconds env (uptime_page pre mag unit) = uptime_of env mag unit
      /\ (unit_seconds unit = None ->
          positive_gauge uptime_seconds
            (parseUptimeSeconds env (uptime_page pre mag unit)) = []))
  /\ parseUptimeSeconds env ("Started:" ++ pre ++ "(2 hours)") = 7200
  /\ parseUptimeSeconds env ("Started:" ++ pre ++ "(1.5 minutes)") = 90
  /\ parseUptimeSeconds env ("Started:" ++ pre ++ "(3 fortnights)") = 0
  /\ positive_gauge uptime_seconds
       (parseUptimeSeconds env ("Started:" ++ pre ++ "(3 fortnights)")) = [].
Proof.
  intros Hline Hparen.
  assert (Hpage : forall mag unit, "Started:" ++ pre ++ "(" ++ mag ++ " " ++ unit ++ ")"
                                   = uptime_page pre mag unit) by reflexivity.
  split; [|repeat split].
  - intros mag unit Hmag Hunit.
    rewrite (uptime_of_page env pre mag unit Hline Hparen Hmag Hunit).
    split; [reflexivity|].
    intros Hno. unfold uptime_of. rewrite Hno. reflexivity.
  - change "(2 hours)" with ("(" ++ "2" ++ " " ++ "hours" ++ ")"). rewrite Hpage.
    rewrite uptime_of_page by first [assumption|reflexivity]. vm_compute. reflexivity.
  - change "(1.5 minutes)" with ("(" ++ "1.5" ++ " " ++ "minutes" ++ ")"). rewrite Hpage.
    rewrite uptime_of_page by first [assumption|reflexivity]. vm_compute. reflexivity.
  - change "(3 fortnights)" with ("(" ++ "3" ++ " " ++ "fortnights" ++ ")"). rewrite Hpage.
    rewrite uptime_of_page by first [assumption|reflexivity]. reflexivity.
  - change "(3 fortnights)" with ("(" ++ "3" ++ " " ++ "fortnights" ++ ")"). rewrite Hpage.
    rewrite uptime_of_page by first [assumption|reflexivity]. reflexivity.
Qed.

Lemma uptime_unit_conversion_example :
  no_newline " Mon, 02 Jan 2006 15:04:05 GMT " = true
  /\ no_open_paren " Mon, 02 Jan 2006 15:04:05 GMT " = true
  /\ parseUptimeSeconds amd64_utc "Started: Mon, 02 Jan 2006 15:04:05 GMT (2 hours)"
     = 7200
  /\ parseUptimeSeconds amd64_utc "Started: Mon, 02 Jan 2006 15:04:05 GMT (1.5 minutes)"
     = 90
  /\ parseUptimeSeconds amd64_utc "Started: Mon, 02 Jan 2006 15:04:05 GMT (6 days)"
     = 518400
  /\ parseUptimeSeconds amd64_utc "Started: Mon, 02 Jan 2006 15:04:05 GMT (3 fortnights)"
     = 0.
Proof.
  split; [reflexivity|]. split; [reflexivity|].
  pose proof (uptime_unit_conversion amd64_utc " Mon, 02 Jan 2006 15:04:05 GMT "
                eq_refl eq_refl) as [Hany [H2 [H15 [H3 _]]]].
  split; [exact H2|]. split; [exact H15|]. split; [|exact H3].
  destruct (Hany "6" "days" eq_refl eq_refl) as [H6 _].
  exact H6.
Defined.

(** ** The Started timestamp *)

Lemma plain_pattern_shape :
  regexp.MustCompile plain_pattern
  = lit_then "Started:" (spaces_then timestamp_group).
Proof. reflexivity. Qed.

Lemma cell_pattern_shape :
  regexp.MustCompile cell_pattern
  = lit_then "Started:"
      (spaces_then
         (lit_then "</th>"
            (spaces_then
               (lit_then "<td"
                  (regexp.RSeq
                     (regexp.RRep (regexp.CClass true [(">"%char, ">"%char)]) 0 None)
                     (lit_then ">" (spaces_then timestamp_group))))))).
Proof. reflexivity. Qed.

Lemma timestamp_needs_letter (c : ascii) (t : string) :
  regexp.mem letters c = false ->
  timestamp_at (String c t) = None.
Proof.
  intros H. unfold timestamp_at.
  change timestamp_group
    with (regexp.RGroup 1
            (regexp.RSeq
               (regexp.RRep letters 3 (Some 3%nat))
               match timestamp_group with
               | regexp.RGroup _ (regexp.RSeq _ r) => r
               | r => r
               end)).
  cbn [regexp.exec]. cbn [regexp.rep regexp.more andb]. rewrite H. reflexivity.
Qed.

Lemma Contains_after_spaces (ws s : string) :
  all_chars (regexp.mem regexp.CSpace) ws = true ->
  strings.Contains s "Started:" = false ->
  strings.Contains (ws ++ s) "Started:" = false.
Proof.
  intros Hws Hs. induction ws as [|c ws IH]; [exact Hs|].
  cbn [all_chars] in Hws. apply andb_prop in Hws. destruct Hws as [Hc Hws].
  cbn [append strings.Contains strings.prefix].
  rewrite (space_not_S c Hc), (IH Hws). reflexivity.
Qed.

Ltac literal :=
  rewrite exec_lit_then;
  cbn [strings.prefix strings.drop String.length append Ascii.eqb Bool.eqb andb].

Section Started.

Variables ws0 ws1 ws2 attrs ws3 text : string.
Hypothesis spaces0 : all_chars (regexp.mem regexp.CSpace) ws0 = true.
Hypothesis spaces1 : all_chars (regexp.mem regexp.CSpace) ws1 = true.
Hypothesis spaces2 : all_chars (regexp.mem regexp.CSpace) ws2 = true.
Hypothesis spaces3 : all_chars (regexp.mem regexp.CSpace) ws3 = true.
Hypothesis attributes : all_chars (regexp.mem not_gt) attrs = true.
Hypothesis letter_first : starts_with_letter text = true.

Lemma spaces_before_lt {A : Type} (ws l t : string) (r : regexp.re)
      (k : string -> regexp.captures -> option A) :
  all_chars (regexp.mem regexp.CSpace) ws = true ->
  regexp.rep regexp.CSpace 0 None (ws ++ String "<" t)
    (fun s' => regexp.exec (lit_then (String "<" l) r) s' [] k)
  = regexp.exec (lit_then (String "<" l) r) (String "<" t) [] k.
Proof.
  intros Hws. rewrite rep_run; [apply rep_stop; reflexivity|exact Hws|].
  intros c t' Hc. rewrite exec_lit_then. cbn [strings.prefix].
  rewrite (space_not_lt c Hc). reflexivity.
Qed.

Lemma spaces_before_timestamp (ws : string) :
  all_chars (regexp.mem regexp.CSpace) ws = true ->
  regexp.rep regexp.CSpace 0 None (ws ++ text) timestamp_at = timestamp_at text.
Proof.
  intros Hws. rewrite rep_run; [|exact Hws|].
  - destruct text as [|c t]; [discriminate letter_first|].
    apply rep_stop, letter_not_space, letter_first.
  - intros c t Hc. apply timestamp_needs_letter, space_not_letter, Hc.
Qed.

Lemma cell_at_tight :
  regexp.match_at (regexp.MustCompile cell_pattern)
    (tight_layout ws1 ws2 attrs ws3 text) = timestamp_at text.
Proof.
  unfold regexp.match_at, tight_layout. rewrite cell_pattern_shape. unfold spaces_then.
  literal. rewrite exec_seq, exec_rep, spaces_before_lt by exact spaces1.
  literal. rewrite exec_seq, exec_rep, spaces_before_lt by exact spaces2.
  literal. rewrite exec_seq, exec_rep.
  rewrite rep_run; [|exact attributes|].
  2:{ intros c t Hc. rewrite exec_lit_then. cbn [strings.prefix].
      rewrite (not_gt_not_gt c Hc). reflexivity. }
  rewrite rep_stop by reflexivity. literal.
  rewrite exec_seq, exec_rep. apply (spaces_before_timestamp ws3 spaces3).
Qed.

Lemma plain_at_tight :
  regexp.match_at (regexp.MustCompile plain_pattern)
    (tight_layout ws1 ws2 attrs ws3 text) = None.
Proof.
  unfold regexp.match_at, tight_layout. rewrite plain_pattern_shape. unfold spaces_then.
  literal. rewrite exec_seq, exec_rep.
  rewrite rep_run; [|exact spaces1|].
  2:{ intros c t Hc. apply timestamp_needs_letter, space_not_letter, Hc. }
  rewrite rep_stop by reflexivity.
  apply timestamp_needs_letter. reflexivity.
Qed.

Lemma cell_at_loose :
  regexp.match_at (regexp.MustCompile cell_pattern) (loose_layout ws0 text) = None.
Proof.
  unfold regexp.match_at, loose_layout. rewrite cell_pattern_shape. unfold spaces_then.
  literal. rewrite exec_seq, exec_rep.
  rewrite rep_run; [|exact spaces0|].
  2:{ intros c t Hc. rewrite exec_lit_then. cbn [strings.prefix].
      rewrite (space_not_lt c Hc). reflexivity. }
  destruct text as [|c t]; [discriminate letter_first|].
  rewrite rep_stop by (apply letter_not_space, letter_first).
  rewrite exec_lit_then. cbn [strings.prefix].
  rewrite (letter_not_lt c letter_first). reflexivity.
Qed.

Lemma plain_at_loose :
  regexp.match_at (regexp.MustCompile plain_pattern) (loose_layout ws0 text) = timestamp_at text.
Proof.
  unfold regexp.match_at, loose_layout. rewrite plain_pattern_shape. unfold spaces_then.
  literal. rewrite exec_seq, exec_rep. apply (spaces_before_timestamp ws0 spaces0).
Qed.

End Started.

(** C6: the Started extractor returns the same Unix time for the
    table-cell layout and for the plain-text layout of the same text
    (the timestamp and what follows it), whatever the whitespace around
    the tags and the attributes of the cell, when the label occurs once
    in the page.  The table-cell pattern is tried first; the plain-text
    pattern is only consulted when the first yields nothing. *)
Theorem started_layout_tolerance (env : Env) (ws0 ws1 ws2 attrs ws3 text : string) :
  all_spaces ws0 = true -> all_spaces ws1 = true ->
  all_spaces ws2 = true -> all_spaces ws3 = true ->
  all_chars (fun c => negb (Ascii.eqb c ">")) attrs = true ->
  starts_with_letter text = true ->
  strings.Contains (strings.drop 1 (tight_layout ws1 ws2 attrs ws3 text)) "Started:" = false ->
  parseStartedUnix env (tight_layout ws1 ws2 attrs ws3 text)
  = parseStartedUnix env (loose_layout ws0 text).
Proof.
  intros H0 H1 H2 H3 Ha Ht Hl.
  assert (Ha' : all_chars (regexp.mem not_gt) attrs = true).
  { clear -Ha. induction attrs as [|c a IH]; [reflexivity|].
    cbn [all_chars] in *. apply andb_prop in Ha. destruct Ha as [Hc Ha].
    rewrite (IH Ha), andb_true_r. cbn [regexp.mem not_gt existsb fst snd].
    rewrite orb_false_r.
    destruct c as [[] [] [] [] [] [] [] []]; first [reflexivity|discriminate Hc]. }
  assert (Hl0 : strings.Contains (strings.drop 1 (loose_layout ws0 text)) "Started:" = false).
  { unfold loose_layout. cbn [append strings.drop strings.Contains strings.prefix Ascii.eqb Bool.eqb andb orb].
    apply Contains_after_spaces; [exact H0|].
    unfold tight_layout in Hl. cbn [append strings.drop] in Hl.
    apply (Contains_app_r "tarted:") in Hl. apply Contains_app_r in Hl.
    apply (Contains_app_r "</th>") in Hl. apply Contains_app_r in Hl.
    apply (Contains_app_r "<td") in Hl. apply Contains_app_r in Hl.
    apply (Contains_app_r ">") in Hl. apply Contains_app_r in Hl. exact Hl. }
  pose proof (cell_at_tight ws1 ws2 attrs ws3 text H1 H2 H3 Ha' Ht) as Hct.
  pose proof (plain_at_tight ws1 ws2 attrs ws3 text H1) as Hpt.
  pose proof (cell_at_loose ws0 text H0 Ht) as Hcl.
  pose proof (plain_at_loose ws0 text H0 Ht) as Hpl.
  unfold parseStartedUnix. fold cell_pattern plain_pattern.
  rewrite cell_pattern_shape, plain_pattern_shape in *.
  change (tight_layout ws1 ws2 attrs ws3 text)
    with (String "S" (strings.drop 1 (tight_layout ws1 ws2 attrs ws3 text))) in *.
  change (loose_layout ws0 text)
    with (String "S" (strings.drop 1 (loose_layout ws0 text))) in *.
  rewrite !find_at_head by first [discriminate | reflexivity | assumption].
  rewrite Hct, Hpt, Hcl, Hpl.
  destruct (timestamp_at text) as [[rest caps]|]; reflexivity.
Qed.

Lemma started_layout_tolerance_example :
  all_spaces " " = true /\ all_spaces "" = true
  /\ all_chars (fun c => negb (Ascii.eqb c ">")) " class=x" = true
  /\ starts_with_letter "Mon, 02 Jan 2006 15:04:05 GMT (3 days)" = true
  /\ strings.Contains
       (strings.drop 1
          (tight_layout "" " " " class=x" ""
             "Mon, 02 Jan 2006 15:04:05 GMT (3 days)")) "Started:" = false
  /\ parseStartedUnix amd64_utc
       "Started:</th> <td class=x>Mon, 02 Jan 2006 15:04:05 GMT (3 days)"
     = parseStartedUnix amd64_utc "Started: Mon, 02 Jan 2006 15:04:05 GMT (3 days)"
  /\ parseStartedUnix amd64_utc "Started: Mon, 02 Jan 2006 15:04:05 GMT (3 days)"
     = 1136214245.
Proof.
  do 5 (split; [reflexivity|]).
  split; [|vm_compute; reflexivity].
  apply (started_layout_tolerance amd64_utc " " "" " " " class=x" ""
           "Mon, 02 Jan 2006 15:04:05 GMT (3 days)"); reflexivity.
Defined.

(** The table-cell variant is tried first: when both layouts occur in
    a page, the time of the table cell is returned, also when the plain
    text comes earlier. *)
Lemma started_cell_first (env : Env) :
  parseStartedUnix env
    "Started: Mon, 02 Jan 2006 15:04:05 GMT Started:</th><td>Tue, 03 Jan 2006 15:04:05 GMT"
  = 1136300645
  /\ parseStartedUnix env "Started:</th><td>Tue, 03 Jan 2006 15:04:05 GMT" = 1136300645
  /\ parseStartedUnix env "Started: Mon, 02 Jan 2006 15:04:05 GMT" = 1136214245.
Proof. repeat split; vm_compute; reflexivity. Qed.

(** ** The windows *)

Lemma select_is_interval_row (html win : string) :
  select is_interval (interval_row html win) = interval_row html win.
Proof.
  unfold interval_row. destruct (List.length _ =? 5)%nat; [|reflexivity].
  rewrite !select_app, !select_when. reflexivity.
Qed.

(** What one iteration of the loop over the windows sends. *)
Lemma interval_row_found (html win whole reqs rate bytes mbps : string) :
  regexp.FindStringSubmatch (interval_re win) html = [whole; reqs; rate; bytes; mbps] ->
  (0 <=? toInt reqs) = true -> f64.geb (toFloat rate) (f64.of_int 0) = true ->
  (0 <=? toInt bytes) = true -> f64.geb (toFloat mbps) (f64.of_int 0) = true ->
  interval_row html win = window_metrics win reqs rate bytes mbps.
Proof.
  intros Hm H1 H2 H3 H4. unfold interval_row. rewrite Hm.
  cbn [List.length Nat.eqb at_ nth]. rewrite H1, H2, H3, H4. reflexivity.
Qed.

Lemma interval_row_not_found (html win : string) :
  regexp.FindStringSubmatch (interval_re win) html = [] ->
  interval_row html win = [].
Proof. intros Hm. unfold interval_row. rewrite Hm. reflexivity. Qed.

Lemma is_interval_eqb : forall d, is_interval d = true -> is_interval d = false -> False.
Proof. intros d H1 H2. congruence. Qed.

(** One step of the matcher on a text whose head is known or is a cell
    of digits. *)
Ltac exec_step :=
  lazymatch goal with
  | |- regexp.exec (regexp.RSeq _ _) _ _ _ = _ => rewrite exec_seq
  | |- regexp.exec (regexp.RSet _) (String _ _) _ _ = _ =>
      rewrite exec_set;
      lazymatch goal with
      | |- (if ?b then _ else _) = _ =>
          let v := eval vm_compute in b in
          change b with v; cbv iota beta
      end
  | |- regexp.exec (regexp.RRep _ _ _) _ _ _ = _ => rewrite exec_rep
  | |- regexp.exec (regexp.RGroup _ _) _ _ _ = _ => rewrite exec_group
  | |- regexp.rep ?cs 0 None (String ?a ?s) ?k = _ =>
      let v := eval vm_compute in (regexp.mem cs a) in
      lazymatch v with
      | false => rewrite (rep_stop cs None a s k eq_refl); cbv beta
      | true => rewrite (rep_step cs a s k eq_refl); apply some_first
      end
  | |- regexp.rep regexp.CSpace 0 None (_ ++ _) _ = _ =>
      first [ rewrite (spaces_before_cell digits_comma) by
                first [exact digit_comma_not_space | assumption]
            | rewrite (spaces_before_cell digits_point) by
                first [exact digit_point_not_space | assumption] ];
      cbv beta
  | |- regexp.rep _ 1 None (_ ++ _) _ = Some _ =>
      apply rep_all;
      [ apply cell_of_chars; assumption
      | eapply cell_of_length; eassumption
      | ]
  end.

(** The pattern of a window matches the row of that window and captures
    its four cells. *)
Lemma row_matches (win reqs rate bytes mbps : string) :
  In win intervals ->
  cell_of digits_comma reqs = true -> cell_of digits_point rate = true ->
  cell_of digits_comma bytes = true -> cell_of digits_point mbps = true ->
  exists whole,
    regexp.FindStringSubmatch (interval_re win) (row win reqs rate bytes mbps)
    = [whole; reqs; rate; bytes; mbps].
Proof.
  intros Hwin H1 H2 H3 H4. unfold regexp.FindStringSubmatch.
  assert (Hm : exists caps,
             regexp.match_at (interval_re win) (row win reqs rate bytes mbps)
             = Some ("</td></tr>", caps)
             /\ map (fun i => regexp.lookup i caps) (seq 1 (regexp.groups (interval_re win)))
                = [reqs; rate; bytes; mbps]).
  { destruct Hwin as [<-|[<-|[<-|[]]]].
    - eexists. split.
      + unfold regexp.match_at, row.
        let r := eval vm_compute in (interval_re "3 seconds") in
        change (interval_re "3 seconds") with r.
        cbn [append]. repeat exec_step. reflexivity.
      + change (regexp.groups (interval_re "3 seconds")) with 4%nat.
        cbn [seq map regexp.lookup Nat.eqb]. rewrite !take_app_length. reflexivity.
    - eexists. split.
      + unfold regexp.match_at, row.
        let r := eval vm_compute in (interval_re "15 seconds") in
        change (interval_re "15 seconds") with r.
        cbn [append]. repeat exec_step. reflexivity.
      + change (regexp.groups (interval_re "15 seconds")) with 4%nat.
        cbn [seq map regexp.lookup Nat.eqb]. rewrite !take_app_length. reflexivity.
    - eexists. split.
      + unfold regexp.match_at, row.
        let r := eval vm_compute in (interval_re "60 seconds") in
        change (interval_re "60 seconds") with r.
        cbn [append]. repeat exec_step. reflexivity.
      + change (regexp.groups (interval_re "60 seconds")) with 4%nat.
        cbn [seq map regexp.lookup Nat.eqb]. rewrite !take_app_length. reflexivity. }
  destruct Hm as [caps [Hm Hcaps]].
  rewrite (search_here _ _ _ _ Hm), Hcaps. eexists. reflexivity.
Qed.

(** A cell of digits has no part of an opening tag. *)
Lemma Contains_after_cell (cs : regexp.cset) (cell rest : string) :
  (forall c, regexp.mem cs c = true -> Ascii.eqb "<" c = false) ->
  all_chars (regexp.mem cs) cell = true ->
  strings.Contains (cell ++ rest) "<tr>" = strings.Contains rest "<tr>".
Proof.
  intros Hcs Hcell. induction cell as [|c cell IH]; [reflexivity|].
  cbn [all_chars] in Hcell. apply andb_prop in Hcell. destruct Hcell as [Hc Hcell].
  cbn [append strings.Contains strings.prefix]. rewrite (Hcs c Hc), (IH Hcell).
  reflexivity.
Qed.

(** The opening tag of a row occurs once in a row. *)
Lemma row_opens_once (win reqs rate bytes mbps : string) :
  In win intervals ->
  cell_of digits_comma reqs = true -> cell_of digits_point rate = true ->
  cell_of digits_comma bytes = true -> cell_of digits_point mbps = true ->
  strings.Contains (strings.drop 1 (row win reqs rate bytes mbps)) "<tr>" = false.
Proof.
  intros Hwin H1 H2 H3 H4.
  apply cell_of_chars in H1, H2, H3, H4.
  assert (Hcells : strings.Contains
                     (reqs ++ "</td><td>" ++ rate ++ " /s</td><td>" ++ bytes
                      ++ "</td><td>" ++ mbps ++ " mbps</td></tr>") "<tr>" = false).
  { rewrite (Contains_after_cell digits_comma) by first [exact digit_comma_not_lt|assumption].
    cbn [append strings.Contains strings.prefix Ascii.eqb Bool.eqb andb orb].
    rewrite (Contains_after_cell digits_point) by first [exact digit_point_not_lt|assumption].
    cbn [append strings.Contains strings.prefix Ascii.eqb Bool.eqb andb orb].
    rewrite (Contains_after_cell digits_comma) by first [exact digit_comma_not_lt|assumption].
    cbn [append strings.Contains strings.prefix Ascii.eqb Bool.eqb andb orb].
    rewrite (Contains_after_cell digits_point) by first [exact digit_point_not_lt|assumption].
    reflexivity. }
  unfold row.
  destruct Hwin as [<-|[<-|[<-|[]]]];
    cbn [append strings.drop strings.Contains strings.prefix Ascii.eqb Bool.eqb andb orb];
    exact Hcells.
Qed.

(** The pattern of a window does not match the row of another window. *)
Lemma row_of_other_window (win other reqs rate bytes mbps : string) :
  In win intervals -> In other intervals -> other <> win ->
  cell_of digits_comma reqs = true -> cell_of digits_point rate = true ->
  cell_of digits_comma bytes = true -> cell_of digits_point mbps = true ->
  regexp.FindStringSubmatch (interval_re other) (row win reqs rate bytes mbps) = [].
Proof.
  intros Hwin Hother Hne H1 H2 H3 H4.
  pose proof (row_opens_once win reqs rate bytes mbps Hwin H1 H2 H3 H4) as Honce.
  assert (Hshape : interval_re other = lit_then "<tr>" (after_lit 4 (interval_re other))).
  { destruct Hother as [<-|[<-|[<-|[]]]]; reflexivity. }
  assert (Hm : regexp.match_at (interval_re other) (row win reqs rate bytes mbps) = None).
  { unfold regexp.match_at, row.
    destruct Hwin as [<-|[<-|[<-|[]]]]; destruct Hother as [<-|[<-|[<-|[]]]];
      try congruence;
      match goal with
      | |- regexp.exec (interval_re ?w) _ _ _ = _ =>
          let r := eval vm_compute in (interval_re w) in
          change (interval_re w) with r
      end;
      cbn [append]; repeat exec_step; reflexivity. }
  unfold regexp.FindStringSubmatch.
  assert (Hrow : row win reqs rate bytes mbps
                 = String "<" (strings.drop 1 (row win reqs rate bytes mbps))).
  { reflexivity. }
  rewrite Hrow in Hm |- *.
  rewrite (search_next _ _ _ Hm), Hshape.
  rewrite (search_without_literal "<tr>" _ _ ltac:(discriminate) Honce).
  reflexivity.
Qed.

(** On a page that is the row of one window, the per-window metrics are
    those of that row. *)
Lemma row_alone (win reqs rate bytes mbps : string) :
  In win intervals ->
  cell_of digits_comma reqs = true -> cell_of digits_point rate = true ->
  cell_of digits_comma bytes = true -> cell_of digits_point mbps = true ->
  (0 <=? toInt reqs) = true -> f64.geb (toFloat rate) (f64.of_int 0) = true ->
  (0 <=? toInt bytes) = true -> f64.geb (toFloat mbps) (f64.of_int 0) = true ->
  flat_map (interval_row (row win reqs rate bytes mbps)) intervals
  = window_metrics win reqs rate bytes mbps.
Proof.
  intros Hwin H1 H2 H3 H4 C1 C2 C3 C4.
  destruct (row_matches win reqs rate bytes mbps Hwin H1 H2 H3 H4) as [whole Hm].
  pose proof (fun other Ho Hne =>
                row_of_other_window win other reqs rate bytes mbps Hwin Ho Hne H1 H2 H3 H4)
    as Hothers.
  cbn [flat_map intervals]. rewrite app_nil_r.
  destruct Hwin as [<-|[<-|[<-|[]]]];
    rewrite (interval_row_found _ _ _ _ _ _ _ Hm C1 C2 C3 C4);
    rewrite !interval_row_not_found
      by (apply Hothers; [cbn; tauto|discriminate]);
    rewrite ?app_nil_r; reflexivity.
Qed.



(** ** The metrics that [Collect] sends *)

(** *** Every metric of a poll *)

Lemma forallb_when (p : Metric -> bool) (c : bool) (ms : list Metric) :
  forallb p (when c ms) = negb c || forallb p ms.
Proof. destruct c; reflexivity. Qed.

Lemma forallb_interval_row (p : Metric -> bool) (html win : string) :
  (forall d v, is_interval d = true ->
               p (MustNewConstMetric d GaugeValue v [win]) = true) ->
  forallb p (interval_row html win) = true.
Proof.
  intros Hp. unfold interval_row.
  destruct (List.length _ =? 5)%nat; [|reflexivity].
  rewrite !forallb_app, !forallb_when. cbn [forallb].
  rewrite !Hp by reflexivity. rewrite !orb_true_r. reflexivity.
Qed.

(** A property of metrics that does not look at the value holds of
    every metric of a poll when it holds of each send of [Collect]. *)
Ltac each_send :=
  unfold collect_page; name_extracted;
  unfold counter, gauge, positive_gauge;
  repeat match goal with
    | |- context [if strings.Contains ?h ?m then _ else _] =>
        destruct (strings.Contains h m)
    end;
  rewrite ?forallb_app, ?forallb_when;
  cbn [flat_map intervals]; rewrite ?forallb_app;
  rewrite ?forallb_interval_row by (intros [] ? ?; first [discriminate|reflexivity]);
  cbn [forallb]; rewrite ?orb_true_r; reflexivity.

Lemma forallb_Collect (p : Metric -> bool) (env : Env) (fetch : Fetch) :
  (forall v, p (MustNewConstMetric up GaugeValue v []) = true) ->
  (forall body, forallb p (collect_page env body) = true) ->
  forallb p (Collect env fetch) = true.
Proof.
  intros Hup Hpage.
  assert (Hdown : forallb p [MustNewConstMetric up GaugeValue (f64.of_int 0) []] = true).
  { cbn [forallb]. rewrite Hup. reflexivity. }
  destruct fetch as [| |code body]; cbn [Collect]; try exact Hdown.
  destruct (negb (code =? 200)); [exact Hdown|].
  destruct body as [body|]; [apply Hpage|exact Hdown].
Qed.

(** X1: whatever the poll finds, every metric that [Collect] sends has as many
    label values as its descriptor was built with label names, which is
    what [prometheus.MustNewConstMetric] requires not to panic. *)
Theorem label_values_match_descriptor (env : Env) (fetch : Fetch) (m : Metric) :
  In m (Collect env fetch) ->
  List.length (labelValues m)
  = List.length (variableLabels (newGwcCollector (desc m))).
Proof.
  intros Hm. apply Nat.eqb_eq. change (labelled m = true).
  revert m Hm. apply forallb_forall. apply forallb_Collect; [reflexivity|].
  intros body. each_send.
Qed.

Lemma label_values_match_descriptor_example :
  List.length (labelValues (MustNewConstMetric interval_requests GaugeValue
                              (f64.of_int 1234) ["15 seconds"]))
  = List.length (variableLabels (newGwcCollector interval_requests)).
Proof.
  apply (label_values_match_descriptor amd64_utc (Response 200 (Some sample_row))).
  apply (nth_error_In _ 1). vm_compute. reflexivity.
Defined.

(** X2: whatever the poll finds, the metrics that [Collect] sends as
    counters are those whose descriptor has a name ending in [_total];
    every other metric is a gauge. *)
Theorem counters_are_totals (env : Env) (fetch : Fetch) (m : Metric) :
  In m (Collect env fetch) ->
  valueType m = CounterValue
  <-> ends_with (fqName (newGwcCollector (desc m))) "_total" = true.
Proof.
  intros Hm.
  assert (H : counter_named_total m = true).
  { revert m Hm. apply forallb_forall. apply forallb_Collect; [reflexivity|].
    intros body. each_send. }
  unfold counter_named_total, is_counter in H. apply eqb_prop in H.
  rewrite <- H. destruct (valueType m); split; congruence.
Qed.

Lemma counters_are_totals_example :
  valueType (MustNewConstMetric memcache_hit_count_total CounterValue (f64.of_int 0) [])
  = CounterValue
  <-> ends_with (fqName (newGwcCollector memcache_hit_count_total)) "_total" = true.
Proof.
  apply (counters_are_totals amd64_utc (Response 200 (Some ""))).
  apply (nth_error_In _ 3). vm_compute. reflexivity.
Defined.

(** X3: every per-window metric that [Collect] sends carries exactly one
    label value, and it is the name of one of the three windows. *)
Theorem interval_metrics_name_their_window (env : Env) (fetch : Fetch) (m : Metric) :
  In m (Collect env fetch) ->
  is_interval (desc m) = true ->
  exists win, In win intervals /\ labelValues m = [win].
Proof.
  intros Hm Hd.
  assert (H : labelled_by_window m = true).
  { revert m Hm Hd. intros m Hm _. revert m Hm.
    apply forallb_forall. apply forallb_Collect; [reflexivity|].
    intros body. each_send. }
  unfold labelled_by_window in H. rewrite Hd in H. cbn [negb orb] in H.
  apply existsb_exists in H. destruct H as [win [Hwin H]].
  exists win. split; [exact Hwin|].
  destruct (labelValues m) as [|l [|? ?]]; try discriminate H.
  apply String.eqb_eq in H. subst l. reflexivity.
Qed.

Lemma interval_metrics_name_their_window_example :
  exists win,
    In win intervals
    /\ labelValues (MustNewConstMetric interval_requests GaugeValue
                      (f64.of_int 1234) ["15 seconds"]) = [win].
Proof.
  apply (interval_metrics_name_their_window amd64_utc (Response 200 (Some sample_row))).
  - apply (nth_error_In _ 1). vm_compute. reflexivity.
  - reflexivity.
Defined.

(** ** Signs of floats *)

Lemma shr_1_nonneg (mrs : shr_record) : 0 <= shr_m mrs -> 0 <= shr_m (shr_1 mrs).
Proof.
  destruct mrs as [m r s]. cbn [shr_m]. intros H.
  destruct m as [|[p|p|]|p]; cbn; lia.
Qed.

Lemma iter_shr_1_nonneg (p : positive) (mrs : shr_record) :
  0 <= shr_m mrs -> 0 <= shr_m (iter_pos shr_1 p mrs).
Proof.
  revert mrs. induction p as [p IH|p IH|]; intros mrs H; cbn [iter_pos].
  - apply IH, IH, shr_1_nonneg, H.
  - apply IH, IH, H.
  - apply shr_1_nonneg, H.
Qed.

Lemma shr_fexp_nonneg (m e : Z) (l : location) :
  0 <= m -> 0 <= shr_m (fst (shr_fexp f64.prec f64.emax m e l)).
Proof.
  intros H. unfold shr_fexp, shr.
  assert (H0 : 0 <= shr_m (shr_record_of_loc m l)).
  { destruct l as [|[]]; exact H. }
  destruct (fexp _ _ _ - e); cbn [fst]; [exact H0|apply iter_shr_1_nonneg, H0|exact H0].
Qed.

Lemma round_nearest_even_nonneg (m : Z) (l : location) :
  0 <= m -> 0 <= round_nearest_even m l.
Proof.
  intros H. destruct l as [|[]]; cbn [round_nearest_even]; try lia.
  destruct (IntDef.Z.even m); lia.
Qed.

(** Rounding a magnitude gives a float of the sign asked for, never a
    NaN. *)
Lemma binary_round_aux_sign (sx : bool) (mx ex : Z) (lx : location) :
  0 <= mx -> signed_as sx (binary_round_aux f64.prec f64.emax sx mx ex lx) = true.
Proof.
  intros H. unfold binary_round_aux.
  pose proof (shr_fexp_nonneg mx ex lx H) as H1.
  destruct (shr_fexp f64.prec f64.emax mx ex lx) as [mrs' e']. cbn [fst] in H1.
  pose proof (shr_fexp_nonneg _ e' loc_Exact
                (round_nearest_even_nonneg _ (loc_of_shr_record mrs') H1)) as H2.
  destruct (shr_fexp f64.prec f64.emax _ e' loc_Exact) as [mrs'' e''].
  cbn [fst] in H2.
  destruct (shr_m mrs'') as [|m|m]; [apply eqb_reflx| |lia].
  destruct (e'' <=? f64.emax - f64.prec); apply eqb_reflx.
Qed.

Lemma binary_round_sign (sx : bool) (mx : positive) (ex : Z) :
  signed_as sx (binary_round f64.prec f64.emax sx mx ex) = true.
Proof.
  unfold binary_round. destruct (shl_align _ _ _) as [mz ez].
  apply binary_round_aux_sign. lia.
Qed.

Lemma not_negative_signed (f : float64) :
  signed_as false f = true -> f64.geb f (f64.of_int 0) = true.
Proof. destruct f as [[]|[]| |[] m e]; try discriminate; reflexivity. Qed.

Lemma signed_not_negative (f : float64) :
  f64.geb f (f64.of_int 0) = true ->
  signed_as false f = true \/ f = S754_zero true.
Proof.
  destruct f as [[]|[]| |[] m e]; try discriminate; intros _;
    first [left; reflexivity | right; reflexivity].
Qed.

(** [float64(i)] is not negative when [i] is not. *)
Lemma of_int_not_negative (i : Z) :
  0 <= i -> f64.geb (f64.of_int i) (f64.of_int 0) = true.
Proof.
  intros H. apply not_negative_signed. unfold f64.of_int, binary_normalize.
  destruct i as [|p|p]; [reflexivity|apply binary_round_sign|lia].
Qed.

(** The product of a float that is not negative with [1e6] is not
    negative. *)
Lemma megabytes_not_negative (f : float64) :
  f64.geb f (f64.of_int 0) = true ->
  f64.geb (f64.mul f (f64.of_int 1000000)) (f64.of_int 0) = true.
Proof.
  intros H. destruct (signed_not_negative f H) as [Hs| ->]; [|reflexivity].
  apply not_negative_signed.
  assert (Hm : exists m e, f64.of_int 1000000 = S754_finite false m e).
  { eexists. eexists. vm_compute. reflexivity. }
  destruct Hm as [m [e ->]].
  destruct f as [[]|[]| |[] mf ef]; try discriminate Hs;
    [reflexivity|reflexivity|].
  unfold f64.mul, SFmul. apply binary_round_aux_sign. lia.
Qed.

(** ** Values *)

Lemma Forall_when (P : Metric -> Prop) (c : bool) (ms : list Metric) :
  (c = true -> Forall P ms) -> Forall P (when c ms).
Proof. destruct c; intros H; [apply H; reflexivity|constructor]. Qed.

Lemma Forall_one (P : Metric -> Prop) (m : Metric) : P m -> Forall P [m].
Proof. intros H. apply Forall_cons; [exact H|apply Forall_nil]. Qed.

Lemma not_negative_int (d : Desc) (t : ValueType) (i : Z) (ls : list string) :
  0 <= i -> not_negative (MustNewConstMetric d t (f64.of_int i) ls).
Proof. apply of_int_not_negative. Qed.

Lemma not_negative_counter (d : Desc) (v : Z) : Forall not_negative (counter d v).
Proof.
  apply Forall_when. intros H. apply Z.leb_le in H.
  apply Forall_one, not_negative_int, H.
Qed.

Lemma not_negative_gauge (d : Desc) (v : float64) : Forall not_negative (gauge d v).
Proof. apply Forall_when. intros H. apply Forall_one. exact H. Qed.

Lemma not_negative_positive_gauge (d : Desc) (v : Z) :
  Forall not_negative (positive_gauge d v).
Proof.
  apply Forall_when. intros H. apply Z.ltb_lt in H.
  apply Forall_one, not_negative_int. lia.
Qed.

Lemma not_negative_interval_row (html win : string) :
  Forall not_negative (interval_row html win).
Proof.
  unfold interval_row. generalize (regexp.FindStringSubmatch (interval_re win) html).
  intros m. destruct (List.length m =? 5)%nat; [|constructor].
  generalize (toInt (at_ m 1)), (toFloat (at_ m 2)),
    (toInt (at_ m 3)), (toFloat (at_ m 4)).
  intros reqs rate bytes mbps.
  apply Forall_app; split; [|apply Forall_app; split; [|apply Forall_app; split]];
    apply Forall_when; intros H; apply Forall_one;
    first [exact H | apply not_negative_int, Z.leb_le, H].
Qed.

Lemma not_negative_page (env : Env) (body : string) :
  Forall not_negative (collect_page env body).
Proof.
  unfold collect_page. generalize (normalize body). intros html. name_extracted.
  repeat (apply Forall_app; split);
    try apply not_negative_counter;
    try apply not_negative_gauge;
    try apply not_negative_positive_gauge;
    try apply not_negative_interval_row.
  - apply Forall_one, not_negative_int. lia.
  - apply Forall_when. intros _. apply Forall_one, not_negative_int. lia.
  - apply Forall_nil.
  - apply Forall_when. intros _. apply Forall_one, not_negative_int. lia.
  - destruct (strings.Contains _ _).
    + repeat (apply Forall_app; split);
        try apply not_negative_counter;
        try apply not_negative_gauge.
      * apply Forall_one, not_negative_int. lia.
      * apply Forall_when. intros H. apply andb_prop in H. destruct H as [Ha Ht].
        apply Forall_cons; [|apply Forall_one];
          apply megabytes_not_negative; assumption.
    + repeat (apply Forall_cons; [apply not_negative_int; lia|]). apply Forall_nil.
Qed.

(** X4: whatever the poll finds, no metric that [Collect] sends has a
    negative value or a NaN: every value compares as at least 0. *)
Theorem values_are_not_negative (env : Env) (fetch : Fetch) (m : Metric) :
  In m (Collect env fetch) -> f64.geb (value m) (f64.of_int 0) = true.
Proof.
  revert m. apply Forall_forall.
  assert (Hdown : Forall not_negative
                    [MustNewConstMetric up GaugeValue (f64.of_int 0) []]).
  { apply Forall_one, not_negative_int. lia. }
  destruct fetch as [| |code body]; cbn [Collect]; try exact Hdown.
  destruct (negb (code =? 200)); [exact Hdown|].
  destruct body as [body|]; [apply not_negative_page|exact Hdown].
Qed.

Lemma values_are_not_negative_example :
  f64.geb (f64.of_int 1234) (f64.of_int 0) = true.
Proof.
  apply (values_are_not_negative amd64_utc (Response 200 (Some sample_row))
           (MustNewConstMetric interval_requests GaugeValue
              (f64.of_int 1234) ["15 seconds"])).
  apply (nth_error_In _ 1). vm_compute. reflexivity.
Defined.

(** ** Conversions *)

Lemma ReplaceAll_commas (s : string) :
  strings.ReplaceAll s "," "" = without_commas s.
Proof.
  unfold strings.ReplaceAll.
  induction s as [|c s IH]; [reflexivity|].
  cbn [strings.replace_from strings.prefix without_commas String.length Nat.pred].
  rewrite andb_true_r. destruct (Ascii.eqb "," c); cbn [append]; rewrite IH; reflexivity.
Qed.

Lemma without_commas_app (a b : string) :
  without_commas (a ++ b) = without_commas a ++ without_commas b.
Proof.
  induction a as [|c a IH]; [reflexivity|].
  cbn [append without_commas]. destruct (Ascii.eqb "," c); cbn [append]; rewrite IH;
    reflexivity.
Qed.

(** X5: [toInt] and [toFloat] ignore commas wherever they stand: a
    text with a comma converts as the text without it does. *)
Theorem commas_are_ignored (a b : string) :
  toInt (a ++ "," ++ b) = toInt (a ++ b)
  /\ toFloat (a ++ "," ++ b) = toFloat (a ++ b).
Proof.
  unfold toInt, toFloat. rewrite !ReplaceAll_commas, !without_commas_app.
  split; reflexivity.
Qed.

(** *** Reading a numeral *)

Lemma digit_of_char (d : Z) :
  0 <= d < 10 -> strconv.digit (digit_char d) = Some d.
Proof.
  intros H.
  assert (Hd : d = 0 \/ d = 1 \/ d = 2 \/ d = 3 \/ d = 4 \/ d = 5 \/ d = 6
               \/ d = 7 \/ d = 8 \/ d = 9) by lia.
  repeat (destruct Hd as [->|Hd]; [reflexivity|]). subst d. reflexivity.
Qed.

Lemma digits_app (s : string) (c : ascii) (acc : Z) :
  strconv.digits (s ++ String c "") acc
  = match strconv.digits s acc, strconv.digit c with
    | Some v, Some d => Some (v * 10 + d)
    | _, _ => None
    end.
Proof.
  revert acc. induction s as [|x s IH]; intros acc.
  - cbn [append strconv.digits]. destruct (strconv.digit c); reflexivity.
  - cbn [append strconv.digits]. destruct (strconv.digit x); [apply IH|reflexivity].
Qed.

Lemma digits_decimal_from (fuel : nat) (n : Z) :
  0 <= n -> (Z.to_nat (Z.log2 n) < fuel)%nat ->
  strconv.digits (decimal_from fuel n) 0 = Some n.
Proof.
  revert n. induction fuel as [|fuel IH]; intros n Hn Hfuel; [lia|].
  cbn [decimal_from]. rewrite digits_app.
  rewrite digit_of_char by (apply Z.mod_pos_bound; lia).
  destruct (n <? 10) eqn:E.
  - apply Z.ltb_lt in E. cbn [strconv.digits].
    rewrite Z.mod_small by lia. reflexivity.
  - apply Z.ltb_ge in E. rewrite IH.
    + f_equal. pose proof (Z.div_mod n 10). lia.
    + apply Z.div_pos; lia.
    + assert (Z.log2 (n / 10) < Z.log2 n);
        [|pose proof (Z.log2_nonneg (n / 10)); lia].
      apply Z.le_lt_trans with (Z.log2 (n / 2)).
      * apply Z.log2_le_mono. apply (Z.div_le_compat_l n 2 10); lia.
      * rewrite <- Z.div2_div, Z.div2_spec, Z.log2_shiftr by lia.
        assert (0 < Z.log2 n) by (apply Z.log2_pos; lia). lia.
Qed.

Lemma signed_digit (c : ascii) (s : string) :
  strconv.digit c <> None -> strconv.signed (String c s) = (false, String c s).
Proof.
  destruct c as [[] [] [] [] [] [] [] []]; intros H;
    first [reflexivity | exfalso; apply H; reflexivity].
Qed.

(** [strconv.ParseInt] on a non-empty text of digits: its number, unless
    that is beyond [int64]. *)
Lemma ParseInt_digits (s : string) (n : Z) :
  s <> "" -> strconv.digits s 0 = Some n ->
  strconv.ParseInt s = if n <? 2 ^ 63 then Some n else None.
Proof.
  intros Hs Hn. destruct s as [|c s]; [congruence|].
  unfold strconv.ParseInt. rewrite signed_digit.
  - rewrite Hn. reflexivity.
  - cbn [strconv.digits] in Hn. destruct (strconv.digit c); [discriminate|discriminate Hn].
Qed.

Lemma decimal_not_empty (n : Z) : decimal n <> "".
Proof.
  unfold decimal. cbn [decimal_from].
  destruct (if n <? 10 then _ else _); discriminate.
Qed.

(** X6: [toInt] reads the decimal numeral of every [n] from 0 to
    [2^63 - 1] as [n], whatever commas the text has between, before or
    after the digits; from [2^63] on it returns -1, the value that
    [Collect] takes for a missing field, instead of wrapping around. *)
Theorem toInt_reads_numerals (n : Z) (s : string) :
  0 <= n -> without_commas s = decimal n ->
  toInt s = if n <? 2 ^ 63 then n else -1.
Proof.
  intros Hn Hs. unfold toInt. rewrite ReplaceAll_commas, Hs.
  rewrite (ParseInt_digits (decimal n) n (decimal_not_empty n)).
  - destruct (n <? 2 ^ 63); reflexivity.
  - apply digits_decimal_from; [exact Hn|lia].
Qed.

Lemma toInt_reads_numerals_example :
  toInt "5,678,901" = 5678901 /\ toInt "9,223,372,036,854,775,808" = -1.
Proof.
  split.
  - apply (toInt_reads_numerals 5678901 "5,678,901"); [lia|reflexivity].
  - apply (toInt_reads_numerals 9223372036854775808 "9,223,372,036,854,775,808");
      [lia|vm_compute; reflexivity].
Defined.

(** *** The failure value *)

Lemma without_commas_chars (P : ascii -> bool) (s : string) :
  all_chars P s = true -> all_chars P (without_commas s) = true.
Proof.
  induction s as [|c s IH]; [reflexivity|].
  cbn [all_chars without_commas]. intros H. apply andb_prop in H. destruct H as [Hc Hs].
  destruct (Ascii.eqb "," c); [apply IH, Hs|].
  cbn [all_chars]. rewrite Hc, (IH Hs). reflexivity.
Qed.

Lemma without_commas_digits (s : string) :
  all_chars (regexp.mem digits_comma) s = true ->
  all_chars regexp.is_digit (without_commas s) = true.
Proof.
  induction s as [|c s IH]; [reflexivity|].
  cbn [all_chars without_commas]. intros H. apply andb_prop in H. destruct H as [Hc Hs].
  destruct (Ascii.eqb "," c) eqn:E; [apply IH, Hs|].
  cbn [all_chars]. rewrite (IH Hs), andb_true_r.
  destruct c as [[] [] [] [] [] [] [] []];
    first [reflexivity | discriminate Hc | discriminate E].
Qed.

Lemma digits_of_digits (s : string) (acc : Z) :
  all_chars regexp.is_digit s = true -> 0 <= acc ->
  exists n, strconv.digits s acc = Some n /\ 0 <= n.
Proof.
  revert acc. induction s as [|c s IH]; intros acc Hs Hacc.
  - exists acc. split; [reflexivity|exact Hacc].
  - cbn [all_chars] in Hs. apply andb_prop in Hs. destruct Hs as [Hc Hs].
    cbn [strconv.digits]. unfold strconv.digit. rewrite Hc.
    apply IH; [exact Hs|]. lia.
Qed.

(** X7: on a text of digits and commas, which is what the patterns of
    the counters capture, [toInt] is negative exactly when
    [strconv.ParseInt] fails: the value -1 that [Collect] takes for a
    missing field is never the reading of a field. *)
Theorem toInt_fails_below_zero (s : string) :
  all_chars (regexp.mem digits_comma) s = true ->
  (0 <=? toInt s) = converted (strconv.ParseInt (strings.ReplaceAll s "," "")).
Proof.
  intros Hs. unfold toInt. rewrite ReplaceAll_commas.
  apply without_commas_digits in Hs.
  destruct (without_commas s) as [|c t] eqn:E; [reflexivity|].
  destruct (digits_of_digits (String c t) 0 Hs ltac:(lia)) as [n [Hn Hpos]].
  rewrite (ParseInt_digits (String c t) n ltac:(discriminate) Hn).
  destruct (n <? 2 ^ 63); cbn [converted]; [apply Z.leb_le, Hpos|reflexivity].
Qed.

Lemma toInt_fails_below_zero_example :
  (0 <=? toInt "1,234") = true /\ (0 <=? toInt ",") = false.
Proof.
  split.
  - apply (toInt_fails_below_zero "1,234"). reflexivity.
  - apply (toInt_fails_below_zero ","). reflexivity.
Defined.

(** *** Decimals *)

Lemma div_sign (sx sy : bool) (mx my : positive) (ex ey : Z) :
  signed_as (xorb sx sy)
    (SFdiv f64.prec f64.emax (S754_finite sx mx ex) (S754_finite sy my ey)) = true.
Proof.
  unfold SFdiv, SFdiv_core_binary.
  set (m' := match _ with 0 => Z.pos mx | Z.pos _ => _ | Z.neg _ => 0 end).
  assert (Hm : 0 <= m').
  { subst m'. destruct (_ - _ - _); [lia|apply Z.shiftl_nonneg; lia|lia]. }
  pose proof (Z.div_pos m' (Z.pos my) Hm ltac:(lia)) as Hq.
  unfold Z.div in Hq.
  change IntDef.Z.div_eucl with Z.div_eucl.
  destruct (Z.div_eucl m' (Z.pos my)) as [q r].
  apply binary_round_aux_sign, Hq.
Qed.

Lemma of_decimal_sign (m e : Z) :
  0 <= m -> signed_as false (f64.of_decimal false m e) = true.
Proof.
  intros Hm. unfold f64.of_decimal. destruct m as [|p|p]; [reflexivity| |lia].
  destruct (0 <=? e).
  - unfold binary_normalize.
    destruct (Z.pos p * 10 ^ e) as [|q|q] eqn:E; [reflexivity|apply binary_round_sign|].
    pose proof (Z.pow_nonneg 10 e ltac:(lia)). lia.
  - apply (div_sign false false).
Qed.

Lemma digit_point_cases (c : ascii) :
  regexp.mem digits_point c = true ->
  (exists d, strconv.digit c = Some d /\ 0 <= d) \/ c = "."%char.
Proof.
  destruct c as [[] [] [] [] [] [] [] []]; intros H; try discriminate H;
    first [right; reflexivity | left; eexists; split; [reflexivity|lia]].
Qed.

(** What [strconv.mantissa] leaves of a text of digits and points:
    nothing, or a second point and what follows it. *)
Lemma mantissa_of_decimal (s : string) (point : bool) (m frac : Z) (seen : bool) :
  all_chars (regexp.mem digits_point) s = true -> 0 <= m ->
  exists m' frac' seen' rest,
    strconv.mantissa s point m frac seen = (m', frac', seen', rest)
    /\ 0 <= m'
    /\ (rest = "" \/ exists r, rest = String "." r).
Proof.
  revert point m frac seen. induction s as [|c s IH]; intros point m frac seen Hs Hm.
  - exists m, frac, seen, "". repeat split; [exact Hm|left; reflexivity].
  - cbn [all_chars] in Hs. apply andb_prop in Hs. destruct Hs as [Hc Hs].
    cbn [strconv.mantissa].
    destruct (digit_point_cases c Hc) as [[d [Hd Hpos]]| ->].
    + rewrite Hd. apply IH; [exact Hs|lia].
    + change (strconv.digit ".") with (@None Z).
      change (regexp.eqc "." ".") with true. cbn [andb].
      destruct point; cbn [negb].
      * exists m, frac, seen, (String "." s).
        repeat split; [exact Hm|right; eexists; reflexivity].
      * apply IH; [exact Hs|exact Hm].
Qed.

Lemma special_of_decimal (s : string) :
  all_chars (regexp.mem digits_point) s = true ->
  strconv.special s = None /\ strconv.signed s = (false, s).
Proof.
  destruct s as [|c s]; [split; reflexivity|].
  cbn [all_chars]. intros H. apply andb_prop in H. destruct H as [Hc _].
  destruct c as [[] [] [] [] [] [] [] []]; try discriminate Hc; split; reflexivity.
Qed.

(** X8: on a text of digits and points, which is what the patterns of
    the gauges capture, [toFloat] is a finite number, and it is negative
    exactly when [strconv.ParseFloat] fails: the value -1 that [Collect]
    takes for a missing field is never the reading of a field. *)
Theorem toFloat_fails_below_zero (s : string) :
  all_chars (regexp.mem digits_point) s = true ->
  f64.geb (toFloat s) (f64.of_int 0)
  = converted (strconv.ParseFloat (strings.ReplaceAll s "," ""))
  /\ is_finite (toFloat s) = true.
Proof.
  intros Hs. unfold toFloat. rewrite ReplaceAll_commas.
  apply (without_commas_chars _ s) in Hs. revert Hs.
  generalize (without_commas s). clear s. intros s Hs.
  unfold strconv.ParseFloat.
  destruct (special_of_decimal s Hs) as [-> ->].
  destruct (mantissa_of_decimal s false 0 0 false Hs ltac:(lia))
    as [m [frac [seen [rest [-> [Hm Hrest]]]]]].
  destruct seen; [|split; reflexivity].
  destruct Hrest as [->|[r ->]]; [|split; reflexivity].
  cbv beta iota zeta.
  pose proof (of_decimal_sign m (0 - frac) Hm) as Hsign.
  destruct (f64.of_decimal false m (0 - frac)) as [[]|[]| |[] mf ef];
    try discriminate Hsign; split; reflexivity.
Qed.

Lemma toFloat_fails_below_zero_example :
  (f64.geb (toFloat "82.3") (f64.of_int 0) = true
   /\ is_finite (toFloat "82.3") = true)
  /\ (f64.geb (toFloat "1.2.3") (f64.of_int 0) = false
      /\ is_finite (toFloat "1.2.3") = true).
Proof.
  split.
  - apply (toFloat_fails_below_zero "82.3"). reflexivity.
  - apply (toFloat_fails_below_zero "1.2.3"). reflexivity.
Defined.

(** ** Labels *)

(** *** Reversal *)

Lemma rev_onto_app (s acc : string) :
  strings.rev_onto s acc = strings.rev s ++ acc.
Proof.
  unfold strings.rev. revert acc. induction s as [|c s IH]; intros acc; [reflexivity|].
  cbn [strings.rev_onto]. rewrite (IH (String c acc)), (IH (String c "")).
  clear IH. generalize (strings.rev_onto s ""). intros r.
  induction r as [|x r IH]; [reflexivity|]. cbn [append]. rewrite IH. reflexivity.
Qed.

Lemma append_nil_r (s : string) : s ++ "" = s.
Proof. induction s as [|c s IH]; [reflexivity|]. cbn [append]. rewrite IH. reflexivity. Qed.

Lemma append_assoc (a b c : string) : (a ++ b) ++ c = a ++ b ++ c.
Proof. induction a as [|x a IH]; [reflexivity|]. cbn [append]. rewrite IH. reflexivity. Qed.

Lemma rev_cons (c : ascii) (s : string) :
  strings.rev (String c s) = strings.rev s ++ String c "".
Proof. unfold strings.rev at 1. cbn [strings.rev_onto]. apply rev_onto_app. Qed.

Lemma rev_app (a b : string) :
  strings.rev (a ++ b) = strings.rev b ++ strings.rev a.
Proof.
  induction a as [|c a IH].
  - cbn [append]. change (strings.rev "") with "". rewrite append_nil_r. reflexivity.
  - cbn [append]. rewrite !rev_cons, IH. apply append_assoc.
Qed.

Lemma rev_rev (s : string) : strings.rev (strings.rev s) = s.
Proof.
  induction s as [|c s IH]; [reflexivity|].
  rewrite rev_cons, rev_app, IH. reflexivity.
Qed.

Lemma length_rev (s : string) : String.length (strings.rev s) = String.length s.
Proof.
  induction s as [|c s IH]; [reflexivity|].
  rewrite rev_cons, length_append, IH. cbn [String.length]. lia.
Qed.

Lemma all_chars_rev (P : ascii -> bool) (s : string) :
  all_chars P (strings.rev s) = all_chars P s.
Proof.
  induction s as [|c s IH]; [reflexivity|].
  rewrite rev_cons, all_chars_app, IH. cbn [all_chars].
  rewrite andb_true_r. apply andb_comm.
Qed.

Lemma take_drop (n : nat) (s : string) : strings.take n s ++ strings.drop n s = s.
Proof.
  revert s. induction n as [|n IH]; intros [|c s]; try reflexivity.
  cbn [strings.take strings.drop append]. rewrite IH. reflexivity.
Qed.

Lemma all_chars_drop (P : ascii -> bool) (n : nat) (s : string) :
  all_chars P s = true -> all_chars P (strings.drop n s) = true.
Proof.
  intros H. rewrite <- (take_drop n s), all_chars_app in H.
  apply andb_prop in H. apply H.
Qed.

Lemma prefix_app (w p q : string) :
  strings.prefix w p = true -> strings.prefix w (p ++ q) = true.
Proof.
  revert p. induction w as [|a w IH]; intros p H; [reflexivity|].
  destruct p as [|b p]; [discriminate H|].
  cbn [strings.prefix append] in *. apply andb_prop in H. destruct H as [H1 H2].
  rewrite H1, (IH p H2). reflexivity.
Qed.

(** *** Trimming *)

Lemma space_not_empty (w : string) : In w strings.spaces -> (1 <= String.length w)%nat.
Proof.
  intros H. assert (Hall : forallb (fun w => Nat.leb 1 (String.length w)) strings.spaces
                           = true) by reflexivity.
  rewrite forallb_forall in Hall. apply Nat.leb_le, Hall, H.
Qed.

Lemma prefix_length (w s : string) :
  strings.prefix w s = true -> (String.length w <= String.length s)%nat.
Proof.
  revert s. induction w as [|a w IH]; intros s H; [cbn; lia|].
  destruct s as [|b s]; [discriminate H|].
  cbn [strings.prefix] in H. apply andb_prop in H. destruct H as [_ H].
  specialize (IH s H). cbn [String.length]. lia.
Qed.

(** Trimming with enough fuel goes on while there is a space. *)
Lemma trim_left_done (fuel : nat) (s : string) :
  (String.length s <= fuel)%nat ->
  strings.leading_space (strings.trim_left fuel s) = None.
Proof.
  revert s. induction fuel as [|fuel IH]; intros s H.
  - destruct s; [reflexivity|cbn in H; lia].
  - cbn [strings.trim_left]. destruct (strings.leading_space s) as [w|] eqn:E; [|exact E].
    apply IH. unfold strings.leading_space in E. apply find_some in E.
    destruct E as [Hw Hp]. apply space_not_empty in Hw. apply prefix_length in Hp.
    rewrite length_drop by exact Hp. lia.
Qed.

Lemma trim_right_done (fuel : nat) (r : string) :
  (String.length r <= fuel)%nat ->
  strings.trailing_space (strings.trim_right fuel r) = None.
Proof.
  revert r. induction fuel as [|fuel IH]; intros r H.
  - destruct r; [reflexivity|cbn in H; lia].
  - cbn [strings.trim_right]. destruct (strings.trailing_space r) as [w|] eqn:E; [|exact E].
    apply IH. unfold strings.trailing_space in E. apply find_some in E.
    destruct E as [Hw Hp]. apply space_not_empty in Hw. apply prefix_length in Hp.
    rewrite length_rev in Hp. rewrite length_drop by exact Hp. lia.
Qed.

Lemma trim_left_drops (fuel : nat) (s : string) :
  exists n, strings.trim_left fuel s = strings.drop n s.
Proof.
  revert s. induction fuel as [|fuel IH]; intros s; [exists O; destruct s; reflexivity|].
  cbn [strings.trim_left]. destruct (strings.leading_space s) as [w|].
  - destruct (IH (strings.drop (String.length w) s)) as [n ->].
    exists (String.length w + n)%nat. generalize (String.length w). intros k.
    revert s. induction k as [|k IHk]; intros s; [reflexivity|].
    destruct s as [|c s]; [destruct n; reflexivity|]. apply IHk.
  - exists O. destruct s; reflexivity.
Qed.

Lemma trim_right_drops (fuel : nat) (r : string) :
  exists n, strings.trim_right fuel r = strings.drop n r.
Proof.
  revert r. induction fuel as [|fuel IH]; intros r; [exists O; destruct r; reflexivity|].
  cbn [strings.trim_right]. destruct (strings.trailing_space r) as [w|].
  - destruct (IH (strings.drop (String.length w) r)) as [n ->].
    exists (String.length w + n)%nat. generalize (String.length w). intros k.
    revert r. induction k as [|k IHk]; intros r; [reflexivity|].
    destruct r as [|c r]; [destruct n; reflexivity|]. apply IHk.
  - exists O. destruct r; reflexivity.
Qed.

(** What [strings.TrimSpace] returns starts and ends with no space. *)
Lemma TrimSpace_trimmed (s : string) : trimmed (strings.TrimSpace s) = true.
Proof.
  unfold trimmed, strings.TrimSpace, strings.TrimRightSpace.
  set (t := strings.TrimLeftSpace s).
  assert (Ht : strings.leading_space t = None).
  { apply trim_left_done. lia. }
  rewrite rev_rev.
  rewrite (trim_right_done (String.length t) (strings.rev t))
    by (rewrite length_rev; lia).
  destruct (trim_right_drops (String.length t) (strings.rev t)) as [n ->].
  destruct (strings.leading_space (strings.rev (strings.drop n (strings.rev t))))
    as [w|] eqn:E; [|reflexivity].
  exfalso. unfold strings.leading_space in E, Ht. apply find_some in E.
  destruct E as [Hw Hp].
  apply (find_none _ _ Ht) in Hw.
  assert (Hsplit : t = strings.rev (strings.drop n (strings.rev t))
                       ++ strings.rev (strings.take n (strings.rev t))).
  { rewrite <- rev_app, take_drop, rev_rev. reflexivity. }
  rewrite Hsplit in Hw. rewrite (prefix_app _ _ _ Hp) in Hw. discriminate Hw.
Qed.

(** Trimming keeps what holds of every character. *)
Lemma TrimSpace_chars (P : ascii -> bool) (s : string) :
  all_chars P s = true -> all_chars P (strings.TrimSpace s) = true.
Proof.
  intros H. unfold strings.TrimSpace, strings.TrimRightSpace, strings.TrimLeftSpace.
  destruct (trim_left_drops (String.length s) s) as [n ->].
  set (t := strings.drop n s).
  destruct (trim_right_drops (String.length t) (strings.rev t)) as [k ->].
  rewrite all_chars_rev. apply all_chars_drop. rewrite all_chars_rev.
  apply all_chars_drop, H.
Qed.

(** X9: the label values that the exporter extracts are trimmed: what
    [parseFirstString] returns, for any page and any pattern, and the
    version and the build that [parseVersionBuild] returns neither start
    nor end with a space. *)
Theorem labels_are_trimmed (html pattern : string) :
  trimmed (parseFirstString html pattern) = true
  /\ trimmed (fst (parseVersionBuild html)) = true
  /\ trimmed (snd (parseVersionBuild html)) = true.
Proof.
  unfold parseFirstString, parseVersionBuild.
  repeat split.
  - destruct (2 <=? _)%nat; [apply TrimSpace_trimmed|reflexivity].
  - destruct (_ =? 3)%nat; [apply TrimSpace_trimmed|reflexivity].
  - destruct (_ =? 3)%nat; [apply TrimSpace_trimmed|reflexivity].
Qed.

(** *** What a group captures *)

(** A repetition that succeeds has passed a run of characters of its
    class and handed the rest to its continuation. *)
Lemma rep_passes_run {A : Type} (cs : regexp.cset) (lo : nat) (hi : option nat)
      (s : string) (k : string -> option A) (x : A) :
  regexp.rep cs lo hi s k = Some x ->
  exists t s', s = t ++ s' /\ all_chars (regexp.mem cs) t = true /\ k s' = Some x.
Proof.
  revert lo hi. induction s as [|c s IH]; intros lo hi H.
  - cbn [regexp.rep] in H. destruct lo; [|discriminate H].
    exists "", "". repeat split. exact H.
  - cbn [regexp.rep] in H.
    assert (Hstop : match lo with O => k (String c s) | S _ => None end = Some x ->
                    exists t s', String c s = t ++ s'
                                 /\ all_chars (regexp.mem cs) t = true /\ k s' = Some x).
    { intros Hk. destruct lo; [|discriminate Hk].
      exists "", (String c s). repeat split. exact Hk. }
    destruct (regexp.more hi && regexp.mem cs c)%bool eqn:E; [|apply Hstop, H].
    destruct (regexp.rep cs (Nat.pred lo) (regexp.less hi) s k) as [y|] eqn:Hr;
      [|apply Hstop, H].
    injection H as ->. apply andb_prop in E. destruct E as [_ Hc].
    destruct (IH _ _ Hr) as [t [s' [-> [Ht Hk]]]].
    exists (String c t), s'. repeat split; [|exact Hk].
    cbn [all_chars]. rewrite Hc, Ht. reflexivity.
Qed.

Lemma captured_weaken (r : regexp.re) (P : nat * string -> bool)
      (Q : nat * string -> bool) (l : list (nat * string)) :
  (forall jv, P jv = true -> Q jv = true) ->
  forallb P l = true -> forallb Q l = true.
Proof.
  intros H Hl. rewrite forallb_forall in *. intros jv Hjv. apply H, Hl, Hjv.
Qed.

(** A match passes a text that its pattern can match and adds, for each
    group it went through, a capture that the group can capture. *)
Lemma exec_captures {A : Type} (r : regexp.re) :
  forall (s : string) (caps : regexp.captures)
         (k : string -> regexp.captures -> option A) (x : A),
    regexp.exec r s caps k = Some x ->
    exists t s' new,
      s = t ++ s' /\ run_of r t = true /\ k s' (new ++ caps)%list = Some x
      /\ forallb (fun jv => captured r (fst jv) (snd jv)) new = true.
Proof.
  induction r as [|cs|cs lo hi|r1 IH1 r2 IH2|r1 IH1 r2 IH2|i r1 IH1];
    intros s caps k x H; cbn [regexp.exec] in H.
  - exists "", s, []. repeat split. exact H.
  - destruct s as [|c s]; [discriminate H|].
    destruct (regexp.mem cs c); [|discriminate H].
    exists (String c ""), s, []. repeat split. exact H.
  - destruct (rep_passes_run _ _ _ _ _ _ H) as [t [s' [-> [Ht Hk]]]].
    exists t, s', []. repeat split; assumption.
  - destruct (IH1 _ _ _ _ H) as [t1 [s1 [new1 [-> [_ [H1 Hc1]]]]]].
    destruct (IH2 _ _ _ _ H1) as [t2 [s2 [new2 [-> [_ [H2 Hc2]]]]]].
    exists (t1 ++ t2), s2, (new2 ++ new1)%list.
    split; [symmetry; apply append_assoc|]. split; [reflexivity|].
    split; [rewrite <- app_assoc; exact H2|].
    rewrite forallb_app. cbn [captured].
    rewrite (captured_weaken r2 _ _ new2 (fun jv Hjv => orb_true_intro _ _ (or_intror Hjv)) Hc2).
    rewrite (captured_weaken r1 _ _ new1 (fun jv Hjv => orb_true_intro _ _ (or_introl Hjv)) Hc1).
    reflexivity.
  - destruct (regexp.exec r1 s caps k) as [y|] eqn:E.
    + injection H as ->.
      destruct (IH1 _ _ _ _ E) as [t [s' [new [-> [_ [Hk Hc]]]]]].
      exists t, s', new. repeat split; [exact Hk|]. cbn [captured].
      apply (captured_weaken r1 _ _ new (fun jv Hjv => orb_true_intro _ _ (or_introl Hjv)) Hc).
    + destruct (IH2 _ _ _ _ H) as [t [s' [new [-> [_ [Hk Hc]]]]]].
      exists t, s', new. repeat split; [exact Hk|]. cbn [captured].
      apply (captured_weaken r2 _ _ new (fun jv Hjv => orb_true_intro _ _ (or_intror Hjv)) Hc).
  - destruct (IH1 _ _ _ _ H) as [t [s' [new [-> [Ht [Hk Hc]]]]]].
    rewrite take_app_length in Hk.
    exists t, s', ((i, t) :: new). repeat split; [exact Hk|].
    cbn [forallb captured fst snd]. rewrite Nat.eqb_refl, Ht. cbn [andb orb].
    apply (captured_weaken r1 _ _ new (fun jv Hjv => orb_true_intro _ _ (or_intror Hjv)) Hc).
Qed.

Lemma search_captures (r : regexp.re) (s whole : string) (caps : regexp.captures) :
  regexp.search r s = Some (whole, caps) ->
  forallb (fun jv => captured r (fst jv) (snd jv)) caps = true.
Proof.
  induction s as [|c s IH]; cbn [regexp.search]; unfold regexp.match_at.
  - destruct (regexp.exec r "" [] _) as [[s' caps']|] eqn:E; [|discriminate].
    intros H. injection H as _ <-.
    destruct (exec_captures r _ _ _ _ E) as [t [s1 [new [_ [_ [Hk Hc]]]]]].
    injection Hk as _ <-. rewrite app_nil_r. exact Hc.
  - destruct (regexp.exec r (String c s) [] _) as [[s' caps']|] eqn:E; [|exact IH].
    intros H. injection H as _ <-.
    destruct (exec_captures r _ _ _ _ E) as [t [s1 [new [_ [_ [Hk Hc]]]]]].
    injection Hk as _ <-. rewrite app_nil_r. exact Hc.
Qed.

Lemma lookup_captured (r : regexp.re) (i : nat) (caps : regexp.captures) :
  forallb (fun jv => captured r (fst jv) (snd jv)) caps = true ->
  regexp.lookup i caps = "" \/ captured r i (regexp.lookup i caps) = true.
Proof.
  induction caps as [|[j v] caps IH]; intros H; [left; reflexivity|].
  cbn [forallb fst snd] in H. apply andb_prop in H. destruct H as [Hj H].
  cbn [regexp.lookup]. destruct (Nat.eqb i j) eqn:E; [|apply IH, H].
  apply Nat.eqb_eq in E. subst j. right. exact Hj.
Qed.

Lemma nth_map_seq (f : nat -> string) (n a i : nat) :
  nth i (map f (seq a n)) "" = "" \/ nth i (map f (seq a n)) "" = f (a + i)%nat.
Proof.
  revert a i. induction n as [|n IH]; intros a i; [left; destruct i; reflexivity|].
  destruct i as [|i]; cbn [seq map nth].
  - right. rewrite Nat.add_0_r. reflexivity.
  - destruct (IH (S a) i) as [H|H]; [left; exact H|right].
    rewrite H. f_equal. lia.
Qed.

(** The entry of a group in the result of [FindStringSubmatch] is empty
    or a text that the group can capture. *)
Lemma FindStringSubmatch_captured (r : regexp.re) (s : string) (i : nat) :
  at_ (regexp.FindStringSubmatch r s) (S i) = ""
  \/ captured r (S i) (at_ (regexp.FindStringSubmatch r s) (S i)) = true.
Proof.
  unfold regexp.FindStringSubmatch, at_.
  destruct (regexp.search r s) as [[whole caps]|] eqn:E; [|left; reflexivity].
  cbn [nth].
  destruct (nth_map_seq (fun i => regexp.lookup i caps) (regexp.groups r) 1 i)
    as [H|H]; [left; exact H|].
  rewrite H. cbn [Nat.add]. apply lookup_captured. apply (search_captures r s whole), E.
Qed.

Lemma Contains_char (c : ascii) (s : string) :
  all_chars (fun x => negb (Ascii.eqb c x)) s = true ->
  strings.Contains s (String c "") = false.
Proof.
  induction s as [|x s IH]; [reflexivity|].
  cbn [all_chars]. intros H. apply andb_prop in H. destruct H as [Hx Hs].
  cbn [strings.Contains strings.prefix]. rewrite (IH Hs).
  destruct (Ascii.eqb c x); [discriminate Hx|reflexivity].
Qed.

Lemma not_comma (c : ascii) :
  regexp.mem (regexp.CClass true [(","%char, ","%char)]) c = true ->
  negb (Ascii.eqb "," c) = true.
Proof.
  destruct c as [[] [] [] [] [] [] [] []]; intros H;
    first [reflexivity | discriminate H].
Qed.

Lemma not_lt (c : ascii) :
  regexp.mem (regexp.CClass true [("<"%char, "<"%char)]) c = true ->
  negb (Ascii.eqb "<" c) = true.
Proof.
  destruct c as [[] [] [] [] [] [] [] []]; intros H;
    first [reflexivity | discriminate H].
Qed.

(** The trimmed capture of a group of characters other than [c] does
    not contain [c]. *)
Lemma trimmed_capture_without (pattern html : string) (i : nat) (c : ascii)
      (cs : regexp.cset) :
  (forall v, captured (regexp.MustCompile pattern) (S i) v = true ->
             all_chars (regexp.mem cs) v = true) ->
  (forall x, regexp.mem cs x = true -> negb (Ascii.eqb c x) = true) ->
  strings.Contains
    (strings.TrimSpace
       (at_ (regexp.FindStringSubmatch (regexp.MustCompile pattern) html) (S i)))
    (String c "") = false.
Proof.
  intros Hcap Hcs.
  destruct (FindStringSubmatch_captured (regexp.MustCompile pattern) html i) as [H|H].
  - rewrite H. reflexivity.
  - apply Hcap in H. apply Contains_char, TrimSpace_chars.
    apply (all_chars_impl _ _ _ Hcs H).
Qed.

(** Reads the class of a group off the compiled pattern. *)
Ltac class_of_group :=
  let v := fresh "v" in
  let H := fresh "H" in
  intros v H;
  match type of H with
  | captured (regexp.MustCompile ?p) _ _ = true =>
      let r := eval vm_compute in (regexp.MustCompile p) in
      change (regexp.MustCompile p) with r in H
  end;
  cbn [captured run_of Nat.eqb andb orb] in H;
  rewrite ?orb_false_r in H; exact H.

(** X10: no label value contains the character that its pattern stops
    at: the version has no comma, and the build, the configuration file
    and the local storage have no [<], so that no label value runs into
    the next tag of the page. *)
Theorem labels_stop_at_their_delimiter (html : string) :
  strings.Contains (fst (parseVersionBuild html)) "," = false
  /\ strings.Contains (snd (parseVersionBuild html)) "<" = false
  /\ strings.Contains
       (parseFirstString html "Config file:\s*</th>\s*<td[^>]*>\s*<tt>([^<]+)")
       "<" = false
  /\ strings.Contains
       (parseFirstString html "Local Storage:\s*</th>\s*<td[^>]*>\s*<tt>([^<]+)")
       "<" = false.
Proof.
  unfold parseVersionBuild, parseFirstString.
  repeat split.
  - destruct (_ =? 3)%nat; [|reflexivity]. cbn [fst].
    apply (trimmed_capture_without _ html 0 ","%char
             (regexp.CClass true [(","%char, ","%char)]));
      [class_of_group|exact not_comma].
  - destruct (_ =? 3)%nat; [|reflexivity]. cbn [snd].
    apply (trimmed_capture_without _ html 1 "<"%char
             (regexp.CClass true [("<"%char, "<"%char)]));
      [class_of_group|exact not_lt].
  - destruct (2 <=? _)%nat; [|reflexivity].
    apply (trimmed_capture_without _ html 0 "<"%char
             (regexp.CClass true [("<"%char, "<"%char)]));
      [class_of_group|exact not_lt].
  - destruct (2 <=? _)%nat; [|reflexivity].
    apply (trimmed_capture_without _ html 0 "<"%char
             (regexp.CClass true [("<"%char, "<"%char)]));
      [class_of_group|exact not_lt].
Qed.

(** ** Missing labels *)

Lemma FindStringSubmatch_without_literal (pattern l html : string) :
  starts_with_literal pattern l ->
  strings.Contains html l = false ->
  regexp.FindStringSubmatch (regexp.MustCompile pattern) html = [].
Proof.
  intros [Hl Hp] H. rewrite <- Hp. unfold regexp.FindStringSubmatch.
  rewrite (search_without_literal l _ html Hl H). reflexivity.
Qed.

Section Absent.

Variables (html l : string).
Hypothesis absent : strings.Contains html l = false.

Lemma parseFirstNumber_absent (pattern : string) :
  starts_with_literal pattern l -> parseFirstNumber html pattern = -1.
Proof.
  intros H. unfold parseFirstNumber.
  rewrite (FindStringSubmatch_without_literal pattern l html H absent). reflexivity.
Qed.

Lemma parseFirstFloat_absent (pattern : string) :
  starts_with_literal pattern l -> parseFirstFloat html pattern = f64.of_int (-1).
Proof.
  intros H. unfold parseFirstFloat.
  rewrite (FindStringSubmatch_without_literal pattern l html H absent). reflexivity.
Qed.

Lemma parseFirstString_absent (pattern : string) :
  starts_with_literal pattern l -> parseFirstString html pattern = "".
Proof.
  intros H. unfold parseFirstString.
  rewrite (FindStringSubmatch_without_literal pattern l html H absent). reflexivity.
Qed.

Lemma parseRFC1123InParens_absent (env : Env) (pattern : string) :
  starts_with_literal pattern l -> parseRFC1123InParens env html pattern = 0.
Proof.
  intros H. unfold parseRFC1123InParens.
  rewrite (FindStringSubmatch_without_literal pattern l html H absent). reflexivity.
Qed.

End Absent.

Ltac literal_start := split; [discriminate|vm_compute; reflexivity].

Lemma parseStartedUnix_absent (env : Env) (html : string) :
  strings.Contains html "Started:" = false -> parseStartedUnix env html = 0.
Proof.
  intros H. unfold parseStartedUnix. fold cell_pattern plain_pattern.
  rewrite (FindStringSubmatch_without_literal cell_pattern "Started:" html
             ltac:(literal_start) H).
  rewrite (FindStringSubmatch_without_literal plain_pattern "Started:" html
             ltac:(literal_start) H).
  reflexivity.
Qed.

Lemma parseUptimeSeconds_absent (env : Env) (html : string) :
  strings.Contains html "Started:" = false -> parseUptimeSeconds env html = 0.
Proof.
  intros H. unfold parseUptimeSeconds. fold uptime_pattern.
  rewrite (FindStringSubmatch_without_literal uptime_pattern "Started:" html
             ltac:(literal_start) H).
  reflexivity.
Qed.

Lemma parseVersionBuild_absent (html : string) :
  strings.Contains html "Welcome to GeoWebCache version " = false ->
  parseVersionBuild html = ("", "").
Proof.
  intros H. unfold parseVersionBuild.
  rewrite (FindStringSubmatch_without_literal
             "Welcome to GeoWebCache version ([^,]+), build ([^<]+)"
             "Welcome to GeoWebCache version " html ltac:(literal_start) H).
  reflexivity.
Qed.

Lemma intervals_absent (html : string) :
  strings.Contains html "<tr>" = false ->
  flat_map (interval_row html) intervals = [].
Proof.
  intros H. cbn [flat_map intervals].
  rewrite !interval_row_not_found; [reflexivity| | |];
    unfold interval_re;
    apply (FindStringSubmatch_without_literal _ "<tr>" html); try exact H;
    literal_start.
Qed.

(** Succeeds when the text of the pattern [p] starts with [l]. *)
Ltac literal_of p l :=
  let b := eval vm_compute in (strings.prefix l p) in
  lazymatch b with true => idtac end.

(** Puts the value of a failed extraction in the place of every
    extractor whose pattern starts with a label that the page lacks. *)
Ltac extract_nothing :=
  repeat match goal with
    | H : strings.Contains ?h ?l = false |- context [parseFirstNumber ?h ?p] =>
        literal_of p l; rewrite (parseFirstNumber_absent h l H p) by literal_start
    | H : strings.Contains ?h ?l = false |- context [parseFirstFloat ?h ?p] =>
        literal_of p l; rewrite (parseFirstFloat_absent h l H p) by literal_start
    | H : strings.Contains ?h ?l = false |- context [parseFirstString ?h ?p] =>
        literal_of p l; rewrite (parseFirstString_absent h l H p) by literal_start
    | H : strings.Contains ?h ?l = false
      |- context [parseRFC1123InParens ?e ?h ?p] =>
        literal_of p l; rewrite (parseRFC1123InParens_absent h l H e p) by literal_start
    | H : strings.Contains ?h _ = false |- context [parseStartedUnix ?e ?h] =>
        rewrite (parseStartedUnix_absent e h H)
    | H : strings.Contains ?h _ = false |- context [parseUptimeSeconds ?e ?h] =>
        rewrite (parseUptimeSeconds_absent e h H)
    | H : strings.Contains ?h _ = false |- context [parseVersionBuild ?h] =>
        rewrite (parseVersionBuild_absent h H)
    | H : strings.Contains ?h _ = false
      |- context [flat_map (interval_row ?h) intervals] =>
        rewrite (intervals_absent h H)
    end.

(** X11: a field is not sent when the page lacks the label that the
    pattern of the field starts with: the status page without
    ["Started:"] gives neither a start time nor an uptime, without
    ["<tr>"] no per-window metric, without ["Config file:"] and
    ["Local Storage:"] no storage metric, and so on for each entry of
    [page_labels]. *)
Theorem missing_label_missing_field (env : Env) (body : string) (d : Desc)
        (labels : list string) :
  page_labels d = Some labels ->
  (forall l, In l labels -> strings.Contains (normalize body) l = false) ->
  has d (Collect env (Response 200 (Some body))) = false.
Proof.
  intros Hd Hl. rewrite Collect_page. unfold collect_page.
  generalize dependent (normalize body). intros html Hl.
  destruct d; cbn [page_labels] in Hd; try discriminate Hd;
    injection Hd as <-;
    pose proof (Hl _ (or_introl eq_refl)) as H1;
    try pose proof (Hl _ (or_intror (or_introl eq_refl))) as H2;
    clear Hl; extract_nothing; has_page; reflexivity.
Qed.

Lemma missing_label_missing_field_example :
  has interval_bytes
    (Collect amd64_utc (Response 200 (Some "Started: Mon, 02 Jan 2006 15:04:05 GMT")))
  = false.
Proof.
  apply (missing_label_missing_field amd64_utc _ interval_bytes ["<tr>"]).
  - reflexivity.
  - intros l [<-|[]]. vm_compute. reflexivity.
Defined.

(** ** The normalized page *)

Lemma length_replace_from (old : string) (sp : ascii) (s : string) (skip : nat) :
  (String.length (strings.replace_from old (String sp "") s skip)
   <= String.length s)%nat.
Proof.
  revert skip. induction s as [|c s IH]; intros skip; [cbn; lia|].
  cbn [strings.replace_from String.length]. destruct skip as [|n].
  - destruct (strings.prefix old (String c s)); cbn [append String.length].
    + specialize (IH (Nat.pred (String.length old))). lia.
    + specialize (IH O). lia.
  - specialize (IH n). lia.
Qed.

Lemma length_collapse (b : bool) (s : string) :
  (String.length (collapse b s) <= String.length s)%nat.
Proof.
  revert b. induction s as [|c s IH]; intros b; [cbn; lia|].
  cbn [collapse String.length]. destruct (is_space c).
  - destruct b; cbn [String.length]; specialize (IH true); lia.
  - cbn [String.length]. specialize (IH false). lia.
Qed.

Lemma collapsed_only_spaces (b : bool) (s : string) :
  collapsed b s = true -> all_chars space_or_not_whitespace s = true.
Proof.
  revert b. induction s as [|c s IH]; intros b H; [reflexivity|].
  cbn [collapsed] in H. cbn [all_chars]. unfold space_or_not_whitespace at 1.
  destruct (is_space c).
  - apply andb_prop in H. destruct H as [H Hs].
    apply andb_prop in H. destruct H as [_ Hc].
    rewrite Hc, (IH true Hs). reflexivity.
  - rewrite (IH false H). reflexivity.
Qed.

Lemma space_is_no_newline (c : ascii) :
  space_or_not_whitespace c = true -> negb (Ascii.eqb c newline) = true.
Proof.
  destruct c as [[] [] [] [] [] [] [] []]; intros H;
    first [reflexivity | discriminate H].
Qed.

(** X12: the normalized page is never longer than the page, and the
    only whitespace left in it is the space character: tabs, line
    feeds, form feeds and carriage returns are gone, so that the [.*] of
    the uptime pattern, which stops at a line feed, can run over the
    whole page. *)
Theorem normalize_leaves_only_spaces (text : string) :
  (String.length (normalize text) <= String.length text)%nat
  /\ all_chars space_or_not_whitespace (normalize text) = true
  /\ no_newline (normalize text) = true.
Proof.
  assert (H : all_chars space_or_not_whitespace (normalize text) = true).
  { rewrite normalize_collapse. apply (collapsed_only_spaces false), collapsed_collapse. }
  split; [|split; [exact H|]].
  - rewrite normalize_collapse.
    apply Nat.le_trans with (String.length (strings.ReplaceAll text "&nbsp;" " ")).
    + apply length_collapse.
    + apply length_replace_from.
  - apply (all_chars_impl _ _ _ space_is_no_newline H).
Qed.

(** ** The sizes of the cache *)

(** The matcher up to the unit at the end of the sizes. *)
Ltac exec_to_unit :=
  repeat (lazymatch goal with
          | |- regexp.rep regexp.CSpace 0 None " Mb" _ = _ => fail
          | _ => exec_step
          end).

Lemma sizes_in_cell_match (act tot : string) :
  cell_of digits_point act = true -> cell_of digits_point tot = true ->
  exists whole,
    regexp.FindStringSubmatch (regexp.MustCompile sizes_pattern) (sizes_in_cell act tot)
    = [whole; act; tot].
Proof.
  intros Ha Ht. unfold regexp.FindStringSubmatch.
  assert (Hm : exists caps,
             regexp.match_at (regexp.MustCompile sizes_pattern) (sizes_in_cell act tot)
             = Some ("", caps)
             /\ map (fun i => regexp.lookup i caps) (seq 1 2) = [act; tot]).
  { eexists. split.
    - unfold regexp.match_at, sizes_in_cell.
      let r := eval vm_compute in (regexp.MustCompile sizes_pattern) in
      change (regexp.MustCompile sizes_pattern) with r.
      cbn [append]. exec_to_unit.
      (* the spaces before the unit are left to the pattern's own space *)
      rewrite rep_step by reflexivity. rewrite rep_stop by reflexivity.
      cbn [regexp.exec regexp.mem Ascii.eqb Bool.eqb]. reflexivity.
    - cbn [seq map regexp.lookup Nat.eqb]. rewrite !take_app_length. reflexivity. }
  destruct Hm as [caps [Hm Hcaps]].
  rewrite (search_here _ _ _ _ Hm).
  change (regexp.groups (regexp.MustCompile sizes_pattern)) with 2%nat.
  rewrite Hcaps. eexists. reflexivity.
Qed.

Lemma Contains_after_run (P : ascii -> bool) (c0 : ascii) (l run rest : string) :
  (forall c, P c = true -> Ascii.eqb c0 c = false) ->
  all_chars P run = true ->
  strings.Contains (run ++ rest) (String c0 l) = strings.Contains rest (String c0 l).
Proof.
  intros HP Hrun. induction run as [|c run IH]; [reflexivity|].
  cbn [all_chars] in Hrun. apply andb_prop in Hrun. destruct Hrun as [Hc Hrun].
  cbn [append strings.Contains strings.prefix]. rewrite (HP c Hc), (IH Hrun).
  reflexivity.
Qed.

Lemma digit_point_not_C (c : ascii) :
  regexp.mem digits_point c = true -> Ascii.eqb "C" c = false.
Proof.
  destruct c as [[] [] [] [] [] [] [] []]; intros H;
    first [reflexivity | discriminate H].
Qed.

Lemma sizes_in_next_cell_match (act tot : string) :
  cell_of digits_point act = true -> cell_of digits_point tot = true ->
  exists whole,
    regexp.FindStringSubmatch (regexp.MustCompile sizes_next_pattern)
      (sizes_in_next_cell act tot)
    = [whole; act; tot].
Proof.
  intros Ha Ht. unfold regexp.FindStringSubmatch.
  assert (Hm : exists caps,
             regexp.match_at (regexp.MustCompile sizes_next_pattern)
               (sizes_in_next_cell act tot)
             = Some ("", caps)
             /\ map (fun i => regexp.lookup i caps) (seq 1 2) = [act; tot]).
  { eexists. split.
    - unfold regexp.match_at, sizes_in_next_cell.
      let r := eval vm_compute in (regexp.MustCompile sizes_next_pattern) in
      change (regexp.MustCompile sizes_next_pattern) with r.
      cbn [append]. repeat exec_step. reflexivity.
    - cbn [seq map regexp.lookup Nat.eqb]. rewrite !take_app_length. reflexivity. }
  destruct Hm as [caps [Hm Hcaps]].
  rewrite (search_here _ _ _ _ Hm).
  change (regexp.groups (regexp.MustCompile sizes_next_pattern)) with 2%nat.
  rewrite Hcaps. eexists. reflexivity.
Qed.

(** The pattern of the sizes in one cell does not match the sizes in
    the next cell. *)
Lemma sizes_in_next_cell_only (act tot : string) :
  cell_of digits_point act = true -> cell_of digits_point tot = true ->
  regexp.FindStringSubmatch (regexp.MustCompile sizes_pattern)
    (sizes_in_next_cell act tot) = [].
Proof.
  intros Ha Ht.
  assert (Hm : regexp.match_at (regexp.MustCompile sizes_pattern)
                 (sizes_in_next_cell act tot) = None).
  { unfold regexp.match_at, sizes_in_next_cell.
    let r := eval vm_compute in (regexp.MustCompile sizes_pattern) in
    change (regexp.MustCompile sizes_pattern) with r.
    cbn [append]. repeat exec_step. reflexivity. }
  assert (Honce : strings.Contains (strings.drop 1 (sizes_in_next_cell act tot))
                    "Cache Actual Size/ Total Size :" = false).
  { unfold sizes_in_next_cell.
    cbn [append strings.drop strings.Contains strings.prefix Ascii.eqb Bool.eqb andb orb].
    rewrite (Contains_after_run _ _ _ _ _ digit_point_not_C (cell_of_chars _ _ Ha)).
    cbn [append strings.Contains strings.prefix Ascii.eqb Bool.eqb andb orb].
    rewrite (Contains_after_run _ _ _ _ _ digit_point_not_C (cell_of_chars _ _ Ht)).
    reflexivity. }
  unfold regexp.FindStringSubmatch.
  change (sizes_in_next_cell act tot)
    with (String "C" (strings.drop 1 (sizes_in_next_cell act tot))) in Hm |- *.
  rewrite (search_next _ _ _ Hm).
  change (regexp.MustCompile sizes_pattern)
    with (lit_then "Cache Actual Size/ Total Size :"
            (after_lit 31 (regexp.MustCompile sizes_pattern))).
  rewrite (search_without_literal "Cache Actual Size/ Total Size :" _ _
             ltac:(discriminate) Honce).
  reflexivity.
Qed.

(** X13: [parseSizesMB] reads the two sizes of the cache from both
    layouts of the status page, the sizes in the cell of the label and
    the sizes in the cell after it: for any two numbers of digits and
    points it returns their conversions. *)
Theorem sizes_in_either_cell (act tot : string) :
  cell_of digits_point act = true -> cell_of digits_point tot = true ->
  parseSizesMB (sizes_in_cell act tot) = (toFloat act, toFloat tot)
  /\ parseSizesMB (sizes_in_next_cell act tot) = (toFloat act, toFloat tot).
Proof.
  intros Ha Ht. unfold parseSizesMB. fold sizes_pattern sizes_next_pattern.
  destruct (sizes_in_cell_match act tot Ha Ht) as [w1 H1].
  destruct (sizes_in_next_cell_match act tot Ha Ht) as [w2 H2].
  rewrite H1, (sizes_in_next_cell_only act tot Ha Ht), H2.
  split; reflexivity.
Qed.

Lemma sizes_in_either_cell_example :
  parseSizesMB "Cache Actual Size/ Total Size : 12.5 / 16.0 Mb"
  = (toFloat "12.5", toFloat "16.0")
  /\ parseSizesMB "Cache Actual Size/ Total Size :</td><td>12.5 / 16.0 Mb"
     = (toFloat "12.5", toFloat "16.0").
Proof.
  apply (sizes_in_either_cell "12.5" "16.0"); reflexivity.
Defined.

(** ** Days of one digit *)

Lemma lookup_three (tab : list string) (a1 a2 a3 : ascii) (r : string) (i : Z) :
  forallb (fun v => Nat.eqb (String.length v) 3) tab = true ->
  time.lookup tab (String a1 (String a2 (String a3 r))) i = None
  \/ exists j, time.lookup tab (String a1 (String a2 (String a3 r))) i = Some (j, r).
Proof.
  revert i. induction tab as [|v tab IH]; intros i H; [left; reflexivity|].
  cbn [forallb] in H. apply andb_prop in H. destruct H as [Hv H].
  apply Nat.eqb_eq in Hv. cbn [time.lookup]. rewrite Hv.
  cbn [String.length Nat.leb strings.take strings.drop andb].
  destruct (time.same_fold _ v); [right; eexists; reflexivity|apply IH, H].
Qed.

(** [time.Parse] with the layout RFC1123, whose day is ["02"], rejects a
    day of one digit. *)
Lemma one_digit_day_rejected (env : Env) (a1 a2 a3 d : ascii) (rest : string) :
  regexp.is_digit d = true ->
  time.ParseRFC1123 env (one_digit_day a1 a2 a3 d rest) = None.
Proof.
  intros Hd. unfold time.ParseRFC1123, one_digit_day.
  destruct (lookup_three time.shortDayNames a1 a2 a3
              (String "," (String " " (String d (String " " rest)))) 0 eq_refl)
    as [->|[j ->]]; [reflexivity|].
  cbn [time.bind].
  destruct d as [[] [] [] [] [] [] [] []]; try discriminate Hd; reflexivity.
Qed.

Lemma rep_three {A : Type} (cs : regexp.cset) (a1 a2 a3 : ascii) (s : string)
      (k : string -> option A) :
  regexp.mem cs a1 = true -> regexp.mem cs a2 = true -> regexp.mem cs a3 = true ->
  regexp.rep cs 3 (Some 3%nat) (String a1 (String a2 (String a3 s))) k = k s.
Proof.
  intros H1 H2 H3.
  cbn [regexp.rep regexp.more regexp.less Nat.pred andb]. rewrite H1, H2, H3.
  destruct s as [|c s]; cbn [regexp.rep regexp.more andb];
    destruct (k _); reflexivity.
Qed.

Lemma rep_one_of_two {A : Type} (d : ascii) (s : string) (k : string -> option A) :
  regexp.is_digit d = true ->
  regexp.rep (regexp.CClass false [("0"%char, "9"%char)]) 1 (Some 2%nat)
    (String d (String " " s)) k
  = k (String " " s).
Proof.
  intros Hd.
  assert (Hm : regexp.mem (regexp.CClass false [("0"%char, "9"%char)]) d = true).
  { cbn [regexp.mem existsb fst snd xorb]. unfold regexp.is_digit in Hd.
    rewrite Hd. reflexivity. }
  cbn [regexp.rep regexp.more regexp.less Nat.pred andb]. rewrite Hm.
  change (regexp.mem (regexp.CClass false [("0"%char, "9"%char)]) " ") with false.
  destruct (k _); reflexivity.
Qed.

(** What the pattern of the timestamp captures at a day of one digit
    starts with that day. *)
Lemma timestamp_of_one_digit_day (a1 a2 a3 d : ascii) (tail rest : string)
      (caps : regexp.captures) :
  time.is_letter a1 = true -> time.is_letter a2 = true -> time.is_letter a3 = true ->
  regexp.is_digit d = true ->
  timestamp_at (one_digit_day a1 a2 a3 d tail) = Some (rest, caps) ->
  exists t, regexp.lookup 1 caps = one_digit_day a1 a2 a3 d t.
Proof.
  intros H1 H2 H3 Hd. unfold timestamp_at.
  let r := eval vm_compute in timestamp_group in change timestamp_group with r.
  rewrite exec_group, exec_seq, exec_rep.
  unfold one_digit_day at 1.
  rewrite (rep_three _ a1 a2 a3 _ _ (letter_is_letter a1 H1) (letter_is_letter a2 H2)
             (letter_is_letter a3 H3)).
  rewrite exec_seq, exec_set. cbn [regexp.mem Ascii.eqb Bool.eqb].
  rewrite exec_seq, exec_set. cbn [regexp.mem Ascii.eqb Bool.eqb].
  rewrite exec_seq, exec_rep, (rep_one_of_two d tail _ Hd).
  rewrite exec_seq, exec_set. cbn [regexp.mem Ascii.eqb Bool.eqb].
  intros H. apply exec_captures in H.
  destruct H as [t [s' [new [-> [_ [H _]]]]]].
  injection H as <- <-. exists t.
  change (strings.take
            (String.length (one_digit_day a1 a2 a3 d t ++ s') - String.length s')
            (one_digit_day a1 a2 a3 d t ++ s')
          = one_digit_day a1 a2 a3 d t).
  apply take_app_length.
Qed.

(** X14: a start time whose day of the month is written with one
    digit is not read.  The patterns of [parseStartedUnix] accept one
    or two digits for the day, but the layout that [time.Parse] is given
    wants two: on a page with the label, whitespace and such a
    timestamp, the extractor returns 0, for which [Collect] sends no
    start time. *)
Theorem one_digit_day_is_not_read
        (env : Env) (ws : string) (a1 a2 a3 d : ascii) (tail : string) :
  all_spaces ws = true ->
  time.is_letter a1 = true -> time.is_letter a2 = true -> time.is_letter a3 = true ->
  regexp.is_digit d = true ->
  strings.Contains (ws ++ one_digit_day a1 a2 a3 d tail) "Started:" = false ->
  parseStartedUnix env (loose_layout ws (one_digit_day a1 a2 a3 d tail)) = 0
  /\ positive_gauge started_seconds
       (parseStartedUnix env (loose_layout ws (one_digit_day a1 a2 a3 d tail))) = [].
Proof.
  intros Hws H1 H2 H3 Hd Hl.
  set (text := one_digit_day a1 a2 a3 d tail) in *.
  assert (Ht : starts_with_letter text = true) by exact H1.
  assert (Hl0 : strings.Contains (strings.drop 1 (loose_layout ws text)) "Started:"
                = false).
  { unfold loose_layout.
    cbn [append strings.drop strings.Contains strings.prefix Ascii.eqb Bool.eqb andb orb].
    exact Hl. }
  pose proof (cell_at_loose ws text Hws Ht) as Hcl.
  pose proof (plain_at_loose ws text Hws Ht) as Hpl.
  assert (H0 : parseStartedUnix env (loose_layout ws text) = 0).
  { unfold parseStartedUnix. fold cell_pattern plain_pattern.
    rewrite cell_pattern_shape, plain_pattern_shape in *.
    change (loose_layout ws text)
      with (String "S" (strings.drop 1 (loose_layout ws text))) in *.
    rewrite !find_at_head by first [discriminate | reflexivity | assumption].
    rewrite Hcl, Hpl.
    destruct (timestamp_at text) as [[rest caps]|] eqn:E; [|reflexivity].
    destruct (timestamp_of_one_digit_day a1 a2 a3 d tail rest caps H1 H2 H3 Hd E)
      as [t Hcap].
    cbn [List.length Nat.eqb at_ nth]. rewrite Hcap.
    rewrite (one_digit_day_rejected env a1 a2 a3 d t Hd). reflexivity. }
  split; [exact H0|]. rewrite H0. reflexivity.
Qed.

Lemma one_digit_day_is_not_read_example :
  parseStartedUnix amd64_utc "Started: Mon, 2 Jan 2006 15:04:05 GMT" = 0
  /\ positive_gauge started_seconds
       (parseStartedUnix amd64_utc "Started: Mon, 2 Jan 2006 15:04:05 GMT") = [].
Proof.
  apply (one_digit_day_is_not_read amd64_utc " " "M" "o" "n" "2"
           "Jan 2006 15:04:05 GMT"); reflexivity.
Defined.

(** The pattern does match such a timestamp; it is [time.Parse] that
    rejects it. *)
Lemma one_digit_day_is_matched :
  regexp.FindStringSubmatch (regexp.MustCompile plain_pattern)
    "Started: Mon, 2 Jan 2006 15:04:05 GMT"
  = ["Started: Mon, 2 Jan 2006 15:04:05 GMT"; "Mon, 2 Jan 2006 15:04:05 GMT"]
  /\ parseStartedUnix amd64_utc "Started: Mon, 02 Jan 2006 15:04:05 GMT" = 1136214245.
Proof. split; vm_compute; reflexivity. Qed.

(** ** Timestamps *)

Lemma digit_char_digit (v : Z) :
  0 <= v < 10 ->
  strconv.digit (digit_char v) = Some v
  /\ regexp.mem (regexp.CClass false [("0"%char, "9"%char)]) (digit_char v) = true
  /\ regexp.is_digit (digit_char v) = true
  /\ Ascii.eqb (digit_char v) " " = false
  /\ Ascii.eqb "S" (digit_char v) = false.
Proof.
  intros H.
  assert (Hd : v = 0 \/ v = 1 \/ v = 2 \/ v = 3 \/ v = 4 \/ v = 5 \/ v = 6
               \/ v = 7 \/ v = 8 \/ v = 9) by lia.
  repeat (destruct Hd as [->|Hd]; [repeat split; reflexivity|]).
  subst v. repeat split; reflexivity.
Qed.

Lemma tens_and_units (n : Z) : 0 <= n < 100 -> 0 <= n / 10 < 10 /\ 0 <= n mod 10 < 10.
Proof.
  intros H. split; [|apply Z.mod_pos_bound; lia].
  split; [apply Z.div_pos; lia|apply Z.div_lt_upper_bound; lia].
Qed.

(** An exact number of characters of a class. *)
Lemma rep_exact {A : Type} (cs : regexp.cset) (run s : string) (k : string -> option A) :
  all_chars (regexp.mem cs) run = true ->
  regexp.rep cs (String.length run) (Some (String.length run)) (run ++ s) k = k s.
Proof.
  induction run as [|c run IH]; intros H.
  - cbn [String.length append]. destruct s as [|x s]; reflexivity.
  - cbn [all_chars] in H. apply andb_prop in H. destruct H as [Hc H].
    cbn [String.length append regexp.rep regexp.more regexp.less Nat.pred andb].
    rewrite Hc, (IH H). destruct (k s); reflexivity.
Qed.

Lemma rep_exactly {A : Type} (cs : regexp.cset) (n : nat) (run s : string)
      (k : string -> option A) :
  all_chars (regexp.mem cs) run = true -> String.length run = n ->
  regexp.rep cs n (Some n) (run ++ s) k = k s.
Proof. intros H <-. apply rep_exact, H. Qed.

(** One or two characters of a class, before a character that is not of
    the class: the two are taken. *)
Lemma rep_two_of_two {A : Type} (cs : regexp.cset) (run s : string)
      (k : string -> option A) (x : A) :
  all_chars (regexp.mem cs) run = true -> String.length run = 2%nat ->
  k s = Some x ->
  regexp.rep cs 1 (Some 2%nat) (run ++ s) k = Some x.
Proof.
  intros H Hlen Hk.
  destruct run as [|c1 [|c2 [|c3 run]]]; try discriminate Hlen.
  cbn [all_chars] in H. apply andb_prop in H. destruct H as [H1 H].
  apply andb_prop in H. destruct H as [H2 _].
  cbn [append regexp.rep regexp.more regexp.less Nat.pred andb]. rewrite H1, H2.
  assert (Hs : regexp.rep cs 0 (Some 0%nat) s k = Some x).
  { destruct s; cbn [regexp.rep regexp.more andb]; exact Hk. }
  rewrite Hs. reflexivity.
Qed.

Section Stamp.

Variables weekday dd month yyyy hh mi ss rest : string.

Hypothesis weekday_letters : all_chars (regexp.mem letters) weekday = true.
Hypothesis weekday_length : String.length weekday = 3%nat.
Hypothesis month_letters : all_chars (regexp.mem letters) month = true.
Hypothesis month_length : String.length month = 3%nat.
Hypothesis dd_digits :
  all_chars (regexp.mem (regexp.CClass false [("0"%char, "9"%char)])) dd = true.
Hypothesis dd_length : String.length dd = 2%nat.
Hypothesis yyyy_digits :
  all_chars (regexp.mem (regexp.CClass false [("0"%char, "9"%char)])) yyyy = true.
Hypothesis yyyy_length : String.length yyyy = 4%nat.
Hypothesis hh_digits :
  all_chars (regexp.mem (regexp.CClass false [("0"%char, "9"%char)])) hh = true.
Hypothesis hh_length : String.length hh = 2%nat.
Hypothesis mi_digits :
  all_chars (regexp.mem (regexp.CClass false [("0"%char, "9"%char)])) mi = true.
Hypothesis mi_length : String.length mi = 2%nat.
Hypothesis ss_digits :
  all_chars (regexp.mem (regexp.CClass false [("0"%char, "9"%char)])) ss = true.
Hypothesis ss_length : String.length ss = 2%nat.

(** The pattern of the timestamp matches a time of that shape and
    captures it. *)
Lemma timestamp_at_stamp :
  timestamp_at
    ((weekday ++ ", " ++ dd ++ " " ++ month ++ " " ++ yyyy ++ " " ++ hh ++ ":" ++ mi
      ++ ":" ++ ss ++ " GMT") ++ rest)
  = Some (rest,
          [(1%nat, weekday ++ ", " ++ dd ++ " " ++ month ++ " " ++ yyyy ++ " " ++ hh
                   ++ ":" ++ mi ++ ":" ++ ss ++ " GMT")]).
Proof.
  unfold timestamp_at.
  let r := eval vm_compute in timestamp_group in change timestamp_group with r.
  rewrite exec_group.
  match goal with
  | |- regexp.exec _ _ _ ?k0 = _ => set (k := k0)
  end.
  rewrite !append_assoc. cbn [append].
  rewrite exec_seq, exec_rep.
  rewrite (rep_exactly _ 3 weekday _ _ weekday_letters weekday_length).
  do 4 exec_step. rewrite exec_seq, exec_rep.
  apply (rep_two_of_two _ dd _ _ _ dd_digits dd_length).
  do 2 exec_step. rewrite exec_seq, exec_rep.
  rewrite (rep_exactly _ 3 month _ _ month_letters month_length).
  do 2 exec_step. rewrite exec_seq, exec_rep.
  rewrite (rep_exactly _ 4 yyyy _ _ yyyy_digits yyyy_length).
  do 2 exec_step. rewrite exec_seq, exec_rep.
  rewrite (rep_exactly _ 2 hh _ _ hh_digits hh_length).
  do 2 exec_step. rewrite exec_seq, exec_rep.
  rewrite (rep_exactly _ 2 mi _ _ mi_digits mi_length).
  do 2 exec_step. rewrite exec_seq, exec_rep.
  rewrite (rep_exactly _ 2 ss _ _ ss_digits ss_length).
  repeat exec_step.
  subst k. cbv beta. rewrite take_app_length. reflexivity.
Qed.

End Stamp.

(** *** Parsing a time *)

Lemma lookup_weekday (weekday : string) :
  In weekday time.shortDayNames ->
  exists i, forall rest,
      time.lookup time.shortDayNames (weekday ++ rest) 0 = Some (i, rest).
Proof.
  intros H. cbn in H.
  repeat (destruct H as [<-|H]; [eexists; intros rest; reflexivity|]).
  destruct H.
Qed.

Lemma lookup_month (month : Z) (rest : string) :
  1 <= month <= 12 ->
  time.lookup time.shortMonthNames (month_name month ++ rest) 0
  = Some (month - 1, rest).
Proof.
  intros H.
  assert (Hm : month = 1 \/ month = 2 \/ month = 3 \/ month = 4 \/ month = 5
               \/ month = 6 \/ month = 7 \/ month = 8 \/ month = 9 \/ month = 10
               \/ month = 11 \/ month = 12) by lia.
  repeat (destruct Hm as [->|Hm]; [reflexivity|]). subst month. reflexivity.
Qed.

Lemma getnum_two_digits (n : Z) (fixed : bool) (rest : string) :
  0 <= n < 100 ->
  time.getnum (two_digits n ++ rest) fixed = Some (n, rest).
Proof.
  intros H. destruct (tens_and_units n H) as [Ht Hu].
  destruct (digit_char_digit _ Ht) as [H1 _].
  destruct (digit_char_digit _ Hu) as [H2 _].
  unfold two_digits. cbn [append time.getnum]. rewrite H1, H2.
  f_equal. f_equal. pose proof (Z.div_mod n 10 ltac:(lia)). lia.
Qed.

Lemma year4_four_digits (y : Z) (rest : string) :
  0 <= y < 10000 ->
  time.year4 (four_digits y ++ rest) = Some (y, rest).
Proof.
  intros H.
  assert (Hhi : 0 <= y / 100 < 100).
  { split; [apply Z.div_pos; lia|apply Z.div_lt_upper_bound; lia]. }
  assert (Hlo : 0 <= y mod 100 < 100) by (apply Z.mod_pos_bound; lia).
  destruct (tens_and_units _ Hhi) as [H1 H2].
  destruct (tens_and_units _ Hlo) as [H3 H4].
  destruct (digit_char_digit _ H1) as [D1 _].
  destruct (digit_char_digit _ H2) as [D2 _].
  destruct (digit_char_digit _ H3) as [D3 _].
  destruct (digit_char_digit _ H4) as [D4 _].
  unfold time.year4, four_digits, two_digits.
  cbn [append String.length Nat.leb strings.take strings.drop strconv.digits].
  rewrite D1, D2, D3, D4. f_equal. f_equal.
  pose proof (Z.div_mod y 100 ltac:(lia)).
  pose proof (Z.div_mod (y / 100) 10 ltac:(lia)).
  pose proof (Z.div_mod (y mod 100) 10 ltac:(lia)). lia.
Qed.

Lemma skip_comma_space (n : Z) (rest : string) :
  0 <= n < 100 ->
  time.skip (", " ++ two_digits n ++ rest) ", " = Some (two_digits n ++ rest).
Proof.
  intros H. destruct (tens_and_units n H) as [Ht _].
  destruct (digit_char_digit _ Ht) as [_ [_ [_ [Hs _]]]].
  unfold two_digits. cbn [append]. unfold time.skip.
  cbn [String.length time.skip_from Ascii.eqb Bool.eqb time.cutspace].
  rewrite Hs. reflexivity.
Qed.

Lemma skip_space (c : ascii) (s : string) :
  Ascii.eqb c " " = false ->
  time.skip (String " " (String c s)) " " = Some (String c s).
Proof.
  intros H. unfold time.skip.
  cbn [String.length time.skip_from Ascii.eqb Bool.eqb time.cutspace].
  rewrite H. reflexivity.
Qed.

Lemma skip_colon (s : string) : time.skip (String ":" s) ":" = Some s.
Proof. reflexivity. Qed.

Lemma month_name_start (month : Z) :
  1 <= month <= 12 ->
  exists c r, month_name month = String c r /\ Ascii.eqb c " " = false
              /\ all_chars (regexp.mem letters) (month_name month) = true
              /\ String.length (month_name month) = 3%nat.
Proof.
  intros H.
  assert (Hm : month = 1 \/ month = 2 \/ month = 3 \/ month = 4 \/ month = 5
               \/ month = 6 \/ month = 7 \/ month = 8 \/ month = 9 \/ month = 10
               \/ month = 11 \/ month = 12) by lia.
  repeat (destruct Hm as [->|Hm]; [eexists; eexists; repeat split; reflexivity|]).
  subst month. eexists. eexists. repeat split; reflexivity.
Qed.

Lemma two_digits_start (n : Z) :
  0 <= n < 100 ->
  exists c r, two_digits n = String c r /\ Ascii.eqb c " " = false.
Proof.
  intros H. destruct (tens_and_units n H) as [Ht _].
  destruct (digit_char_digit _ Ht) as [_ [_ [_ [Hs _]]]].
  eexists. eexists. split; [reflexivity|exact Hs].
Qed.

(** [time.Parse] reads a time in the format RFC1123 with the zone GMT
    as the time of its fields, in UTC, whatever the day of the week
    says. *)
Lemma ParseRFC1123_rfc1123 (env : Env) (weekday : string)
      (day month year hour min sec : Z) :
  In weekday time.shortDayNames ->
  1 <= month <= 12 -> 1 <= day <= time.daysIn month year -> 0 <= year < 10000 ->
  0 <= hour < 24 -> 0 <= min < 60 -> 0 <= sec < 60 ->
  time.ParseRFC1123 env (rfc1123 weekday day (month_name month) year hour min sec)
  = Some (time.Date year month day hour min sec).
Proof.
  intros Hw Hm Hd Hy Hh Hmi Hs.
  assert (Hday : 0 <= day < 100).
  { assert (time.daysIn month year <= 31); [|lia].
    unfold time.daysIn. destruct (month =? 2); [destruct (time.isLeap year); lia|].
    destruct (_ || _); lia. }
  destruct (lookup_weekday weekday Hw) as [i Hi].
  unfold time.ParseRFC1123, rfc1123.
  rewrite Hi. cbn [time.bind].
  rewrite (skip_comma_space day _ Hday). cbn [time.bind].
  rewrite (getnum_two_digits day true _ Hday). cbn [time.bind].
  destruct (month_name_start month Hm) as [c [r [Hname [Hc _]]]].
  rewrite Hname. cbn [append]. rewrite (skip_space c _ Hc). cbn [time.bind].
  change (String c (r ++ ?x)) with (String c r ++ x). rewrite <- Hname.
  rewrite (lookup_month month _ Hm). cbn [time.bind].
  assert (Hy4 : exists c r, four_digits year = String c r /\ Ascii.eqb c " " = false).
  { unfold four_digits.
    assert (Hhi : 0 <= year / 100 < 100).
    { split; [apply Z.div_pos; lia|apply Z.div_lt_upper_bound; lia]. }
    destruct (two_digits_start _ Hhi) as [c' [r' [-> Hc']]].
    eexists. eexists. split; [reflexivity|exact Hc']. }
  destruct Hy4 as [cy [ry [Hyname Hcy]]].
  rewrite Hyname. cbn [append]. rewrite (skip_space cy _ Hcy). cbn [time.bind].
  change (String cy (ry ++ ?x)) with (String cy ry ++ x). rewrite <- Hyname.
  rewrite (year4_four_digits year _ Hy). cbn [time.bind].
  destruct (two_digits_start hour ltac:(lia)) as [ch [rh [Hhname Hch]]].
  rewrite Hhname. cbn [append]. rewrite (skip_space ch _ Hch). cbn [time.bind].
  change (String ch (rh ++ ?x)) with (String ch rh ++ x). rewrite <- Hhname.
  rewrite (getnum_two_digits hour false _ ltac:(lia)). cbn [time.bind].
  replace (24 <=? hour) with false by (symmetry; apply Z.leb_gt; lia).
  cbn [append]. rewrite skip_colon. cbn [time.bind].
  rewrite (getnum_two_digits min true _ ltac:(lia)). cbn [time.bind].
  replace (60 <=? min) with false by (symmetry; apply Z.leb_gt; lia).
  cbn [append]. rewrite skip_colon. cbn [time.bind].
  rewrite (getnum_two_digits sec true _ ltac:(lia)). cbn [time.bind].
  replace (60 <=? sec) with false by (symmetry; apply Z.leb_gt; lia).
  change (time.skip " GMT" " ") with (Some "GMT").
  change (String.eqb "GMT" "GMT") with true. cbn [time.bind].
  replace (month - 1 + 1) with month by lia.
  replace ((day <? 1) || (time.daysIn month year <? day)) with false.
  - change (String.eqb "GMT" "GMT") with true. cbn [time.bind].
    rewrite Z.sub_0_r. reflexivity.
  - symmetry. apply orb_false_intro; apply Z.ltb_ge; lia.
Qed.

(** *** The page of a start time *)

Lemma digit_not_S (c : ascii) : regexp.is_digit c = true -> Ascii.eqb "S" c = false.
Proof.
  destruct c as [[] [] [] [] [] [] [] []]; intros H;
    first [reflexivity | discriminate H].
Qed.

Lemma digit_in_class (s : string) :
  all_chars regexp.is_digit s = true ->
  all_chars (regexp.mem (regexp.CClass false [("0"%char, "9"%char)])) s = true.
Proof.
  apply all_chars_impl. intros c H. cbn [regexp.mem existsb fst snd xorb].
  unfold regexp.is_digit in H. rewrite H. reflexivity.
Qed.

Lemma two_digits_digits (n : Z) :
  0 <= n < 100 ->
  all_chars regexp.is_digit (two_digits n) = true
  /\ String.length (two_digits n) = 2%nat.
Proof.
  intros H. destruct (tens_and_units n H) as [Ht Hu].
  destruct (digit_char_digit _ Ht) as [_ [_ [H1 _]]].
  destruct (digit_char_digit _ Hu) as [_ [_ [H2 _]]].
  unfold two_digits. cbn [all_chars String.length]. rewrite H1, H2.
  split; reflexivity.
Qed.

Lemma four_digits_digits (n : Z) :
  0 <= n < 10000 ->
  all_chars regexp.is_digit (four_digits n) = true
  /\ String.length (four_digits n) = 4%nat.
Proof.
  intros H.
  assert (Hhi : 0 <= n / 100 < 100).
  { split; [apply Z.div_pos; lia|apply Z.div_lt_upper_bound; lia]. }
  assert (Hlo : 0 <= n mod 100 < 100) by (apply Z.mod_pos_bound; lia).
  destruct (two_digits_digits _ Hhi) as [H1 L1].
  destruct (two_digits_digits _ Hlo) as [H2 L2].
  unfold four_digits. rewrite all_chars_app, length_append, H1, H2, L1, L2.
  split; reflexivity.
Qed.

(** The label does not occur in a time of the format RFC1123, nor
    across its ends. *)
Lemma stamp_without_label (ws weekday dd month yyyy hh mi ss rest : string) :
  all_chars (regexp.mem regexp.CSpace) ws = true ->
  In weekday time.shortDayNames -> In month time.shortMonthNames ->
  all_chars regexp.is_digit dd = true -> all_chars regexp.is_digit yyyy = true ->
  all_chars regexp.is_digit hh = true -> all_chars regexp.is_digit mi = true ->
  all_chars regexp.is_digit ss = true ->
  strings.Contains rest "Started:" = false ->
  strings.Contains
    (ws ++ (weekday ++ ", " ++ dd ++ " " ++ month ++ " " ++ yyyy ++ " " ++ hh ++ ":"
            ++ mi ++ ":" ++ ss ++ " GMT") ++ rest) "Started:" = false.
Proof.
  intros Hws Hw Hm Hdd Hyyyy Hhh Hmi Hss Hrest.
  assert (Htail : strings.Contains
                    (yyyy ++ " " ++ hh ++ ":" ++ mi ++ ":" ++ ss ++ " GMT" ++ rest)
                    "Started:" = false).
  { rewrite (Contains_after_run _ _ _ _ _ digit_not_S Hyyyy).
    cbn [append strings.Contains strings.prefix Ascii.eqb Bool.eqb andb orb].
    rewrite (Contains_after_run _ _ _ _ _ digit_not_S Hhh).
    cbn [append strings.Contains strings.prefix Ascii.eqb Bool.eqb andb orb].
    rewrite (Contains_after_run _ _ _ _ _ digit_not_S Hmi).
    cbn [append strings.Contains strings.prefix Ascii.eqb Bool.eqb andb orb].
    rewrite (Contains_after_run _ _ _ _ _ digit_not_S Hss).
    cbn [append strings.Contains strings.prefix Ascii.eqb Bool.eqb andb orb].
    exact Hrest. }
  assert (Hmonth : strings.Contains
                     (dd ++ " " ++ month ++ " " ++ yyyy ++ " " ++ hh ++ ":" ++ mi ++ ":"
                      ++ ss ++ " GMT" ++ rest) "Started:" = false).
  { rewrite (Contains_after_run _ _ _ _ _ digit_not_S Hdd).
    cbn in Hm.
    repeat (destruct Hm as [<-|Hm];
            [cbn [append strings.Contains strings.prefix Ascii.eqb Bool.eqb andb orb];
             exact Htail|]).
    destruct Hm. }
  rewrite (Contains_after_run _ _ _ _ _ space_not_S Hws).
  rewrite !append_assoc.
  cbn in Hw.
  repeat (destruct Hw as [<-|Hw];
          [cbn [append strings.Contains strings.prefix Ascii.eqb Bool.eqb andb orb];
           exact Hmonth|]).
  destruct Hw.
Qed.

Lemma weekday_letters (weekday : string) :
  In weekday time.shortDayNames ->
  all_chars (regexp.mem letters) weekday = true
  /\ String.length weekday = 3%nat
  /\ forall rest, starts_with_letter (weekday ++ rest) = true.
Proof.
  intros H. cbn in H.
  repeat (destruct H as [<-|H]; [repeat split; reflexivity|]). destruct H.
Qed.

Lemma month_name_listed (month : Z) :
  1 <= month <= 12 -> In (month_name month) time.shortMonthNames.
Proof.
  intros H.
  assert (Hm : month = 1 \/ month = 2 \/ month = 3 \/ month = 4 \/ month = 5
               \/ month = 6 \/ month = 7 \/ month = 8 \/ month = 9 \/ month = 10
               \/ month = 11 \/ month = 12) by lia.
  repeat (destruct Hm as [->|Hm]; [cbn; tauto|]). subst month. cbn. tauto.
Qed.

(** X22: the start time is read as written.  On a page with the
    label, whitespace, a time in the format RFC1123 with a day of two
    digits and the zone GMT, and after it any text without the label,
    [parseStartedUnix] returns the Unix time of the date and the time of
    day, in UTC; the day of the week is not compared with the date, and
    the process environment plays no part. *)
Theorem started_time_is_read
        (env : Env) (ws weekday rest : string) (day month year hour min sec : Z) :
  all_spaces ws = true ->
  In weekday time.shortDayNames ->
  1 <= month <= 12 -> 1 <= day <= time.daysIn month year -> 0 <= year < 10000 ->
  0 <= hour < 24 -> 0 <= min < 60 -> 0 <= sec < 60 ->
  strings.Contains rest "Started:" = false ->
  parseStartedUnix env
    (loose_layout ws
       (rfc1123 weekday day (month_name month) year hour min sec ++ rest))
  = time.Unix (time.Date year month day hour min sec).
Proof.
  intros Hws Hw Hm Hd Hy Hh Hmi Hs Hrest.
  assert (Hday : 0 <= day < 100).
  { assert (time.daysIn month year <= 31); [|lia].
    unfold time.daysIn. destruct (month =? 2); [destruct (time.isLeap year); lia|].
    destruct (_ || _); lia. }
  destruct (weekday_letters weekday Hw) as [Hwl [Hwn Hstart]].
  destruct (month_name_start month Hm) as [_ [_ [_ [_ [Hml Hmn]]]]].
  destruct (two_digits_digits day Hday) as [Hdd Ldd].
  destruct (four_digits_digits year Hy) as [Hyy Lyy].
  destruct (two_digits_digits hour ltac:(lia)) as [Hhh Lhh].
  destruct (two_digits_digits min ltac:(lia)) as [Hmm Lmm].
  destruct (two_digits_digits sec ltac:(lia)) as [Hss Lss].
  pose proof (ParseRFC1123_rfc1123 env weekday day month year hour min sec
                Hw Hm Hd Hy Hh Hmi Hs) as Hparse.
  pose proof (timestamp_at_stamp weekday (two_digits day) (month_name month)
                (four_digits year) (two_digits hour) (two_digits min) (two_digits sec)
                rest Hwl Hwn Hml Hmn (digit_in_class _ Hdd) Ldd (digit_in_class _ Hyy) Lyy
                (digit_in_class _ Hhh) Lhh (digit_in_class _ Hmm) Lmm
                (digit_in_class _ Hss) Lss) as Hstamp.
  pose proof (stamp_without_label ws weekday (two_digits day) (month_name month)
                (four_digits year) (two_digits hour) (two_digits min) (two_digits sec)
                rest Hws Hw (month_name_listed month Hm) Hdd Hyy Hhh Hmm Hss Hrest)
    as Hlabel.
  fold (rfc1123 weekday day (month_name month) year hour min sec) in Hstamp, Hlabel.
  set (stamp := rfc1123 weekday day (month_name month) year hour min sec) in *.
  assert (Ht : starts_with_letter (stamp ++ rest) = true).
  { subst stamp. unfold rfc1123. rewrite append_assoc. apply Hstart. }
  assert (Hl0 : strings.Contains (strings.drop 1 (loose_layout ws (stamp ++ rest)))
                  "Started:" = false).
  { unfold loose_layout.
    cbn [append strings.drop strings.Contains strings.prefix Ascii.eqb Bool.eqb andb orb].
    exact Hlabel. }
  pose proof (cell_at_loose ws (stamp ++ rest) Hws Ht) as Hcl.
  pose proof (plain_at_loose ws (stamp ++ rest) Hws Ht) as Hpl.
  unfold parseStartedUnix. fold cell_pattern plain_pattern.
  rewrite cell_pattern_shape, plain_pattern_shape in *.
  change (loose_layout ws (stamp ++ rest))
    with (String "S" (strings.drop 1 (loose_layout ws (stamp ++ rest)))) in *.
  rewrite !find_at_head by first [discriminate | reflexivity | assumption].
  rewrite Hcl, Hpl, Hstamp.
  cbn [List.length Nat.eqb at_ nth regexp.lookup]. rewrite Hparse. reflexivity.
Qed.

Lemma started_time_is_read_example :
  parseStartedUnix amd64_utc "Started: Mon, 02 Jan 2006 15:04:05 GMT (3 days)"
  = 1136214245.
Proof.
  change (parseStartedUnix amd64_utc
            (loose_layout " "
               (rfc1123 "Mon" 2 (month_name 1) 2006 15 4 5 ++ " (3 days)"))
          = time.Unix (time.Date 2006 1 2 15 4 5)).
  apply started_time_is_read.
  - reflexivity.
  - cbn. tauto.
  - lia.
  - split; [lia|]. discriminate.
  - lia.
  - lia.
  - lia.
  - lia.
  - reflexivity.
Defined.

(** ** A page of one row *)

Lemma select_is_interval_page (env : Env) (body : string) :
  select is_interval (collect_page env body)
  = flat_map (interval_row (normalize body)) intervals.
Proof.
  unfold collect_page.
  assert (Hrows : select is_interval (flat_map (interval_row (normalize body)) intervals)
                  = flat_map (interval_row (normalize body)) intervals).
  { cbn [flat_map intervals]. rewrite !select_app, !select_is_interval_row.
    reflexivity. }
  revert Hrows. generalize (flat_map (interval_row (normalize body)) intervals).
  intros rows Hrows. name_extracted.
  destruct (strings.Contains _ _);
    rewrite ?select_app;
    rewrite ?select_counter, ?select_gauge, ?select_positive_gauge, ?select_when;
    rewrite Hrows;
    cbn [select filter desc is_interval]; rewrite ?when_nil;
    cbn [app]; rewrite ?app_nil_r; reflexivity.
Qed.

Lemma collapsed_after_cell (cs : regexp.cset) (b : bool) (cell rest : string) :
  (forall c, regexp.mem cs c = true -> regexp.mem regexp.CSpace c = false) ->
  cell_of cs cell = true ->
  collapsed b (cell ++ rest) = collapsed false rest.
Proof.
  intros Hcs Hcell. pose proof (cell_of_chars _ _ Hcell) as Hchars.
  destruct cell as [|c cell]; [discriminate Hcell|]. clear Hcell.
  revert b c Hchars. induction cell as [|x cell IH]; intros b c Hchars.
  - cbn [all_chars] in Hchars. apply andb_prop in Hchars. destruct Hchars as [Hc _].
    cbn [append collapsed]. unfold is_space.
    change (regexp.is_space c) with (regexp.mem regexp.CSpace c).
    rewrite (Hcs c Hc). reflexivity.
  - cbn [all_chars] in Hchars. apply andb_prop in Hchars. destruct Hchars as [Hc Hx].
    cbn [append collapsed]. unfold is_space at 1.
    change (regexp.is_space c) with (regexp.mem regexp.CSpace c).
    rewrite (Hcs c Hc). apply (IH false x Hx).
Qed.

Lemma digit_comma_not_amp (c : ascii) :
  regexp.mem digits_comma c = true -> Ascii.eqb "&" c = false.
Proof.
  destruct c as [[] [] [] [] [] [] [] []]; intros H;
    first [reflexivity | discriminate H].
Qed.

Lemma digit_point_not_amp (c : ascii) :
  regexp.mem digits_point c = true -> Ascii.eqb "&" c = false.
Proof.
  destruct c as [[] [] [] [] [] [] [] []]; intros H;
    first [reflexivity | discriminate H].
Qed.

(** A row of the table is left as it is by the normalization. *)
Lemma normalize_row (win reqs rate bytes mbps : string) :
  In win intervals ->
  cell_of digits_comma reqs = true -> cell_of digits_point rate = true ->
  cell_of digits_comma bytes = true -> cell_of digits_point mbps = true ->
  normalize (row win reqs rate bytes mbps) = row win reqs rate bytes mbps.
Proof.
  intros Hwin H1 H2 H3 H4. rewrite normalize_collapse.
  assert (He : strings.Contains (row win reqs rate bytes mbps) "&nbsp;" = false).
  { assert (Hcells : strings.Contains
                       (reqs ++ "</td><td>" ++ rate ++ " /s</td><td>" ++ bytes
                        ++ "</td><td>" ++ mbps ++ " mbps</td></tr>") "&nbsp;" = false).
    { rewrite (Contains_after_run _ _ _ _ _ digit_comma_not_amp (cell_of_chars _ _ H1)).
      cbn [append strings.Contains strings.prefix Ascii.eqb Bool.eqb andb orb].
      rewrite (Contains_after_run _ _ _ _ _ digit_point_not_amp (cell_of_chars _ _ H2)).
      cbn [append strings.Contains strings.prefix Ascii.eqb Bool.eqb andb orb].
      rewrite (Contains_after_run _ _ _ _ _ digit_comma_not_amp (cell_of_chars _ _ H3)).
      cbn [append strings.Contains strings.prefix Ascii.eqb Bool.eqb andb orb].
      rewrite (Contains_after_run _ _ _ _ _ digit_point_not_amp (cell_of_chars _ _ H4)).
      reflexivity. }
    unfold row.
    destruct Hwin as [<-|[<-|[<-|[]]]];
      cbn [append strings.Contains strings.prefix Ascii.eqb Bool.eqb andb orb];
      exact Hcells. }
  rewrite (ReplaceAll_without_entity _ He). apply collapse_collapsed.
  assert (Hcells : forall b,
             collapsed b (reqs ++ "</td><td>" ++ rate ++ " /s</td><td>" ++ bytes
                          ++ "</td><td>" ++ mbps ++ " mbps</td></tr>") = true).
  { intros b.
    rewrite (collapsed_after_cell digits_comma _ _ _ digit_comma_not_space H1).
    change (collapsed false ("</td><td>" ++ rate ++ " /s</td><td>" ++ bytes
                             ++ "</td><td>" ++ mbps ++ " mbps</td></tr>"))
      with (collapsed false (rate ++ " /s</td><td>" ++ bytes
                             ++ "</td><td>" ++ mbps ++ " mbps</td></tr>")).
    rewrite (collapsed_after_cell digits_point _ _ _ digit_point_not_space H2).
    change (collapsed false (" /s</td><td>" ++ bytes
                             ++ "</td><td>" ++ mbps ++ " mbps</td></tr>"))
      with (collapsed false (bytes ++ "</td><td>" ++ mbps ++ " mbps</td></tr>")).
    rewrite (collapsed_after_cell digits_comma _ _ _ digit_comma_not_space H3).
    change (collapsed false ("</td><td>" ++ mbps ++ " mbps</td></tr>"))
      with (collapsed false (mbps ++ " mbps</td></tr>")).
    rewrite (collapsed_after_cell digits_point _ _ _ digit_point_not_space H4).
    reflexivity. }
  unfold row.
  destruct Hwin as [<-|[<-|[<-|[]]]];
    [change (collapsed false (reqs ++ "</td><td>" ++ rate ++ " /s</td><td>" ++ bytes
                              ++ "</td><td>" ++ mbps ++ " mbps</td></tr>") = true)
    |change (collapsed false (reqs ++ "</td><td>" ++ rate ++ " /s</td><td>" ++ bytes
                              ++ "</td><td>" ++ mbps ++ " mbps</td></tr>") = true)
    |change (collapsed false (reqs ++ "</td><td>" ++ rate ++ " /s</td><td>" ++ bytes
                              ++ "</td><td>" ++ mbps ++ " mbps</td></tr>") = true)];
    apply Hcells.
Qed.

(** X15: a page that is the row of one of the three windows, whatever
    numbers of digits its four cells hold, gives the four metrics of
    that window, with the values of the cells and the name of the window
    as label, and no metric of another window. *)
Theorem window_row_alone (env : Env) (win reqs rate bytes mbps : string) :
  In win intervals ->
  cell_of digits_comma reqs = true -> cell_of digits_point rate = true ->
  cell_of digits_comma bytes = true -> cell_of digits_point mbps = true ->
  (0 <=? toInt reqs) = true -> f64.geb (toFloat rate) (f64.of_int 0) = true ->
  (0 <=? toInt bytes) = true -> f64.geb (toFloat mbps) (f64.of_int 0) = true ->
  select is_interval
    (Collect env (Response 200 (Some (row win reqs rate bytes mbps))))
  = window_metrics win reqs rate bytes mbps.
Proof.
  intros Hwin H1 H2 H3 H4 C1 C2 C3 C4.
  rewrite Collect_page, select_is_interval_page.
  rewrite (normalize_row win reqs rate bytes mbps Hwin H1 H2 H3 H4).
  apply row_alone; assumption.
Qed.

Lemma window_row_alone_example :
  select is_interval
    (Collect amd64_utc
       (Response 200
          (Some "<tr><td>60 seconds</td><td>7</td><td>0.1 /s</td><td>1,024</td><td>0.0 mbps</td></tr>")))
  = window_metrics "60 seconds" "7" "0.1" "1,024" "0.0".
Proof.
  apply (window_row_alone amd64_utc "60 seconds" "7" "0.1" "1,024" "0.0");
    first [reflexivity | right; right; left; reflexivity].
Defined.

(** ** The two totals of requests *)

Lemma digit_comma_not_T (c : ascii) :
  regexp.mem digits_comma c = true -> Ascii.eqb "T" c = false.
Proof.
  destruct c as [[] [] [] [] [] [] [] []]; intros H;
    first [reflexivity | discriminate H].
Qed.

(** A pattern that starts with the label and matches one capture at
    the head of a row. *)
Ltac row_read p :=
  unfold parseFirstNumber, regexp.FindStringSubmatch;
  erewrite search_here;
  [|unfold regexp.match_at;
    let r := eval vm_compute in (regexp.MustCompile p) in
    change (regexp.MustCompile p) with r;
    cbn [append]; repeat exec_step; reflexivity];
  change (regexp.groups (regexp.MustCompile p)) with 1%nat;
  cbn [seq map List.length Nat.ltb Nat.leb at_ nth regexp.lookup Nat.eqb];
  rewrite take_app_length; reflexivity.

(** A pattern that starts with the label and does not match at the
    head of a row, where the label occurs once. *)
Ltac row_not_read p H :=
  unfold parseFirstNumber, regexp.FindStringSubmatch;
  rewrite search_next;
  [|unfold regexp.match_at;
    let r := eval vm_compute in (regexp.MustCompile p) in
    change (regexp.MustCompile p) with r;
    repeat exec_step; reflexivity];
  change (regexp.MustCompile p)
    with (lit_then "Total number of requests:"
            (after_lit 25 (regexp.MustCompile p)));
  rewrite (search_without_literal "Total number of requests:" _ _
             ltac:(discriminate));
  [reflexivity|];
  cbn [append strings.Contains strings.prefix Ascii.eqb Bool.eqb andb orb];
  rewrite (Contains_after_run _ _ _ _ _ digit_comma_not_T (cell_of_chars _ _ H));
  reflexivity.

(** X16: the total of requests of the server and the total of requests
    of the in-memory cache have the same label on the status page, and
    are told apart by the cell that the label is in: each pattern reads
    the number of its own row, and nothing from the row of the other. *)
Theorem request_totals_do_not_mix (n : string) :
  cell_of digits_comma n = true ->
  parseFirstNumber (requests_row n) requests_pattern = toInt n
  /\ parseFirstNumber (memcache_requests_row n) memcache_requests_pattern = toInt n
  /\ parseFirstNumber (memcache_requests_row n) requests_pattern = -1
  /\ parseFirstNumber (requests_row n) memcache_requests_pattern = -1.
Proof.
  intros H. unfold requests_row, memcache_requests_row. cbn [append].
  repeat split.
  - row_read requests_pattern.
  - row_read memcache_requests_pattern.
  - row_not_read requests_pattern H.
  - row_not_read memcache_requests_pattern H.
Qed.

Lemma request_totals_do_not_mix_example :
  parseFirstNumber "Total number of requests:</th><td>12,345</td>" requests_pattern
  = 12345
  /\ parseFirstNumber "Total number of requests:</td><td>12,345</td>"
       memcache_requests_pattern = 12345
  /\ parseFirstNumber "Total number of requests:</td><td>12,345</td>" requests_pattern
     = -1
  /\ parseFirstNumber "Total number of requests:</th><td>12,345</td>"
       memcache_requests_pattern = -1.
Proof.
  apply (request_totals_do_not_mix "12,345"). reflexivity.
Defined.

(** ** The descriptors *)

Lemma distinct_NoDup (l : list string) : distinct l = true -> NoDup l.
Proof.
  induction l as [|x l IH]; intros H; [constructor|].
  cbn [distinct] in H. apply andb_prop in H. destruct H as [Hx Hl].
  constructor; [|apply IH, Hl].
  intros Hin. apply negb_true_iff in Hx.
  assert (Hex : existsb (String.eqb x) l = true).
  { apply existsb_exists. exists x. split; [exact Hin|apply String.eqb_refl]. }
  congruence.
Qed.

(** X17: [Describe] announces each of the 32 descriptors of the
    collector exactly once, so every metric that [Collect] sends is
    described; the descriptors have pairwise distinct names, which all
    start with [gwc_]. *)
Theorem Describe_announces_each_descriptor_once :
  (forall d, List.length (filter (Desc_eqb d) Describe) = 1%nat)
  /\ NoDup (map (fun d => fqName (newGwcCollector d)) Describe)
  /\ (forall d, strings.HasPrefix (fqName (newGwcCollector d)) "gwc_" = true).
Proof.
  split; [intros []; reflexivity|].
  split; [apply distinct_NoDup; vm_compute; reflexivity|intros []; reflexivity].
Qed.

(** ** Configuration *)

Lemma leading_ascii_space (c : ascii) (s : string) :
  is_space c = true -> strings.leading_space (String c s) = Some (String c "").
Proof.
  destruct c as [[] [] [] [] [] [] [] []]; intros H; try discriminate H; reflexivity.
Qed.

Lemma trim_left_blank (fuel : nat) (s : string) :
  all_chars is_space s = true -> (String.length s <= fuel)%nat ->
  strings.trim_left fuel s = "".
Proof.
  revert s. induction fuel as [|fuel IH]; intros s Hs Hfuel.
  - destruct s; [reflexivity|cbn in Hfuel; lia].
  - destruct s as [|c s]; [reflexivity|].
    cbn [all_chars] in Hs. apply andb_prop in Hs. destruct Hs as [Hc Hs].
    cbn [strings.trim_left]. rewrite (leading_ascii_space c s Hc).
    cbn [String.length strings.drop]. apply IH; [exact Hs|].
    cbn [String.length] in Hfuel. lia.
Qed.

(** A text of tabs, line feeds, form feeds, carriage returns and spaces
    is trimmed to nothing. *)
Lemma TrimSpace_blank (s : string) :
  all_chars is_space s = true -> strings.TrimSpace s = "".
Proof.
  intros H. unfold strings.TrimSpace, strings.TrimLeftSpace.
  rewrite (trim_left_blank _ s H (Nat.le_refl _)). reflexivity.
Qed.

(** X18: a variable that is not set, or is set to nothing but
    whitespace, gives the fallback, and logs nothing; and
    [envOrDefault] with a fallback that is not empty never returns the
    empty text. *)
Theorem blank_variable_gives_fallback
        (out_of_range : float64 -> Z) (environ : string -> option string)
        (key fallback : string) (timeout : time.Duration) :
  (all_chars is_space (os.Getenv environ key) = true ->
   envOrDefault environ key fallback = fallback
   /\ envDurationOrDefault out_of_range environ key timeout = (timeout, []))
  /\ (fallback <> "" -> envOrDefault environ key fallback <> "").
Proof.
  split.
  - intros H. unfold envOrDefault, envDurationOrDefault.
    rewrite (TrimSpace_blank _ H). split; reflexivity.
  - intros H. unfold envOrDefault.
    destruct (String.eqb (strings.TrimSpace _) "") eqn:E; cbn [negb]; [exact H|].
    apply String.eqb_neq, E.
Qed.

Lemma blank_variable_gives_fallback_example :
  envOrDefault (fun key => if String.eqb key "GWC_TARGET_URL" then Some "  " else None)
    "GWC_TARGET_URL" "http://127.0.0.1:8080/geowebcache"
  = "http://127.0.0.1:8080/geowebcache".
Proof.
  apply (blank_variable_gives_fallback (fun _ => 0)
           (fun key => if String.eqb key "GWC_TARGET_URL" then Some "  " else None)
           "GWC_TARGET_URL" "http://127.0.0.1:8080/geowebcache" 0).
  reflexivity.
Defined.

(** *** Durations *)

Lemma digit_bounds (c : ascii) (d : Z) : strconv.digit c = Some d -> 0 <= d <= 9.
Proof.
  destruct c as [[] [] [] [] [] [] [] []]; intros H;
    first [discriminate H | injection H as <-; cbn; lia].
Qed.

Lemma digit_is_number_char (c : ascii) (d : Z) :
  strconv.digit c = Some d -> time.number_char c = true.
Proof.
  unfold strconv.digit, time.number_char. destruct (regexp.is_digit c);
    [intros _; apply orb_true_r|discriminate].
Qed.

Lemma digits_grow (s : string) (x n : Z) :
  0 <= x -> strconv.digits s x = Some n -> x <= n.
Proof.
  revert x. induction s as [|c s IH]; intros x Hx H.
  - injection H as <-. lia.
  - cbn [strconv.digits] in H. destruct (strconv.digit c) as [d|] eqn:E; [|discriminate H].
    apply digit_bounds in E. specialize (IH (x * 10 + d) ltac:(lia) H). lia.
Qed.

(** [leadingInt] reads a run of digits as [strconv.digits] does, up to
    [1<<63]. *)
Lemma leadingInt_digits (s rest : string) (x n : Z) :
  0 <= x <= 2 ^ 63 ->
  strconv.digits s x = Some n ->
  match rest with
  | String c _ => strconv.digit c = None
  | EmptyString => True
  end ->
  time.leadingInt (s ++ rest) x = if n <=? 2 ^ 63 then Some (n, rest) else None.
Proof.
  revert x. induction s as [|c s IH]; intros x Hx Hn Hrest.
  - injection Hn as <-. cbn [append].
    replace (x <=? 2 ^ 63) with true by (symmetry; apply Z.leb_le; lia).
    destruct rest as [|c r]; [reflexivity|]. cbn [time.leadingInt]. rewrite Hrest.
    reflexivity.
  - cbn [strconv.digits] in Hn. cbn [append time.leadingInt].
    destruct (strconv.digit c) as [d|] eqn:E; [|discriminate Hn].
    pose proof (digit_bounds c d E) as Hd.
    pose proof (digits_grow s (x * 10 + d) n ltac:(lia) Hn) as Hgrow.
    assert (H10 : 2 ^ 63 / 10 = 922337203685477580) by reflexivity.
    destruct (2 ^ 63 / 10 <? x) eqn:E1.
    + apply Z.ltb_lt in E1.
      replace (n <=? 2 ^ 63) with false; [reflexivity|].
      symmetry. apply Z.leb_gt. change (2 ^ 63) with 9223372036854775808. lia.
    + apply Z.ltb_ge in E1. cbv zeta.
      destruct (2 ^ 63 <? x * 10 + d) eqn:E2.
      * apply Z.ltb_lt in E2.
        replace (n <=? 2 ^ 63) with false; [reflexivity|].
        symmetry. apply Z.leb_gt. lia.
      * apply Z.ltb_ge in E2. apply IH; [lia|exact Hn|exact Hrest].
Qed.

(** [time.ParseDuration] rejects a number without a unit, unless it is
    ["0"]. *)
Lemma ParseDuration_without_unit (out_of_range : float64 -> Z) (s : string) :
  all_chars regexp.is_digit s = true -> s <> "" -> s <> "0" ->
  time.ParseDuration out_of_range s = None.
Proof.
  intros Hs Hne H0. unfold time.ParseDuration.
  destruct (digits_of_digits s 0 Hs ltac:(lia)) as [n [Hn _]].
  destruct s as [|c s]; [congruence|].
  assert (Hc : exists d, strconv.digit c = Some d).
  { cbn [strconv.digits] in Hn. destruct (strconv.digit c) as [d|]; [eexists; reflexivity|
      discriminate Hn]. }
  destruct Hc as [d Hc].
  rewrite signed_digit by congruence.
  destruct (String.eqb (String c s) "0") eqn:E; [apply String.eqb_eq in E; congruence|].
  cbn [time.terms]. rewrite (digit_is_number_char c d Hc). cbn [negb].
  pose proof (leadingInt_digits (String c s) "" 0 n ltac:(lia) Hn I) as Hl.
  rewrite append_nil_r in Hl. rewrite Hl.
  destruct (n <=? 2 ^ 63); reflexivity.
Qed.

(** X19: a timeout given as a bare number, the unit forgotten, is not
    taken: [envDurationOrDefault] returns the fallback and logs the
    value as invalid (only ["0"] is a duration without a unit). *)
Theorem timeout_without_unit_is_invalid
        (out_of_range : float64 -> Z) (environ : string -> option string)
        (key s : string) (fallback : time.Duration) :
  strings.TrimSpace (os.Getenv environ key) = s ->
  all_chars regexp.is_digit s = true -> s <> "" -> s <> "0" ->
  envDurationOrDefault out_of_range environ key fallback
  = (fallback, [invalid_duration key s fallback]).
Proof.
  intros Hraw Hs Hne H0. unfold envDurationOrDefault. rewrite Hraw.
  destruct (String.eqb s "") eqn:E; [apply String.eqb_eq in E; congruence|].
  rewrite (ParseDuration_without_unit out_of_range s Hs Hne H0). reflexivity.
Qed.

Lemma timeout_without_unit_is_invalid_example :
  envDurationOrDefault (fun _ => 0)
    (fun key => if String.eqb key "GWC_SCRAPE_TIMEOUT" then Some " 30 " else None)
    "GWC_SCRAPE_TIMEOUT" (5 * time.Second)
  = (5 * time.Second, [invalid_duration "GWC_SCRAPE_TIMEOUT" "30" (5 * time.Second)]).
Proof.
  apply timeout_without_unit_is_invalid;
    [reflexivity | reflexivity | discriminate | discriminate].
Defined.

Lemma unit_names (u : string) (m : Z) :
  time.unit_of time.unitMap u = Some m ->
  In (u, m) time.unitMap.
Proof.
  unfold time.unitMap. generalize dependent m.
  cbn [time.unit_of]. intros m.
  repeat match goal with
    | |- (if String.eqb u ?name then _ else _) = _ -> _ =>
        destruct (String.eqb u name) eqn:?E;
        [apply String.eqb_eq in E; subst u; intros H; injection H as <-;
         cbn; tauto|clear E]
    end.
  discriminate.
Qed.

(** A term of a duration: digits and a unit. *)
Lemma terms_of_number_and_unit (out_of_range : float64 -> Z)
      (s u : string) (n m : Z) (fuel : nat) :
  s <> "" -> strconv.digits s 0 = Some n ->
  time.unit_of time.unitMap u = Some m ->
  n * m < 2 ^ 63 ->
  time.terms out_of_range (S (S fuel)) (s ++ u) 0 = Some (n * m).
Proof.
  intros Hs Hn Hu Hnm.
  pose proof (digits_grow s 0 n ltac:(lia) Hn) as Hn0.
  assert (Hm : 1 <= m).
  { apply unit_names in Hu. cbn in Hu.
    repeat (destruct Hu as [Hu|Hu]; [injection Hu as _ <-; vm_compute; discriminate|]).
    destruct Hu. }
  assert (Hrest : match u with
                  | String c _ => strconv.digit c = None
                  | EmptyString => True
                  end
                  /\ time.unit_and_rest u = (u, "") /\ u <> "").
  { apply unit_names in Hu. cbn in Hu.
    repeat (destruct Hu as [Hu|Hu];
            [injection Hu as <- _; repeat split; discriminate|]).
    destruct Hu. }
  destruct Hrest as [Hdigit [Hunit Hne]].
  assert (Hle : n <= 2 ^ 63) by nia.
  pose proof (leadingInt_digits s u 0 n ltac:(lia) Hn Hdigit) as Hl.
  replace (n <=? 2 ^ 63) with true in Hl by (symmetry; apply Z.leb_le, Hle).
  destruct s as [|c s]; [congruence|].
  assert (Hc : exists d, strconv.digit c = Some d).
  { cbn [strconv.digits] in Hn. destruct (strconv.digit c) as [d|]; [eexists; reflexivity|
      discriminate Hn]. }
  destruct Hc as [d Hc].
  cbn [time.terms]. cbn [append] in Hl |- *.
  rewrite (digit_is_number_char c d Hc). cbn [negb]. rewrite Hl.
  assert (Hpre : Nat.eqb (String.length (String c (s ++ u))) (String.length u) = false).
  { apply Nat.eqb_neq. cbn [String.length]. rewrite length_append. lia. }
  rewrite Hpre. cbn [negb andb].
  assert (Hfrac : match u with
                  | String p s1' =>
                      if Ascii.eqb p "."
                      then
                        let '(f, scale, s2) :=
                          time.leadingFraction s1' 0 (f64.of_int 1) false in
                        (f, scale, s2,
                         negb (Nat.eqb (String.length s1') (String.length s2)))
                      else (0, f64.of_int 1, u, false)
                  | EmptyString => (0, f64.of_int 1, u, false)
                  end = (0, f64.of_int 1, u, false)).
  { apply unit_names in Hu. cbn in Hu.
    repeat (destruct Hu as [Hu|Hu]; [injection Hu as <- _; reflexivity|]).
    destruct Hu. }
  rewrite Hfrac, Hunit.
  destruct u as [|a u']; [congruence|].
  rewrite Hu.
  replace (2 ^ 63 / m <? n) with false.
  2:{ symmetry. apply Z.ltb_ge. apply Z.div_le_lower_bound; lia. }
  cbn [Z.ltb Z.compare andb]. cbv zeta.
  replace ((0 + n * m) mod 2 ^ 64) with (n * m).
  2:{ symmetry. apply Z.mod_small. change (2 ^ 64) with 18446744073709551616.
      change (2 ^ 63) with 9223372036854775808 in Hnm. nia. }
  replace (2 ^ 63 <? n * m) with false by (symmetry; apply Z.ltb_ge; lia).
  reflexivity.
Qed.

Lemma ParseDuration_number_and_unit (out_of_range : float64 -> Z)
      (sg : Sign) (s u : string) (n m : Z) :
  s <> "" -> strconv.digits s 0 = Some n ->
  time.unit_of time.unitMap u = Some m ->
  n * m < 2 ^ 63 ->
  time.ParseDuration out_of_range (sign_text sg ++ s ++ u)
  = Some (signed_value sg (n * m)).
Proof.
  intros Hs Hn Hu Hnm. unfold time.ParseDuration.
  destruct s as [|c s]; [congruence|].
  assert (Hc : strconv.digit c <> None).
  { cbn [strconv.digits] in Hn. destruct (strconv.digit c); [discriminate|discriminate Hn]. }
  assert (Hsigned : strconv.signed (sign_text sg ++ String c s ++ u)
                    = (match sg with minus => true | _ => false end, String c s ++ u)).
  { destruct sg; cbn [sign_text append]; [apply signed_digit, Hc|reflexivity|reflexivity]. }
  rewrite Hsigned.
  assert (Hne : u <> "").
  { intros ->. discriminate Hu. }
  assert (H0 : String.eqb (String c s ++ u) "0" = false).
  { apply String.eqb_neq. intros H. apply (f_equal String.length) in H.
    rewrite length_append in H. destruct u; [congruence|]. cbn [String.length] in H. lia. }
  rewrite H0. cbn [append].
  change (String c (s ++ u)) with (String c s ++ u).
  assert (Hfuel : exists fuel, S (String.length (String c s ++ u)) = S (S fuel)).
  { cbn [append String.length]. eexists. reflexivity. }
  destruct Hfuel as [fuel ->].
  rewrite (terms_of_number_and_unit out_of_range (String c s) u n m fuel Hs Hn Hu Hnm).
  destruct sg; cbn [signed_value]; try reflexivity;
    (replace (2 ^ 63 - 1 <? n * m) with false by (symmetry; apply Z.ltb_ge; lia));
    reflexivity.
Qed.

(** X20: a timeout written as a decimal number and one of the units
    [ns], [us], [ms], [s], [m], [h], with or without a sign, is that
    many units in nanoseconds, as long as it is below [2^63]; nothing is
    logged.  A negative timeout is taken as it is. *)
Theorem timeout_with_unit
        (out_of_range : float64 -> Z) (environ : string -> option string)
        (key : string) (fallback : time.Duration)
        (sg : Sign) (s u : string) (n m : Z) :
  strings.TrimSpace (os.Getenv environ key) = sign_text sg ++ s ++ u ->
  s <> "" -> strconv.digits s 0 = Some n ->
  time.unit_of time.unitMap u = Some m ->
  n * m < 2 ^ 63 ->
  envDurationOrDefault out_of_range environ key fallback
  = (signed_value sg (n * m), []).
Proof.
  intros Hraw Hs Hn Hu Hnm. unfold envDurationOrDefault. rewrite Hraw.
  rewrite (ParseDuration_number_and_unit out_of_range sg s u n m Hs Hn Hu Hnm).
  destruct (String.eqb (sign_text sg ++ s ++ u) "") eqn:E; [|reflexivity].
  apply String.eqb_eq in E. apply (f_equal String.length) in E.
  rewrite !length_append in E. destruct s; [congruence|].
  cbn [String.length] in E. lia.
Qed.

Lemma timeout_with_unit_example :
  envDurationOrDefault (fun _ => 0)
    (fun key => if String.eqb key "GWC_SCRAPE_TIMEOUT" then Some " 30s" else None)
    "GWC_SCRAPE_TIMEOUT" (5 * time.Second)
  = (30 * time.Second, [])
  /\ envDurationOrDefault (fun _ => 0)
       (fun key => if String.eqb key "GWC_SCRAPE_TIMEOUT" then Some "-2m" else None)
       "GWC_SCRAPE_TIMEOUT" (5 * time.Second)
     = (- (2 * time.Minute), []).
Proof.
  split.
  - apply (timeout_with_unit _ _ _ _ unsigned "30" "s" 30 time.Second);
      [reflexivity | discriminate | reflexivity | reflexivity | reflexivity].
  - apply (timeout_with_unit _ _ _ _ minus "2" "m" 2 time.Minute);
      [reflexivity | discriminate | reflexivity | reflexivity | reflexivity].
Defined.

(** X21: in a process where none of the four variables is set to more
    than whitespace, the flags of [main] default to the values that the
    README documents, and nothing is logged. *)
Theorem flag_defaults_without_variables
        (out_of_range : float64 -> Z) (environ : string -> option string) :
  (forall key, In key variables -> all_chars is_space (os.Getenv environ key) = true) ->
  flag_defaults out_of_range environ
  = ({| target_url := "http://127.0.0.1:8080/geowebcache";
        web_listen_address := ":9109";
        web_telemetry_path := "/metrics";
        scrape_timeout := 5 * time.Second |}, []).
Proof.
  intros H. unfold flag_defaults, envOrDefault, envDurationOrDefault.
  rewrite !TrimSpace_blank by (apply H; cbn; tauto). reflexivity.
Qed.

Lemma flag_defaults_without_variables_example :
  flag_defaults (fun _ => 0) (fun _ => None)
  = ({| target_url := "http://127.0.0.1:8080/geowebcache";
        web_listen_address := ":9109";
        web_telemetry_path := "/metrics";
        scrape_timeout := 5000000000 |}, []).
Proof.
  apply (flag_defaults_without_variables (fun _ => 0) (fun _ => None)).
  intros key _. reflexivity.
Defined.
